(** * Retrieval and dialogue control of the question-answering assistant

    A shallow embedding of the retrieval core ([rag/Vector_matching.py]), of
    the answer generator's stream wrapper ([models/model_answer.py]) and of
    the three routers built on them ([main/qa_engine.py], [main/main.py],
    [main/branch_engine.py]), followed by the properties of the specification
    that were checked against them.  The code around them is embedded as
    well, with properties of its own: the intent classifier's wrapper
    ([models/Intent_recognition_model.py]), the API server
    ([api/api_server.py]), the item lookup ([data/fetch_data.py],
    [api/item_api.py]), the script [main/branch.py], and the construction of
    the knowledge base ([rag/embedding.py], [rag/emb_db.py]).

    Conventions.
    - A Python [float] / numpy [float64] is a binary64 value: [PrimFloat.float],
      with IEEE comparisons ([NaN] compares false with everything).
    - A Python [int] is a [Z].
    - A call that may raise returns an [outcome]: [Ok v] or [Raise msg], where
      [msg] is the text [str(e)] of the exception.
    - The external services (embedding, intent classifier, data store, model
      service of the answer generator) are fields of the object that owns
      them, as in the source; their behaviour during a turn is a function of
      their arguments. *)

From Stdlib Require Import ZArith String List Bool Lia Floats.
From Stdlib Require Import Sorted Permutation.
Import ListNotations.

Set Warnings "-inexact-float".

(** ** Exceptions *)

Inductive outcome (A : Type) : Type :=
| Ok (a : A)
| Raise (e : string).
Arguments Ok {A} a.
Arguments Raise {A} e.

Definition bind {A B : Type} (c : outcome A) (k : A -> outcome B) : outcome B :=
  match c with
  | Ok a => k a
  | Raise e => Raise e
  end.

Notation "x <- c ;; k" := (bind c (fun x => k))
  (at level 61, c at next level, right associativity).

(** [dict.get(key, default)] on a key that may be absent. *)
Definition get {A : Type} (field : option A) (default : A) : A :=
  match field with
  | Some v => v
  | None => default
  end.

(** ** rag/Vector_matching.py *)

Module VectorMatching.

Local Open Scope float_scope.

(** One record of the knowledge base file.  Each of the three keys may be
    missing from the JSON object. *)
Record item : Type := {
  item_id : option Z;
  item_text : option string;
  item_vector : option (list float)
}.

(** The dictionaries [search] appends to [all_matches].  [m_id = None] is
    the default ['N/A'] of [item.get('id', 'N/A')]. *)
Record result : Type := {
  m_id : option Z;
  m_text : string;
  similarity : float
}.

(** [np.dot] of two one-dimensional arrays, accumulated from the left.
    (The summation order of the numerical library is not fixed by the
    source; nothing proved below depends on it.) *)
Definition dot (vec1 vec2 : list float) : float :=
  fold_left (fun acc p => acc + fst p * snd p) (combine vec1 vec2) 0.

(** [np.linalg.norm] of a one-dimensional array: [sqrt(dot(x, x))]. *)
Definition norm (vec : list float) : float := sqrt (dot vec vec).

(** [VectorSearcher._cosine_similarity].  [np.dot] raises [ValueError]
    when the two shapes differ. *)
Definition _cosine_similarity (vec1 vec2 : list float) : outcome float :=
  if Nat.eqb (length vec1) (length vec2) then
    let dot_product := dot vec1 vec2 in
    let norm_vec1 := norm vec1 in
    let norm_vec2 := norm vec2 in
    if (norm_vec1 =? 0) || (norm_vec2 =? 0) then Ok 0
    else Ok (dot_product / (norm_vec1 * norm_vec2))
  else Raise "shapes not aligned".

(** The loop of [search] that fills [all_matches]: items without a vector,
    or with an empty one, are skipped; every other item becomes a candidate
    with its similarity. *)
Fixpoint all_matches (query_vector : list float) (knowledge_base : list item)
  : outcome (list result) :=
  match knowledge_base with
  | [] => Ok []
  | it :: rest =>
      match item_vector it with
      | None | Some [] => all_matches query_vector rest
      | Some v =>
          sim <- _cosine_similarity query_vector v ;;
          ms <- all_matches query_vector rest ;;
          Ok ({| m_id := item_id it;
                 m_text := get (item_text it) "N/A"%string;
                 similarity := sim |} :: ms)
      end
  end.

(** [sorted(l, key=..., reverse=True)].  Python's sort compares keys with
    [<] only and is stable; with [reverse=True] it reverses the list, sorts
    it in ascending order and reverses the outcome, which keeps equal keys
    in their original order.  The ascending sort is written as the
    insertion sort Python runs on short lists: each element goes after the
    elements that are not greater than it.  On keys that [<] orders totally
    (no [NaN]) every stable sort returns this list. *)
Section Sorting.
Context {A : Type} (key : A -> float).

Fixpoint insert (x : A) (l : list A) : list A :=
  match l with
  | [] => [x]
  | y :: l' => if key x <? key y then x :: l else y :: insert x l'
  end.

Definition sort_ascending (l : list A) : list A :=
  fold_left (fun acc x => insert x acc) l [].

Definition sorted_reverse (l : list A) : list A :=
  rev (sort_ascending (rev l)).
End Sorting.

(** The slice [l[:k]] for an integer [k]: a negative [k] drops the last
    [-k] elements. *)
Definition slice_to {A : Type} (k : Z) (l : list A) : list A :=
  if (0 <=? k)%Z then firstn (Z.to_nat k) l
  else firstn (length l - Z.to_nat (- k)) l.

(** [VectorSearcher]: the loaded knowledge base and the embedding service. *)
Record VectorSearcher : Type := {
  knowledge_base : list item;
  get_embedding : string -> outcome (list float)
}.

(** [VectorSearcher.search] (the debug printing is left out). *)
Definition search (self : VectorSearcher) (user_query : string)
    (top_k : Z) (similarity_threshold : float) : outcome (list result) :=
  query_vector <- get_embedding self user_query ;;
  matches <- all_matches query_vector (knowledge_base self) ;;
  let sorted_matches := sorted_reverse similarity matches in
  let final_results :=
    filter (fun m => similarity_threshold <=? similarity m) sorted_matches in
  Ok (slice_to top_k final_results).

End VectorMatching.

(** ** Text, calls and the execution monad shared by the routers *)

(** A cell of a data-store row as text; [None] is SQL [NULL] (Python [None]).
    A row is the [dict] of a [DictCursor], in column order. *)
Definition db_row : Type := list (string * option string).

(** [row.get(k)]: [None] when the column is absent or [NULL]. *)
Fixpoint row_get (row : db_row) (k : string) : option string :=
  match row with
  | [] => None
  | (k', v) :: rest => if String.eqb k k' then v else row_get rest k
  end.

(** [row[k]]: raises [KeyError] when the column is absent. *)
Fixpoint row_index (row : db_row) (k : string) : outcome (option string) :=
  match row with
  | [] => Raise k
  | (k', v) :: rest => if String.eqb k k' then Ok v else row_index rest k
  end.

(** Truth value of a cell: neither [None] nor the empty string. *)
Definition truthy (v : option string) : bool :=
  match v with
  | Some s => negb (String.eqb s "")
  | None => false
  end.

(** The [id] of an option offered to the user: the id of a retrieval result
    ([None] is its default ['N/A']) or the [id] cell of a data-store row. *)
Inductive id_value : Type :=
| IdOfResult (item_id : option Z)
| IdOfRow (cell : option string).

Record option_entry : Type := {
  o_id : id_value;
  business_name : string
}.

(** The dictionaries the routers hand to [json.dumps]. *)
Inductive payload : Type :=
| OptionsData (old_query : string) (options : list option_entry)
    (* {"old_query": ..., "options": [...]} *)
| OptionsEnvelope (old_query : string) (options : list option_entry)
    (* {"type": "options", "data": {"old_query": ..., "options": [...]}} *)
| ErrorEnvelope (message : string).
    (* {"type": "error", "message": ...} *)

(** A piece of text produced by a router: a plain string, or a formatted
    value kept symbolic (the rendering of integers and of JSON is outside this
    development). *)
Inductive text : Type :=
| Str (s : string)
| IdBlock (item_id : option Z)   (* the fenced JSON block naming the matched id *)
| IdLine (item_id : Z)           (* branch_engine.py: f'json{{"id":"{item_id}"}}\n' *)
| JsonDumps (d : payload)        (* json.dumps(d, ensure_ascii=False) *)
| JsonDumpsIndent (d : payload). (* json.dumps(d, indent=4, ensure_ascii=False) *)

(** What a lazy sequence of fragments does when it is consumed to its end:
    it yields [fragments] and then stops, or raises [failure]. *)
Record stream : Type := {
  fragments : list string;
  failure : option string
}.

(** Calls to the collaborators, in the order they are made. *)
Inductive event : Type :=
| CallIntent (query : string)
| CallSearch (query : string)
| CallDbConnect
| CallItemDetails (item_id : option Z)
| CallBusinessName (item_id : option Z)
| CallFetchById (item_id : Z)
| CallChat (query context : string)
| CallChatStream (query : string)
| CallLog (user_id : string) (session_count : Z) (assistant_response : text).

Section Run.
(** [S] is the mutable state a router works on (the session object, or the
    local variables of the interactive loop). *)
Context {S : Type}.

Record world : Type := {
  state : S;
  calls : list event;     (* collaborator calls made so far *)
  output : list text      (* fragments yielded so far *)
}.

(** A computation changes the world and returns or raises; what it did
    before raising stays done. *)
Definition M (A : Type) : Type := world -> world * outcome A.

Definition ret {A : Type} (a : A) : M A := fun w => (w, Ok a).

Definition raise {A : Type} (e : string) : M A := fun w => (w, Raise e).

Definition mbind {A B : Type} (c : M A) (k : A -> M B) : M B :=
  fun w =>
    match c w with
    | (w', Ok a) => k a w'
    | (w', Raise e) => (w', Raise e)
    end.

(** [try: body / except Exception as e: handler e]. *)
Definition try_except {A : Type} (body : M A) (handler : string -> M A) : M A :=
  fun w =>
    match body w with
    | (w', Ok a) => (w', Ok a)
    | (w', Raise e) => handler e w'
    end.

(** A call to a collaborator: recorded, then its outcome. *)
Definition call {A : Type} (ev : event) (c : outcome A) : M A :=
  fun w => ({| state := state w; calls := calls w ++ [ev]; output := output w |}, c).

Definition yield (t : text) : M unit :=
  fun w => ({| state := state w; calls := calls w; output := output w ++ [t] |}, Ok tt).

Definition read : M S := fun w => (w, Ok (state w)).

Definition write (s : S) : M unit :=
  fun w => ({| state := s; calls := calls w; output := output w |}, Ok tt).

(** [for x in l: body x]. *)
Fixpoint for_each {A : Type} (l : list A) (body : A -> M unit) : M unit :=
  match l with
  | [] => ret tt
  | x :: rest => mbind (body x) (fun _ => for_each rest body)
  end.

(** [for x in l: acc.append(f x)], where [f] may raise. *)
Fixpoint collect {A B : Type} (l : list A) (f : A -> M B) : M (list B) :=
  match l with
  | [] => ret []
  | x :: rest =>
      mbind (f x) (fun b => mbind (collect rest f) (fun bs => ret (b :: bs)))
  end.

(** [for chunk in s: body chunk]: the fragments in order, then the failure
    of the stream if it has one. *)
Definition consume (s : stream) (body : string -> M unit) : M unit :=
  mbind (for_each (fragments s) body)
    (fun _ => match failure s with
              | Some e => raise e
              | None => ret tt
              end).

Definition start (s : S) : world := {| state := s; calls := []; output := [] |}.
End Run.

Arguments world S : clear implicits.
Arguments M S A : clear implicits.

Declare Scope run_scope.
Delimit Scope run_scope with run.
Notation "x <- c ;; k" := (mbind c (fun x => k))
  (at level 61, c at next level, right associativity) : run_scope.
Notation "c ;;; k" := (mbind c (fun _ => k))
  (at level 61, right associativity) : run_scope.

(** The line feed character, and [sep.join(lines)]. *)
Definition nl : string := String (Ascii.ascii_of_nat 10) EmptyString.

Definition join (sep : string) (lines : list string) : string :=
  String.concat sep lines.

(** Run a call that changes nothing of the world. *)
Definition lift {S A : Type} (c : outcome A) : M S A := fun w => (w, c).

(** ** models/model_answer.py *)

Module ModelAnswer.
Local Open Scope string_scope.

(** The [db_info] the routers pass: a context string, or the dictionary of
    [Branch1Engine.build_context_payload],
    [{"items_info": ..., "items_doc": ...}]. *)
Inductive db_info : Type :=
| InfoText (s : string)
| InfoPayload (items_info : db_row) (items_doc : list db_row).

(** A streamed completion of the model service, iterated to its end: the
    content piece read from each chunk (the empty string when the chunk
    holds none), then the end of the stream or the exception that breaks
    it. *)
Record completion : Type := {
  pieces : list string;
  broken : option string
}.

(** [DashScopeChatBot], seen through its two outside calls:
    - [system_prompt i] is
      [self.system_template.format(db_info=self._format_db_info(i))], which
      raises when the template does not format;
    - [completions_create p q] is [self.client.chat.completions.create] for
      the system prompt [p] and the user question [q], in stream mode. *)
Record DashScopeChatBot : Type := {
  system_prompt : db_info -> outcome string;
  completions_create : string -> string -> outcome completion
}.

(** [if content_piece:] keeps the pieces that are not empty. *)
Definition content_pieces (c : completion) : list string :=
  filter (fun piece => negb (String.eqb piece "")) (pieces c).

(** [f"Error: {str(e)}"]. *)
Definition error_text (e : string) : string := "Error: " ++ e.

(** [DashScopeChatBot.chat] with its default [stream=True]: the pieces
    joined, or the text ["Error: ..."] when the service or its stream
    raises.  Only the formatting of the prompt, which stands before the
    [try], raises to the caller. *)
Definition chat (self : DashScopeChatBot) (user_question : string) (info : db_info)
  : outcome string :=
  prompt <- system_prompt self info ;;
  match completions_create self prompt user_question with
  | Ok c =>
      match broken c with
      | None => Ok (join "" (content_pieces c))
      | Some e => Ok (error_text e)
      end
  | Raise e => Ok (error_text e)
  end.

(** [DashScopeChatBot.chat_stream]: a generator that yields each piece as
    it comes and, when the service or its stream raises, one last fragment
    ["Error: ..."]; it raises only when the prompt does not format, before
    its first fragment. *)
Definition chat_stream (self : DashScopeChatBot) (user_question : string) (info : db_info)
  : stream :=
  match system_prompt self info with
  | Raise e => {| fragments := []; failure := Some e |}
  | Ok prompt =>
      match completions_create self prompt user_question with
      | Ok c =>
          {| fragments := (content_pieces c ++
                           match broken c with
                           | None => []
                           | Some e => [error_text e]
                           end)%list;
             failure := None |}
      | Raise e => {| fragments := [error_text e]; failure := None |}
      end
  end.

End ModelAnswer.

(** ** The data-store statements of the routers

    [main.py] and [QAEngine.handle_query] hold these statements inline, and
    [QAEngine._get_context_for_item] and [QAEngine._get_structured_options]
    hold them once more; they are written once here, over the connection and
    the two configured queries ([execute] followed by [fetchall],
    respectively [fetchone]). *)

Module DataStore.
Import VectorMatching.
Local Open Scope string_scope.
Local Open Scope run_scope.

Record connection : Type := {
  pymysql_connect : outcome unit;
  query_item_details : option Z -> outcome (list db_row);
  query_business_name : option Z -> outcome (option db_row)
}.

(** The context assembled from a non-empty [db_results]. *)
Definition format_context (db_results : list db_row) : string :=
  let item_info :=
    filter (fun kv => negb (String.eqb (fst kv) "doc_name" || String.eqb (fst kv) "doc_text"))
           (hd [] db_results) in
  let ctx_lines :=
    "--- 业务详情 ---" ::
    flat_map (fun kv => match snd kv with
                        | Some v => [fst kv ++ ": " ++ v]
                        | None => []
                        end) item_info in
  let doc_lines :=
    flat_map (fun row =>
                let name := row_get row "doc_name" in
                let text := row_get row "doc_text" in
                if truthy name
                then ["- " ++ get name "" ++ ": " ++ (if truthy text then get text "" else "无")]
                else []) db_results in
  let ctx_lines :=
    match doc_lines with
    | [] => ctx_lines
    | _ :: _ => (ctx_lines ++ (nl ++ "--- 相关文档 ---")%string :: doc_lines)%list
    end in
  join nl ctx_lines.

(** The context of the single match: the rows of the data store, and the
    text stored with the retrieval result when the data store fails or
    answers nothing. *)
Definition get_context_for_item {S : Type} (db : connection)
    (item_id : option Z) (result : result) : M S string :=
  try_except
    (call CallDbConnect (pymysql_connect db) ;;;
     db_results <- call (CallItemDetails item_id) (query_item_details db item_id) ;;
     match db_results with
     | _ :: _ => ret (format_context db_results)
     | [] => ret (m_text result)
     end)
    (fun _ => ret (m_text result)).

Definition fallback_option (r : result) : option_entry :=
  {| o_id := IdOfResult (m_id r); business_name := m_text r |}.

(** The options of several matches: the name the data store has for each
    id, the stored text where it has none, and the stored texts of all of
    them when the data store fails. *)
Definition get_structured_options {S : Type} (db : connection)
    (search_results : list result) : M S (list option_entry) :=
  try_except
    (call CallDbConnect (pymysql_connect db) ;;;
     collect search_results (fun r =>
       let item_id := m_id r in
       row <- call (CallBusinessName item_id) (query_business_name db item_id) ;;
       match row with
       | Some row =>
           if truthy (row_get row "business_name")
           then id <- lift (row_index row "id") ;;
                ret {| o_id := IdOfRow id;
                       business_name := get (row_get row "business_name") "" |}
           else ret (fallback_option r)
       | None => ret (fallback_option r)
       end))
    (fun _ => ret (map fallback_option search_results)).

End DataStore.

(** ** main/qa_engine.py *)

Module QaEngine.
Import VectorMatching DataStore ModelAnswer.
Local Open Scope string_scope.
Local Open Scope run_scope.

(** An entry of [intent_history]: [{"role": ..., "content": ...}]. *)
Record message : Type := {
  role : string;
  content : text
}.

(** [QASessionState]. *)
Record QASessionState : Type := {
  intent_history : list message;
  int_id : Z;
  session_id : string
}.

(** [QASessionState(session_id)]: an empty history and a counter of 0. *)
Definition new_session (sid : string) : QASessionState :=
  {| intent_history := []; int_id := 0; session_id := sid |}.

Definition set_int_id (session : QASessionState) (n : Z) : QASessionState :=
  {| intent_history := intent_history session;
     int_id := n;
     session_id := session_id session |}.

(** [session.intent_history.append(m)]. *)
Definition append_history (session : QASessionState) (m : message) : QASessionState :=
  {| intent_history := intent_history session ++ [m];
     int_id := int_id session;
     session_id := session_id session |}.

(** [QAEngine]: its collaborators and its threshold.
    [intent_recognizer q h] is the label read from the classifier's
    response to [q] with history [h], after [.strip().lower()]; it raises
    when the call or the reading raises. *)
Record QAEngine : Type := {
  intent_recognizer : string -> list message -> outcome string;
  answer_generator : DashScopeChatBot;
  searcher : VectorSearcher;
  similarity_threshold : float;
  db : connection
}.

(** [resp["data"]], [resp["meta"]] (without the duration) and [resp]. *)
Inductive data : Type :=
| AnswerData (answer : string)
| OptionsList (old_query : string) (options : list option_entry).

Record meta : Type := {
  intent : string;
  meta_int_id : Z;
  num_results : Z
}.

Record response : Type := {
  r_type : string;
  r_data : data;
  r_meta : meta
}.

(** The fixed messages of the engine. *)
Definition not_found_message : string :=
  "抱歉，我在知识库中没有找到与您问题直接相关的信息。".

Definition generation_failed_message : string :=
  "抱歉，生成回答时出现了技术问题，请稍后重试。".

(** Step 1 of both handlers: the intent label, ["t2"] when the classifier
    fails, then the update of the follow-up counter. *)
Definition recognise_intent (self : QAEngine) (user_query : string)
  : M QASessionState string :=
  session <- read ;;
  intent_result <-
    try_except
      (call (CallIntent user_query)
            (intent_recognizer self user_query (intent_history session)))
      (fun _ => ret "t2") ;;
  (if String.eqb intent_result "t1"
   then write (set_int_id session (int_id session + 1))
   else write (set_int_id session 1)) ;;;
  ret intent_result.

(** Step 2 of both handlers: retrieval; a failure counts as no result. *)
Definition retrieve (self : QAEngine) (user_query : string)
  : M QASessionState (list result) :=
  try_except
    (call (CallSearch user_query)
          (search (searcher self) user_query 3 (similarity_threshold self)))
    (fun _ => ret []).

(** The two appends that close a turn. *)
Definition update_history (user_query : string) (answer : text)
  : M QASessionState unit :=
  session <- read ;;
  write (append_history session {| role := "user"; content := Str user_query |}) ;;;
  session <- read ;;
  write (append_history session {| role := "assistant"; content := answer |}).

(** [QAEngine._log_user_interaction]: the entry written to the log file
    (of its fields, the user, the number of the turn and the response are
    kept).  Writing it is taken to succeed. *)
Definition _log_user_interaction (user_id : string) (assistant_response : text)
  : M QASessionState unit :=
  session <- read ;;
  call (CallLog user_id (Z.of_nat (length (intent_history session)) / 2) assistant_response)
       (Ok tt).

(** Step 3 of [handle_query]: the branch on the number of results and on
    the follow-up counter; it returns [resp["data"]]. *)
Definition branch (self : QAEngine) (user_query : string) (search_results : list result)
  : M QASessionState data :=
  let num_results := Z.of_nat (length search_results) in
  session <- read ;;
  if (0 <? num_results)%Z && (int_id session <? 3)%Z then
    if (num_results =? 1)%Z then
      match search_results with
      | [] => raise "list index out of range"
      | result :: _ =>
          let item_id := m_id result in
          context_for_model <- get_context_for_item (db self) item_id result ;;
          answer <-
            try_except
              (call (CallChat user_query context_for_model)
                    (chat (answer_generator self) user_query
                          (InfoText context_for_model)))
              (fun _ => ret generation_failed_message) ;;
          ret (AnswerData answer)
      end
    else
      business_name_list <- get_structured_options (db self) search_results ;;
      ret (OptionsList user_query business_name_list)
  else
    (* no result, or too many follow-ups *)
    ret (AnswerData not_found_message).

(** [answer_for_history]: the answer, or the JSON text of the options. *)
Definition answer_for_history (resp_data : data) : text :=
  match resp_data with
  | AnswerData answer => Str answer
  | OptionsList old_query options => JsonDumps (OptionsData old_query options)
  end.

(** [QAEngine.handle_query]. *)
Definition handle_query (self : QAEngine) (user_query : string) (user_id : string)
  : M QASessionState response :=
  intent_result <- recognise_intent self user_query ;;
  search_results <- retrieve self user_query ;;
  resp_data <- branch self user_query search_results ;;
  update_history user_query (answer_for_history resp_data) ;;;
  _log_user_interaction user_id (answer_for_history resp_data) ;;;
  session <- read ;;
  ret {| r_type := match resp_data with
                   | AnswerData _ => "answer"
                   | OptionsList _ _ => "options"
                   end;
         r_data := resp_data;
         r_meta := {| intent := intent_result;
                      meta_int_id := int_id session;
                      num_results := Z.of_nat (length search_results) |} |}.

(** [self.logger.error(...)] in the handler of [handle_query_stream]:
    [QAEngine.__init__] sets [user_logger] and no attribute [logger], so
    reading [self.logger] raises [AttributeError]. *)
Definition self_logger_error : M QASessionState unit :=
  raise "'QAEngine' object has no attribute 'logger'".

(** Step 3 of [handle_query_stream]: the same branch, yielding what it
    produces; it returns [assistant_response]. *)
Definition stream_branch (self : QAEngine) (query : string) (search_results : list result)
  : M QASessionState text :=
  let num_results := Z.of_nat (length search_results) in
  session <- read ;;
  if (0 <? num_results)%Z && (int_id session <? 3)%Z then
    if (num_results =? 1)%Z then
      match search_results with
      | [] => raise "list index out of range"
      | result :: _ =>
          let item_id := m_id result in
          yield (IdBlock item_id) ;;;
          context_for_model <- get_context_for_item (db self) item_id result ;;
          (* the rows are fetched once more for the log, unguarded *)
          call CallDbConnect (pymysql_connect (db self)) ;;;
          sql_data <- call (CallItemDetails item_id)
                           (query_item_details (db self) item_id) ;;
          call (CallChatStream query) (Ok tt) ;;;
          consume (chat_stream (answer_generator self) query
                                (InfoText context_for_model))
                  (fun chunk => yield (Str chunk)) ;;;
          (* reached only when the stream ended without raising, so every
             fragment was collected *)
          ret (Str (join "" (fragments
                 (chat_stream (answer_generator self) query
                              (InfoText context_for_model)))))
      end
    else
      business_name_list <- get_structured_options (db self) search_results ;;
      let assistant_response := JsonDumps (OptionsEnvelope query business_name_list) in
      yield assistant_response ;;;
      ret assistant_response
  else
    yield (Str not_found_message) ;;;
    ret (Str not_found_message).

(** [QAEngine.handle_query_stream]: a generator; the fragments it yields
    are the [output] of the world, and it ends by returning or by raising. *)
Definition handle_query_stream (self : QAEngine) (query : string) (user_id : string)
  : M QASessionState unit :=
  try_except
    (intent_result <- recognise_intent self query ;;
     search_results <- retrieve self query ;;
     assistant_response <- stream_branch self query search_results ;;
     update_history query assistant_response ;;;
     _log_user_interaction user_id assistant_response)
    (fun e =>
       self_logger_error ;;;
       yield (JsonDumps (ErrorEnvelope e))).

End QaEngine.

(** ** main/main.py *)

Module MainLoop.
Import VectorMatching DataStore ModelAnswer.
Local Open Scope string_scope.
Local Open Scope run_scope.

(** [intent_history] of the interactive loop holds what the loop appends:
    bare strings and [{"role": ..., "content": ...}] dictionaries. *)
Inductive history_entry : Type :=
| Bare (s : text)
| Message (role : string) (content : text).

(** The local variables of [main] that live across iterations. *)
Record locals : Type := {
  intent_history : list history_entry;
  int_id : Z;
  session_count : Z
}.

(** Their values when the loop starts. *)
Definition initial : locals :=
  {| intent_history := []; int_id := 0; session_count := 0 |}.

(** The models and the data store the loop works with. *)
Record components : Type := {
  intent_recognizer : string -> list history_entry -> outcome string;
  answer_generator : DashScopeChatBot;
  searcher : VectorSearcher;
  db : connection
}.

Definition not_found_message : string :=
  "抱歉，我在知识库中没有找到与您问题相关的信息。请尝试换个方式提问，或者联系相关部门获取帮助。".

Definition too_many_followups_message : string :=
  "您已经连续追问了多次，我可能无法准确理解您的需求。建议您重新描述问题，或者联系相关部门获取更详细的帮助。".

Definition generation_failed_message : string :=
  "抱歉，生成回答时出现了技术问题，请稍后重试。".

Definition set_int_id (n : Z) : M locals unit :=
  st <- read ;;
  write {| intent_history := intent_history st; int_id := n;
           session_count := session_count st |}.

Definition set_history (h : list history_entry) : M locals unit :=
  st <- read ;;
  write {| intent_history := h; int_id := int_id st;
           session_count := session_count st |}.

(** [l[-n:]] for a positive [n]. *)
Definition last_n {A : Type} (n : nat) (l : list A) : list A :=
  skipn (length l - n) l.

(** Steps 1 and 1.1 of an iteration: the intent label, ["t2"] when the
    classifier fails, then the update of the follow-up counter. *)
Definition recognise_intent (c : components) (user_query : string) : M locals string :=
  st <- read ;;
  intent_result <-
    try_except
      (call (CallIntent user_query)
            (intent_recognizer c user_query (intent_history st)))
      (fun _ => ret "t2") ;;
  (if String.eqb intent_result "t1"
   then set_int_id (int_id st + 1)
   else set_int_id 1) ;;;
  ret intent_result.

(** Step 2: retrieval, with the threshold 0.5; a failure counts as no
    result. *)
Definition retrieve (c : components) (user_query : string) : M locals (list result) :=
  try_except
    (call (CallSearch user_query) (search (searcher c) user_query 3 0.5%float))
    (fun _ => ret []).

(** Step 3: the decision; it prints and returns [assistant_response]. *)
Definition decide (c : components) (user_query : string) (search_results : list result)
  : M locals text :=
  let num_results := Z.of_nat (length search_results) in
  st <- read ;;
  if (0 <? num_results)%Z && (int_id st <? 3)%Z then
    if (num_results =? 1)%Z then
      match search_results with
      | [] => raise "list index out of range"
      | result :: _ =>
          let item_id := m_id result in
          context_for_model <- get_context_for_item (db c) item_id result ;;
          try_except
            (call (CallChatStream user_query) (Ok tt) ;;;
             consume (chat_stream (answer_generator c) user_query
                                   (InfoText context_for_model))
                     (fun chunk => yield (Str chunk)) ;;;
             ret (Str (join "" (fragments
                    (chat_stream (answer_generator c) user_query
                                 (InfoText context_for_model))))))
            (fun _ =>
               yield (Str generation_failed_message) ;;;
               ret (Str generation_failed_message))
      end
    else
      business_name_list <- get_structured_options (db c) search_results ;;
      let assistant_response :=
        JsonDumpsIndent (OptionsData user_query business_name_list) in
      yield assistant_response ;;;
      ret assistant_response
  else
    let assistant_response :=
      if (num_results =? 0)%Z then Str not_found_message
      else Str too_many_followups_message in
    yield assistant_response ;;;
    ret assistant_response.

(** The update of the history that closes an iteration: the query and the
    response as bare strings, the cut to the last 10 entries, then the query
    and the response once more as role/content dictionaries. *)
Definition update_history (user_query : string) (assistant_response : text)
  : M locals unit :=
  st <- read ;;
  set_history (intent_history st ++ [Bare (Str user_query)]) ;;;
  st <- read ;;
  set_history (intent_history st ++ [Bare assistant_response]) ;;;
  st <- read ;;
  (if (10 <? Z.of_nat (length (intent_history st)))%Z
   then set_history (last_n 10 (intent_history st))
   else ret tt) ;;;
  st <- read ;;
  set_history (intent_history st ++ [Message "user" (Str user_query)]) ;;;
  st <- read ;;
  set_history (intent_history st ++ [Message "assistant" assistant_response]).

(** One iteration of the [while True] loop, for an input that is not an
    exit word.  The text printed after ["AI: "] is the [output]; the
    diagnostic prints are left out.  It returns [assistant_response]. *)
Definition turn (c : components) (user_id : string) (user_query : string)
  : M locals text :=
  st <- read ;;
  write {| intent_history := intent_history st; int_id := int_id st;
           session_count := session_count st + 1 |} ;;;
  intent_result <- recognise_intent c user_query ;;
  search_results <- retrieve c user_query ;;
  assistant_response <- decide c user_query search_results ;;
  st <- read ;;
  call (CallLog user_id (session_count st) assistant_response) (Ok tt) ;;;
  update_history user_query assistant_response ;;;
  ret assistant_response.

End MainLoop.

(** ** main/branch_engine.py *)

Module BranchEngine.
Import ModelAnswer.
Local Open Scope string_scope.
Local Open Scope run_scope.

(** [Branch1Engine]: the two configured table names, the data store (its
    connection and the two queries of [fetch_data_by_id], as one call) and
    the answer generator. *)
Record Branch1Engine : Type := {
  table_items_info : option string;
  table_items_doc : option string;
  query_tables : Z -> outcome (option db_row * list db_row);
  bot : DashScopeChatBot
}.

Definition tables_not_configured : string :=
  "数据库表名未在.env文件中配置。请检查 QA_TABLE_NAME_ITEMS_INFO 和 QA_TABLE_NAME_ITEMS_DOC。".

(** [Branch1Engine.fetch_data_by_id]. *)
Definition fetch_data_by_id (self : Branch1Engine) (item_id : Z)
  : M unit (option db_row * list db_row) :=
  if negb (truthy (table_items_info self)) || negb (truthy (table_items_doc self))
  then raise tables_not_configured
  else
    try_except
      (call (CallFetchById item_id) (query_tables self item_id))
      (fun e => raise ("数据库查询失败: " ++ e)).

(** [Branch1Engine.build_context_payload]. *)
Definition build_context_payload (item_row : option db_row) (docs_rows : list db_row)
  : db_info :=
  InfoPayload (get item_row []) docs_rows.

(** [Branch1Engine.handle_query_stream]. *)
Definition handle_query_stream (self : Branch1Engine) (item_id : Z) (user_question : string)
  : M unit unit :=
  try_except
    (rows <- fetch_data_by_id self item_id ;;
     let context_payload := build_context_payload (fst rows) (snd rows) in
     yield (IdLine item_id) ;;;
     call (CallChatStream user_question) (Ok tt) ;;;
     consume (chat_stream (bot self) user_question context_payload)
             (fun chunk => if String.eqb chunk "" then ret tt else yield (Str chunk)))
    (fun e => yield (Str ("处理失败: " ++ e))).

End BranchEngine.

(** ** rag/Vector_matching.py: loading the knowledge base *)

Module KnowledgeBase.
Import VectorMatching.

(** What [open(self.db_path)] followed by [json.load] does: the records of
    the file, or one of the two exceptions [_load_knowledge_base] catches, or
    another exception. *)
Inductive file_read : Type :=
| Loaded (records : list item)
| FileNotFoundError
| JSONDecodeError
| OtherError (e : string).

(** [VectorSearcher._load_knowledge_base]. *)
Definition _load_knowledge_base (db_file : file_read) : outcome (list item) :=
  match db_file with
  | Loaded records => Ok records
  | FileNotFoundError => Ok []
  | JSONDecodeError => Ok []
  | OtherError e => Raise e
  end.

(** [VectorSearcher.__init__], for a given embedding service. *)
Definition new_searcher (db_file : file_read) (embedding : string -> outcome (list float))
  : outcome VectorSearcher :=
  records <- _load_knowledge_base db_file ;;
  Ok {| knowledge_base := records; get_embedding := embedding |}.

End KnowledgeBase.

(** ** models/Intent_recognition_model.py *)

Module IntentRecognition.
Import QaEngine.
Local Open Scope string_scope.

(** [QwenChat]: its system prompt and the model service.
    [completions_create messages] is the content of the first choice of the
    response of [self.client.chat.completions.create], as the handlers read
    it; it raises when the call or the reading raises. *)
Record QwenChat : Type := {
  system_prompt : string;
  completions_create : list message -> outcome string
}.

(** [QwenChat.chat]. *)
Definition chat (self : QwenChat) (user_prompt : string) (history : list message)
  : outcome string :=
  if String.eqb user_prompt "" then Raise "user_prompt 不能为空。"
  else
    let messages :=
      ([{| role := "system"; content := Str (system_prompt self) |}]
         ++ history
         ++ [{| role := "user"; content := Str user_prompt |}])%list in
    completions_create self messages.


End IntentRecognition.

(** ** main/branch_engine.py: the buffered handler *)

Module BranchQuery.
Import ModelAnswer BranchEngine.
Local Open Scope string_scope.
Local Open Scope run_scope.

(** The dictionary [Branch1Engine.handle_query] returns: the answer with
    [context_info], or the failure. *)
Inductive reply : Type :=
| Answered (item_id : Z) (answer : string) (items_info_found : bool) (docs_count : nat)
| Failed (item_id : Z) (answer : string) (error : string).

(** [Branch1Engine.handle_query]: the chunks that are not empty are
    collected and joined once the generator has ended. *)
Definition handle_query (self : Branch1Engine) (item_id : Z) (user_question : string)
  : M unit reply :=
  try_except
    (rows <- fetch_data_by_id self item_id ;;
     let context_payload := build_context_payload (fst rows) (snd rows) in
     call (CallChatStream user_question) (Ok tt) ;;;
     let generation := chat_stream (bot self) user_question context_payload in
     consume generation (fun _ => ret tt) ;;;
     let answer_parts :=
       filter (fun chunk => negb (String.eqb chunk "")) (fragments generation) in
     ret (Answered item_id (join "" answer_parts)
            (match fst rows with Some _ => true | None => false end)
            (length (snd rows))))
    (fun e => ret (Failed item_id ("处理失败: " ++ e) e)).

End BranchQuery.

(** ** api/api_server.py *)

Module ApiServer.
Import QaEngine.
Local Open Scope string_scope.

(** [ChatRequest] and [Branch1Request], as parsed. *)
Record ChatRequest : Type := {
  query : string;
  session_id : option string;
  stream : option bool;
  user_id : string
}.

Record Branch1Request : Type := {
  b_item_id : Z;
  b_query : string;
  b_stream : option bool
}.

(** [SESSIONS]: a dictionary, in insertion order. *)
Definition sessions : Type := list (string * QASessionState).

(** [SESSIONS.get(k)]. *)
Fixpoint lookup (k : string) (pool : sessions) : option QASessionState :=
  match pool with
  | [] => None
  | (k', s) :: rest => if String.eqb k k' then Some s else lookup k rest
  end.

(** [SESSIONS[k] = s]: the value of an existing key is replaced, a new key
    goes to the end. *)
Fixpoint store (k : string) (s : QASessionState) (pool : sessions) : sessions :=
  match pool with
  | [] => [(k, s)]
  | (k', s') :: rest =>
      if String.eqb k k' then (k, s) :: rest else (k', s') :: store k s rest
  end.

(** The lines of a streamed response, [data: {...}], by the JSON object
    they carry. *)
Inductive sse_event : Type :=
| Metadata (session_id : string)      (* {"type": "metadata", "session_id": ...} *)
| ItemMetadata (item_id : Z)          (* {"type": "metadata", "item_id": ...} *)
| Content (answer : text)             (* {"type": "content", "answer": ...} *)
| Done                                (* {"type": "done"} *)
| Error (message : string).           (* {"type": "error", "message": ...} *)

(** What [chat] returns: the events of the streamed response read to its
    end, or one of the two dictionaries. *)
Inductive chat_reply : Type :=
| Streaming (events : list sse_event)
| StatusOk (session_id : string) (result : response)
| StatusError (session_id : string) (message : string).

Inductive branch1_reply : Type :=
| BranchStreaming (events : list sse_event)
| BranchStatusOk (result : BranchQuery.reply)
| BranchStatusError (message : string).

(** The two names that do not come from the request: [str(uuid.uuid4())]
    for a request without session id, and the name [QASessionState()] gives
    itself. *)
Record fresh_names : Type := {
  uuid4 : string;
  state_name : string
}.

(** [if chunk:] for a fragment; the formatted fragments are never empty. *)
Definition nonempty (fragment : text) : bool :=
  match fragment with
  | Str s => negb (String.eqb s "")
  | _ => true
  end.

(** [if x:] for an optional boolean. *)
Definition is_true (x : option bool) : bool :=
  match x with
  | Some b => b
  | None => false
  end.

(** The events of [generate_stream] for a generator that has yielded
    [fragments] and ended as [ending]. *)
Definition stream_events (first : sse_event) (fragments : list text) (ending : outcome unit)
  : list sse_event :=
  (first :: map Content (filter nonempty fragments)
     ++ [match ending with
         | Ok _ => Done
         | Raise e => Error e
         end])%list.

(** [chat], the handler of [POST /chat], for the behaviour [engine] of the
    collaborators during the request: the session pool after the request and
    the response. *)
Definition chat (engine : QAEngine) (names : fresh_names) (req : ChatRequest)
    (pool : sessions) : sessions * chat_reply :=
  let session_id := if truthy (session_id req) then get (session_id req) "" else uuid4 names in
  let pool :=
    match lookup session_id pool with
    | Some _ => pool
    | None => store session_id (new_session (state_name names)) pool
    end in
  let session := get (lookup session_id pool) (new_session (state_name names)) in
  if is_true (stream req) then
    let (w, ending) := handle_query_stream engine (query req) (user_id req) (start session) in
    (store session_id (state w) pool,
     Streaming (stream_events (Metadata session_id) (output w) ending))
  else
    let (w, result) := handle_query engine (query req) (user_id req) (start session) in
    (store session_id (state w) pool,
     match result with
     | Ok result => StatusOk session_id result
     | Raise e => StatusError session_id e
     end).

(** [branch1_chat], the handler of [POST /branch1/chat]. *)
Definition branch1_chat (engine : BranchEngine.Branch1Engine) (req : Branch1Request)
  : branch1_reply :=
  if is_true (b_stream req) then
    let (w, ending) :=
      BranchEngine.handle_query_stream engine (b_item_id req) (b_query req) (start tt) in
    BranchStreaming (stream_events (ItemMetadata (b_item_id req)) (output w) ending)
  else
    match snd (BranchQuery.handle_query engine (b_item_id req) (b_query req) (start tt)) with
    | Ok result => BranchStatusOk result
    | Raise e => BranchStatusError e
    end.

(** [get_session_info], the handler of [GET /sessions/{session_id}]: the
    three fields of its answer, or the 404 of [HTTPException]. *)
Record session_info : Type := {
  info_session_id : string;
  info_int_id : Z;
  history_len : nat
}.

Inductive http (A : Type) : Type :=
| Http200 (body : A)
| Http404 (detail : string).
Arguments Http200 {A} body.
Arguments Http404 {A} detail.

Definition get_session_info (session_id : string) (pool : sessions) : http session_info :=
  match lookup session_id pool with
  | None => Http404 "session not found"
  | Some s => Http200 {| info_session_id := session_id;
                         info_int_id := int_id s;
                         history_len := length (intent_history s) |}
  end.

End ApiServer.

(** ** rag/embedding.py *)

Module Embedding.
Import VectorMatching.
Local Open Scope string_scope.
Local Open Scope run_scope.

(** [DashScopeEmbeddingGenerator] of [rag/embedding.py]: the embedding
    service, which answers a list of texts with the list [response.data] of
    vectors.  The state of the generator is its counter [next_id]. *)
Record DashScopeEmbeddingGenerator : Type := {
  embeddings_create : list string -> outcome (list (list float))
}.

(** The argument [inputs]: one text, or a list of texts. *)
Inductive inputs : Type :=
| Text (s : string)
| Texts (l : list string).

(** [_get_next_id]. *)
Definition _get_next_id : M Z Z :=
  current_id <- read ;;
  write (current_id + 1)%Z ;;;
  ret current_id.

(** The loop [for i, emb in enumerate(embeddings)], from the index [i] on:
    the id is taken before [inputs[i]] is read. *)
Fixpoint results_from (texts : list string) (i : nat) (embeddings : list (list float))
  : M Z (list item) :=
  match embeddings with
  | [] => ret []
  | emb :: rest =>
      id <- _get_next_id ;;
      text <- lift (match nth_error texts i with
                    | Some t => Ok t
                    | None => Raise "list index out of range"
                    end) ;;
      results <- results_from texts (S i) rest ;;
      ret ({| item_id := Some id; item_text := Some text; item_vector := Some emb |}
             :: results)
  end.

(** [generate_embeddings]. *)
Definition generate_embeddings (self : DashScopeEmbeddingGenerator) (given : inputs)
  : M Z (list item) :=
  let texts := match given with
               | Text s => [s]
               | Texts l => l
               end in
  embeddings <- try_except (lift (embeddings_create self texts))
                           (fun e => raise ("向量生成失败: " ++ e)) ;;
  results_from texts 0 embeddings.

(** [reset_id_counter]. *)
Definition reset_id_counter (start_id : Z) : M Z unit := write start_id.

End Embedding.

(** ** data/fetch_data.py and api/item_api.py *)

Module FetchData.
Local Open Scope string_scope.

(** The data store of [get_item_data]: the connection and its four
    statements ([execute] followed by [fetchone] or [fetchall]);
    [select_all_from t] is [SELECT * FROM t]. *)
Record database : Type := {
  pymysql_connect : outcome unit;
  select_items_type : Z -> outcome (option db_row);
  select_docs : Z -> outcome (list db_row);
  select_annex : Z -> outcome (list db_row);
  select_all_from : string -> outcome (list db_row)
}.

(** The dictionaries of [result_list]: a document, or an annex, whose key
    ['table'] may be absent. *)
Inductive entry : Type :=
| DocEntry (doc_name img_path : option string)
| AnnexEntry (annex_name annex_path : option string) (table : option (list db_row)).

(** [s.replace('_', '')]; the underscore is the character 95. *)
Fixpoint remove_underscores (s : string) : string :=
  match s with
  | EmptyString => EmptyString
  | String c rest =>
      if Ascii.eqb c (Ascii.ascii_of_nat 95) then remove_underscores rest
      else String c (remove_underscores rest)
  end.

(** [cell == s] for a cell of a row. *)
Definition cell_is (cell : option string) (s : string) : bool :=
  match cell with
  | Some t => String.eqb t s
  | None => false
  end.

(** The loop over [doc_results]. *)
Fixpoint doc_entries (doc_results : list db_row) : outcome (list entry) :=
  match doc_results with
  | [] => Ok []
  | doc :: rest =>
      doc_name <- row_index doc "doc_name" ;;
      img_path <- row_index doc "img_path" ;;
      entries <- doc_entries rest ;;
      Ok (DocEntry doc_name img_path :: entries)
  end.

Section Names.
(** [str.isalnum] of Python. *)
Variable isalnum : string -> bool.

(** The loop over [annex_results]: an annex with a name that is not a
    plain table name is passed over ([continue]); a table that cannot be
    read counts as empty. *)
Fixpoint annex_entries (db : database) (annex_results : list db_row)
  : outcome (list entry) :=
  match annex_results with
  | [] => Ok []
  | annex :: rest =>
      annex_name <- row_index annex "annex_name" ;;
      annex_path <- row_index annex "annex_path" ;;
      if truthy annex_name then
        let table_name := get annex_name "" in
        if negb (isalnum (remove_underscores table_name)) then annex_entries db rest
        else
          let table_data :=
            match select_all_from db table_name with
            | Ok rows => rows
            | Raise _ => []
            end in
          entries <- annex_entries db rest ;;
          Ok (AnnexEntry annex_name annex_path (Some table_data) :: entries)
      else
        entries <- annex_entries db rest ;;
        Ok (AnnexEntry annex_name annex_path None :: entries)
  end.

(** The body of the [try] of [get_item_data]. *)
Definition item_entries (db : database) (item_id : Z) : outcome (list entry) :=
  _ <- pymysql_connect db ;;
  type_result <- select_items_type db item_id ;;
  match type_result with
  | None => Ok []
  | Some [] => Ok []
  | Some row =>
      items_type <- row_index row "items_type" ;;
      if cell_is items_type "不填表" then
        doc_results <- select_docs db item_id ;;
        doc_entries doc_results
      else if cell_is items_type "填表" then
        annex_results <- select_annex db item_id ;;
        annex_entries db annex_results
      else Ok []
  end.

(** [get_item_data]: every exception gives the empty list. *)
Definition get_item_data (db : database) (item_id : Z) : list entry :=
  match item_entries db item_id with
  | Ok result_list => result_list
  | Raise _ => []
  end.

(** What [get_item] of [api/item_api.py] answers ([jsonify] is taken to
    succeed): the entries with status 200, or the not-found message with
    status 404. *)
Inductive item_response : Type :=
| Json200 (result : list entry)
| NotFound404 (item_id : Z).

Definition get_item (db : database) (item_id : Z) : item_response :=
  match get_item_data db item_id with
  | [] => NotFound404 item_id
  | result => Json200 result
  end.
End Names.

End FetchData.

(** ** main/branch.py *)

Module BranchScript.
Import ModelAnswer BranchEngine.
Local Open Scope string_scope.
Local Open Scope run_scope.

(** [fetch_data_by_id] of the script; the table names, the data store and
    the generator of the script are held in a [Branch1Engine]. *)
Definition fetch_data_by_id (self : Branch1Engine) (item_id : Z)
  : M unit (option db_row * list db_row) :=
  if negb (truthy (table_items_info self)) || negb (truthy (table_items_doc self))
  then ret (None, [])
  else
    try_except
      (call (CallFetchById item_id) (query_tables self item_id))
      (fun _ => ret (None, [])).

(** [main], once the id and the question are read (the diagnostic prints
    are left out); it returns [answer]. *)
Definition main (self : Branch1Engine) (item_id : Z) (user_question : string)
  : M unit string :=
  rows <- fetch_data_by_id self item_id ;;
  let context_payload := build_context_payload (fst rows) (snd rows) in
  yield (IdLine item_id) ;;;
  try_except
    (yield (Str "AI: ") ;;;
     call (CallChatStream user_question) (Ok tt) ;;;
     consume (chat_stream (bot self) user_question context_payload)
             (fun chunk => yield (Str chunk)) ;;;
     yield (Str nl) ;;;
     ret (join "" (fragments (chat_stream (bot self) user_question context_payload))))
    (fun e =>
       let answer := "模型调用失败: " ++ e in
       yield (Str ("AI: " ++ answer ++ nl)) ;;;
       ret answer).

End BranchScript.

(** ** rag/emb_db.py *)

Module EmbDb.
Import VectorMatching Embedding.
Local Open Scope string_scope.
Local Open Scope run_scope.

(** The rows of the two configured queries, with the ids as [int(...)]
    reads them (a row without its columns, or with an id that is no integer,
    is outside this development). *)
Record business_row : Type := {
  row_id : Z;
  row_business_name : option string
}.

Record doc_row : Type := {
  doc_uid : Z;
  doc_name : option string;
  doc_text : option string
}.

(** What the pipeline works with: the first required setting found unset
    by the validation, if any; the data store; the model service of the
    summarizer, [completions_create system user] being the content of the
    first choice; the embedding generator. *)
Record services : Type := {
  missing_setting : option string;
  pymysql_connect : outcome unit;
  select_businesses : outcome (list business_row);
  select_docs : outcome (list doc_row);
  completions_create : string -> string -> outcome string;
  embedder : DashScopeEmbeddingGenerator
}.

(** A dictionary with integer keys, in insertion order: [d[k] = v], and
    [d[k].append(x)] on a [defaultdict(list)]. *)
Fixpoint dict_set {V : Type} (k : Z) (v : V) (d : list (Z * V)) : list (Z * V) :=
  match d with
  | [] => [(k, v)]
  | (k', v') :: rest =>
      if (k =? k')%Z then (k', v) :: rest else (k', v') :: dict_set k v rest
  end.

Fixpoint dict_append {V : Type} (k : Z) (x : V) (d : list (Z * list V))
  : list (Z * list V) :=
  match d with
  | [] => [(k, [x])]
  | (k', l) :: rest =>
      if (k =? k')%Z then (k', (l ++ [x])%list) :: rest else (k', l) :: dict_append k x rest
  end.

Fixpoint dict_get {V : Type} (k : Z) (d : list (Z * V)) : option V :=
  match d with
  | [] => None
  | (k', v) :: rest => if (k =? k')%Z then Some v else dict_get k rest
  end.

(** [test_table_map] and [docs_by_uid]. *)
Definition test_table_map (test_table_results : list business_row)
  : list (Z * option string) :=
  fold_left (fun d item => dict_set (row_id item) (row_business_name item) d)
            test_table_results [].

Definition docs_by_uid (items_doc_results : list doc_row) : list (Z * list doc_row) :=
  fold_left (fun d doc => dict_append (doc_uid doc) doc d) items_doc_results [].

(** A cell inside an f-string: [None] is written ["None"]. *)
Definition written (cell : option string) : string := get cell "None".

(** The request to the summarizer for a business item: the system prompt
    and the user message, with and without related documents. *)
Definition summary_input_text (business_name : option string) (related_docs : list doc_row)
  : string :=
  match related_docs with
  | [] => "[business_name：" ++ written business_name ++ "]"
  | _ :: _ =>
      let doc_strings :=
        flat_map (fun doc => ["doc_name:" ++ written (doc_name doc);
                              "doc_text:" ++ written (doc_text doc)]) related_docs in
      "[business_name：" ++ written business_name ++ "，" ++ join "，" doc_strings ++ "]"
  end.

Definition summary_request (business_name : option string) (related_docs : list doc_row)
  : string * string :=
  match related_docs with
  | [] =>
      ("你是一名专业的档案管理员，请根据提供的业务名称生成一段简短、精确、包含核心要点的摘要，用于后续的向量检索。",
       "请为以下业务生成摘要: " ++ summary_input_text business_name related_docs)
  | _ :: _ =>
      ("你是一名专业的档案管理员，请根据提供的业务名称和所有相关的文档内容，生成一段简短、精确、包含核心要点的摘要，用于后续的向量检索。",
       "请为以下信息生成摘要: " ++ summary_input_text business_name related_docs)
  end.

(** A record of [processed_knowledge_base]. *)
Record kb_record : Type := {
  kb_id : Z;
  kb_text : string;
  kb_vector : list float;
  source_business_name : option string;
  source_documents : list (option string * option string)
}.

(** The body of the loop over [test_table_map.items()]; the state is the
    counter of the embedding generator. *)
Definition process_item (s : services) (groups : list (Z * list doc_row))
    (item : Z * option string) : M Z kb_record :=
  let (item_id, business_name) := item in
  let related_docs := get (dict_get item_id groups) [] in
  let (system, user) := summary_request business_name related_docs in
  summary_text <- lift (completions_create s system user) ;;
  embedding_result <- generate_embeddings (embedder s) (Text summary_text) ;;
  vector <- lift (match embedding_result with
                  | [] => Raise "list index out of range"
                  | first :: _ =>
                      match item_vector first with
                      | Some v => Ok v
                      | None => Raise "'vector'"
                      end
                  end) ;;
  ret {| kb_id := item_id;
         kb_text := summary_text;
         kb_vector := vector;
         source_business_name := business_name;
         source_documents := map (fun doc => (doc_name doc, doc_text doc)) related_docs |}.

(** How [process_data_pipeline_final] ends: the knowledge base written to
    the file, nothing to write, or the exception it caught (writing the file
    is taken to succeed). *)
Inductive ending : Type :=
| Saved (processed_knowledge_base : list kb_record)
| NothingToSave
| Caught (error : string).

(** [process_data_pipeline_final]. *)
Definition process_data_pipeline_final (s : services) : M Z ending :=
  try_except
    (match missing_setting s with
     | Some var => raise ("请在 .env 文件中设置 " ++ var)
     | None => ret tt
     end ;;;
     lift (pymysql_connect s) ;;;
     test_table_results <- lift (select_businesses s) ;;
     items_doc_results <- lift (select_docs s) ;;
     processed_knowledge_base <-
       collect (test_table_map test_table_results)
               (process_item s (docs_by_uid items_doc_results)) ;;
     match processed_knowledge_base with
     | [] => ret NothingToSave
     | _ :: _ => ret (Saved processed_knowledge_base)
     end)
    (fun e => ret (Caught e)).

End EmbDb.

(** ** prompts/prompt_loader.py, and the constructor of [QwenChat] *)

Module PromptLoader.
Import IntentRecognition.
Local Open Scope string_scope.

(** What [open(self.prompt_file_path)] followed by [f.read()] does. *)
Inductive file_read : Type :=
| Content (content : string)
| FileNotFoundError
| OtherError (e : string).

(** A dictionary of prompts, in insertion order: [d[k] = v] and
    [d.get(k)]. *)
Fixpoint dict_set (k v : string) (d : list (string * string)) : list (string * string) :=
  match d with
  | [] => [(k, v)]
  | (k', v') :: rest =>
      if String.eqb k k' then (k', v) :: rest else (k', v') :: dict_set k v rest
  end.

Fixpoint dict_get (k : string) (d : list (string * string)) : option string :=
  match d with
  | [] => None
  | (k', v) :: rest => if String.eqb k k' then Some v else dict_get k rest
  end.

Section Parsing.
(** [re.findall(pattern, content, re.DOTALL)] for the pattern of the
    loader, which gives the name and the content of each block, and
    [str.strip]. *)
Variable findall : string -> list (string * string).
Variable strip : string -> string.

(** [PromptLoader._load_prompts]. *)
Definition _load_prompts (prompt_file : file_read) : list (string * string) :=
  match prompt_file with
  | Content content =>
      fold_left (fun prompts m => dict_set (fst m) (strip (snd m)) prompts)
                (findall content) []
  | FileNotFoundError => []
  | OtherError _ => []
  end.
End Parsing.

(** [PromptLoader.get_prompt] and [get_intent_recognition_prompt]. *)
Definition get_prompt (prompts : list (string * string)) (prompt_name : string) : string :=
  get (dict_get prompt_name prompts) "".

Definition get_intent_recognition_prompt (prompts : list (string * string)) : string :=
  get_prompt prompts "INTENT_RECOGNITION_PROMPT".

(** [QwenChat.__init__], for the key found ([api_key] or the environment
    variable), the prompts of the loader and the model service. *)
Definition new_classifier (api_key : option string) (given_prompt : option string)
    (prompts : list (string * string))
    (service : list QaEngine.message -> outcome string) : outcome QwenChat :=
  if truthy api_key then
    Ok {| system_prompt := match given_prompt with
                           | None => get_intent_recognition_prompt prompts
                           | Some p => p
                           end;
          completions_create := service |}
  else Raise "DASHSCOPE_API_KEY 未设置，请在环境变量中配置或在初始化时传入 api_key 参数。".

End PromptLoader.

(** * Vocabulary of the properties *)

Section Orders.
Local Open Scope float_scope.
Context {A : Type} (key : A -> float).

(** Ascending and descending order of the keys. *)
Definition ascending (a b : A) : Prop := (key a <=? key b) = true.
Definition descending (a b : A) : Prop := (key b <=? key a) = true.

(** No key is [NaN]: the keys are numbers, which [<] orders totally. *)
Definition keys_ordered (l : list A) : Prop :=
  Forall (fun x => is_nan (key x) = false) l.
End Orders.

(** The candidates of a query: what the loop of [search] has collected in
    [all_matches] before the sort. *)
Definition candidates (self : VectorMatching.VectorSearcher) (user_query : string)
  : outcome (list VectorMatching.result) :=
  query_vector <- VectorMatching.get_embedding self user_query ;;
  VectorMatching.all_matches query_vector (VectorMatching.knowledge_base self).

(** The candidate the loop of [search] builds for an item whose similarity
    is [sim]. *)
Definition candidate_of (it : VectorMatching.item) (sim : float) : VectorMatching.result :=
  {| VectorMatching.m_id := VectorMatching.item_id it;
     VectorMatching.m_text := get (VectorMatching.item_text it) "N/A"%string;
     VectorMatching.similarity := sim |}.

(** The knowledge base of the scenarios of the specification, with and
    without texts, and one with a zero vector. *)
Definition entry (n : Z) (t : option string) (v : list float) : VectorMatching.item :=
  {| VectorMatching.item_id := Some n;
     VectorMatching.item_text := t;
     VectorMatching.item_vector := Some v |}.

Definition searcher_over (kb : list VectorMatching.item) (query_vector : list float)
  : VectorMatching.VectorSearcher :=
  {| VectorMatching.knowledge_base := kb;
     VectorMatching.get_embedding := fun _ => Ok query_vector |}.

Definition base_AB : list VectorMatching.item :=
  [entry 1 (Some "A"%string) [1; 0]%float; entry 2 (Some "B"%string) [0; 1]%float].

Definition base_12 : list VectorMatching.item :=
  [entry 1 None [1; 0]%float; entry 2 None [0; 1]%float].

(** The similarity of the query [0.7, 0.7] to the vector [1, 0] (and to
    [0, 1]). *)
Definition tie_similarity : float :=
  match VectorMatching._cosine_similarity [0.7; 0.7]%float [1; 0]%float with
  | Ok sim => sim
  | Raise _ => 0%float
  end.

Definition base_zero : list VectorMatching.item :=
  [entry 1 (Some "A"%string) [0; 0]%float].

(** ** The routers *)

(** A world after some more collaborator calls. *)
Definition add_calls {S : Type} (w : world S) (cs : list event) : world S :=
  {| state := state w; calls := calls w ++ cs; output := output w |}.

(** The update of the follow-up counter, as the specification words it,
    with ["t1"] the label of a query on the same topic. *)
Definition next_counter (label : string) (counter : Z) : Z :=
  if String.eqb label "t1" then (counter + 1)%Z else 1%Z.



(** A computation that only calls collaborators: it leaves the state and
    the output as they are. *)
Definition only_calls {S A : Type} (c : M S A) : Prop :=
  forall w, exists cs o, c w = (add_calls w cs, o).

(** The counters the specification's update gives along a sequence of
    labels. *)
Fixpoint counters (labels : list string) (counter : Z) : list Z :=
  match labels with
  | [] => []
  | l :: rest => next_counter l counter :: counters rest (next_counter l counter)
  end.

Module QaEngineTurns.
Import VectorMatching DataStore QaEngine.
Local Open Scope string_scope.

(** The label a turn works with, and what its retrieval gives. *)
Definition label (self : QAEngine) (q : string) (session : QASessionState) : string :=
  match intent_recognizer self q (intent_history session) with
  | Ok l => l
  | Raise _ => "t2"
  end.

Definition retrieved (self : QAEngine) (q : string) : list result :=
  match search (searcher self) q 3 (similarity_threshold self) with
  | Ok r => r
  | Raise _ => []
  end.

(** The two entries a turn appends to the history. *)
Definition user_message (q : string) : message :=
  {| role := "user"; content := Str q |}.

Definition assistant_message (a : text) : message :=
  {| role := "assistant"; content := a |}.

(** The session after a turn of [handle_query]. *)
Definition after (self : QAEngine) (q : string) (session : QASessionState)
  : QASessionState :=
  state (fst (handle_query self q "default_user" (start session))).

(** The follow-up counter after each of a sequence of turns, each with its
    own behaviour of the collaborators. *)
Fixpoint trajectory (turns : list (QAEngine * string)) (session : QASessionState)
  : list Z :=
  match turns with
  | [] => []
  | (self, q) :: rest =>
      int_id (after self q session) :: trajectory rest (after self q session)
  end.

(** The engine [self] with a classifier that answers [l]. *)
Definition with_label (self : QAEngine) (l : string) : QAEngine :=
  {| intent_recognizer := fun _ _ => Ok l;
     answer_generator := answer_generator self;
     searcher := searcher self;
     similarity_threshold := similarity_threshold self;
     db := db self |}.


End QaEngineTurns.

Module MainLoopTurns.
Import VectorMatching DataStore MainLoop.
Local Open Scope string_scope.

Definition label (c : components) (q : string) (st : locals) : string :=
  match intent_recognizer c q (intent_history st) with
  | Ok l => l
  | Raise _ => "t2"
  end.

Definition retrieved (c : components) (q : string) : list result :=
  match search (searcher c) q 3 0.5%float with
  | Ok r => r
  | Raise _ => []
  end.

(** The history after the update that closes an iteration. *)
Definition updated_history (h : list history_entry) (q : string) (a : text)
  : list history_entry :=
  let h1 := (h ++ [Bare (Str q); Bare a])%list in
  ((if (10 <? Z.of_nat (length h1))%Z then last_n 10 h1 else h1)
     ++ [Message "user" (Str q); Message "assistant" a])%list.

(** The local variables after an iteration. *)
Definition after (c : components) (q : string) (st : locals) : locals :=
  state (fst (turn c "anonymous" q (start st))).

Fixpoint trajectory (turns : list (components * string)) (st : locals) : list Z :=
  match turns with
  | [] => []
  | (c, q) :: rest => int_id (after c q st) :: trajectory rest (after c q st)
  end.

Definition with_label (c : components) (l : string) : components :=
  {| intent_recognizer := fun _ _ => Ok l;
     answer_generator := answer_generator c;
     searcher := searcher c;
     db := db c |}.

End MainLoopTurns.

(** Collaborators for the examples: a data store that answers nothing, one
    that refuses the connection, and an engine over the base A, B with the
    threshold 0.5. *)
Definition quiet_db : DataStore.connection :=
  {| DataStore.pymysql_connect := Ok tt;
     DataStore.query_item_details := fun _ => Ok [];
     DataStore.query_business_name := fun _ => Ok None |}.

Definition failing_db (e : string) : DataStore.connection :=
  {| DataStore.pymysql_connect := Raise e;
     DataStore.query_item_details := fun _ => Raise e;
     DataStore.query_business_name := fun _ => Raise e |}.

(** A generator whose prompt always formats and whose service behaves as
    [c]; a completion that ends, and one that breaks after two pieces. *)
Definition bot_with (c : outcome ModelAnswer.completion) : ModelAnswer.DashScopeChatBot :=
  {| ModelAnswer.system_prompt :=
       fun i => match i with
                | ModelAnswer.InfoText s => Ok s
                | ModelAnswer.InfoPayload _ _ => Ok "payload"%string
                end;
     ModelAnswer.completions_create := fun _ _ => c |}.

Definition whole_completion : ModelAnswer.completion :=
  {| ModelAnswer.pieces := ["generated "%string; ""%string; "answer"%string];
     ModelAnswer.broken := None |}.

Definition broken_completion : ModelAnswer.completion :=
  {| ModelAnswer.pieces := ["partial "%string; "answer"%string];
     ModelAnswer.broken := Some "connection reset"%string |}.

Definition steady_bot : ModelAnswer.DashScopeChatBot := bot_with (Ok whole_completion).

Definition breaking_bot : ModelAnswer.DashScopeChatBot := bot_with (Ok broken_completion).

Definition example_engine (intent : outcome string) (query_vector : list float)
    (db : DataStore.connection) (generator : ModelAnswer.DashScopeChatBot)
  : QaEngine.QAEngine :=
  {| QaEngine.intent_recognizer := fun _ _ => intent;
     QaEngine.answer_generator := generator;
     QaEngine.searcher := searcher_over base_AB query_vector;
     QaEngine.similarity_threshold := 0.5%float;
     QaEngine.db := db |}.

(** A session with a given counter. *)
Definition session_at (counter : Z) : QaEngine.QASessionState :=
  {| QaEngine.intent_history := []; QaEngine.int_id := counter;
     QaEngine.session_id := "s"%string |}.

(** The context [get_context_for_item] gives for a retrieval result. *)
Definition context_of (db : DataStore.connection) (r : VectorMatching.result) : string :=
  match DataStore.pymysql_connect db,
        DataStore.query_item_details db (VectorMatching.m_id r) with
  | Ok _, Ok (row :: rows) => DataStore.format_context (row :: rows)
  | _, _ => VectorMatching.m_text r
  end.

(** A branch engine over a data store and a generator. *)
Definition example_branch (rows : outcome (option db_row * list db_row))
    (generator : ModelAnswer.DashScopeChatBot) : BranchEngine.Branch1Engine :=
  {| BranchEngine.table_items_info := Some "items_info"%string;
     BranchEngine.table_items_doc := Some "items_doc"%string;
     BranchEngine.query_tables := fun _ => rows;
     BranchEngine.bot := generator |}.

(** ** The other functions *)

(** The test of the threshold filter of [search]. *)
Definition reaches (t : float) (m : VectorMatching.result) : bool :=
  (t <=? VectorMatching.similarity m)%float.

(** Does the loop of [search] score the item: is its vector present and not
    empty? *)
Definition has_vector (it : VectorMatching.item) : bool :=
  match VectorMatching.item_vector it with
  | Some (_ :: _) => true
  | _ => false
  end.

(** Every scored item has a vector of the dimension of the query. *)
Definition dimensions_agree (query_vector : list float) (kb : list VectorMatching.item)
  : bool :=
  forallb (fun it => match VectorMatching.item_vector it with
                     | Some (x :: v) => Nat.eqb (length query_vector) (length (x :: v))
                     | _ => true
                     end) kb.

(** The searcher [self] over another knowledge base. *)
Definition with_base (self : VectorMatching.VectorSearcher) (kb : list VectorMatching.item)
  : VectorMatching.VectorSearcher :=
  {| VectorMatching.knowledge_base := kb;
     VectorMatching.get_embedding := VectorMatching.get_embedding self |}.



(** Calls of the data store. *)
Definition is_data_store (ev : event) : bool :=
  match ev with
  | CallDbConnect | CallItemDetails _ | CallBusinessName _ | CallFetchById _ => true
  | _ => false
  end.

(** The option the loop of [get_structured_options] builds for a retrieval
    result: the name the data store has for its id, when it has one that is
    not empty, and the stored text otherwise. *)
Definition option_of (db : DataStore.connection) (r : VectorMatching.result)
    (o : option_entry) : Prop :=
  match DataStore.query_business_name db (VectorMatching.m_id r) with
  | Ok (Some row) =>
      if truthy (row_get row "business_name"%string)
      then exists id, row_index row "id"%string = Ok id /\
                      o = {| o_id := IdOfRow id;
                             business_name :=
                               get (row_get row "business_name"%string) ""%string |}
      else o = DataStore.fallback_option r
  | Ok None => o = DataStore.fallback_option r
  | Raise _ => False
  end.

(** A computation that only makes calls of a kind and, when it returns,
    returns a value with a property. *)
Definition runs {S A : Type} (allowed : event -> bool) (post : A -> Prop) (c : M S A)
  : Prop :=
  forall w, exists cs o,
    c w = (add_calls w cs, o) /\
    forallb allowed cs = true /\
    match o with Ok a => post a | Raise _ => True end.

(** The number of the turn that [handle_query] and [handle_query_stream]
    write to the log: half the length of the history after the two
    appends. *)
Definition turn_number (session : QaEngine.QASessionState) : Z :=
  (Z.of_nat (length (QaEngine.intent_history session) + 2) / 2)%Z.



(** The session a request of [chat] works on: its key in the pool, and its
    state when the request arrives (a new state for an unseen key). *)
Definition request_key (names : ApiServer.fresh_names) (req : ApiServer.ChatRequest)
  : string :=
  if truthy (ApiServer.session_id req) then get (ApiServer.session_id req) ""%string
  else ApiServer.uuid4 names.

Definition session_before (names : ApiServer.fresh_names) (req : ApiServer.ChatRequest)
    (pool : ApiServer.sessions) : QaEngine.QASessionState :=
  get (ApiServer.lookup (request_key names req) pool)
      (QaEngine.new_session (ApiServer.state_name names)).

(** The ids of the records that successive calls of [generate_embeddings]
    return, each call with its own behaviour of the service; a call that
    raises returns no record. *)
Fixpoint issued_ids (batches : list (Embedding.DashScopeEmbeddingGenerator * Embedding.inputs))
    (next_id : Z) : list (option Z) :=
  match batches with
  | [] => []
  | (self, given) :: rest =>
      let (w, o) := Embedding.generate_embeddings self given (start next_id) in
      (match o with
       | Ok records => map VectorMatching.item_id records
       | Raise _ => []
       end ++ issued_ids rest (state w))%list
  end.

(** The integers [n], [n + 1], ..., [n + len - 1]. *)
Fixpoint count_from (n : Z) (len : nat) : list Z :=
  match len with
  | O => []
  | S len' => n :: count_from (n + 1) len'
  end.

(** Examples: a request, fresh names, an embedding service that answers
    one vector for each text. *)
Definition example_request (sid : option string) (streamed : bool) : ApiServer.ChatRequest :=
  {| ApiServer.query := "q"%string; ApiServer.session_id := sid;
     ApiServer.stream := Some streamed; ApiServer.user_id := "u"%string |}.

Definition example_names : ApiServer.fresh_names :=
  {| ApiServer.uuid4 := "uuid"%string; ApiServer.state_name := "session_1"%string |}.

Definition unit_embedder : Embedding.DashScopeEmbeddingGenerator :=
  {| Embedding.embeddings_create := fun texts => Ok (map (fun _ => [1%float]) texts) |}.

(** Two data stores of [get_item_data] that answer alike, but for the reading
    of the tables whose name [get_item_data] refuses. *)
Definition same_but_refused_tables (isalnum : string -> bool) (db db' : FetchData.database)
  : Prop :=
  FetchData.pymysql_connect db = FetchData.pymysql_connect db' /\
  (forall i, FetchData.select_items_type db i = FetchData.select_items_type db' i) /\
  (forall i, FetchData.select_docs db i = FetchData.select_docs db' i) /\
  (forall i, FetchData.select_annex db i = FetchData.select_annex db' i) /\
  (forall name, isalnum (FetchData.remove_underscores name) = true ->
                FetchData.select_all_from db name = FetchData.select_all_from db' name).

(** The documents of a business item: the rows of the document table with
    its id as [uid], in the order of the table. *)
Definition documents_of (item_id : Z) (items_doc_results : list EmbDb.doc_row)
  : list EmbDb.doc_row :=
  filter (fun doc => (EmbDb.doc_uid doc =? item_id)%Z) items_doc_results.

(** The services of a pipeline run over two tables, with a summarizer that
    answers [summary] and the embedding service of [unit_embedder]. *)
Definition example_services (rows : list EmbDb.business_row) (docs : list EmbDb.doc_row)
    (summary : outcome string) : EmbDb.services :=
  {| EmbDb.missing_setting := None;
     EmbDb.pymysql_connect := Ok tt;
     EmbDb.select_businesses := Ok rows;
     EmbDb.select_docs := Ok docs;
     EmbDb.completions_create := fun _ _ => summary;
     EmbDb.embedder := unit_embedder |}.

Definition example_rows : list EmbDb.business_row :=
  [{| EmbDb.row_id := 1; EmbDb.row_business_name := Some "A"%string |};
   {| EmbDb.row_id := 2; EmbDb.row_business_name := Some "B"%string |};
   {| EmbDb.row_id := 1; EmbDb.row_business_name := Some "C"%string |}].

Definition example_docs : list EmbDb.doc_row :=
  [{| EmbDb.doc_uid := 2; EmbDb.doc_name := Some "form"%string; EmbDb.doc_text := None |}].

(** A knowledge base whose items carry no usable vector. *)
Definition base_without_vectors : list VectorMatching.item :=
  [{| VectorMatching.item_id := Some 1%Z; VectorMatching.item_text := Some "A"%string;
      VectorMatching.item_vector := None |};
   {| VectorMatching.item_id := Some 2%Z; VectorMatching.item_text := Some "B"%string;
      VectorMatching.item_vector := Some [] |}].

(** A data store of [get_item_data] that holds one item of the type that
    has annexes, with one annex whose name is a plain table name and one
    whose name is not; [tables] is what the store answers for [SELECT * FROM]. *)
Definition example_store (connect : outcome unit) (tables : string -> outcome (list db_row))
  : FetchData.database :=
  {| FetchData.pymysql_connect := connect;
     FetchData.select_items_type := fun _ => Ok (Some [("items_type", Some "填表")]%string);
     FetchData.select_docs := fun _ => Ok [];
     FetchData.select_annex := fun _ =>
       Ok [[("annex_name", Some "annex_table_A"); ("annex_path", Some "a.pdf")];
           [("annex_name", Some "x; DROP TABLE y"); ("annex_path", Some "b.pdf")]]%string;
     FetchData.select_all_from := tables |}.

(** A stand-in for [str.isalnum] on the names of the example: no blank and
    no semicolon. *)
Fixpoint plain (s : string) : bool :=
  match s with
  | EmptyString => true
  | String c rest =>
      negb (Ascii.eqb c (Ascii.ascii_of_nat 32)) && negb (Ascii.eqb c (Ascii.ascii_of_nat 59))
      && plain rest
  end.

Definition plain_name (s : string) : bool := negb (String.eqb s "") && plain s.

(** A branch engine whose table names are not configured. *)
Definition unconfigured_branch : BranchEngine.Branch1Engine :=
  {| BranchEngine.table_items_info := None;
     BranchEngine.table_items_doc := Some "items_doc"%string;
     BranchEngine.query_tables := fun _ => Ok (None, []);
     BranchEngine.bot := steady_bot |}.

(** The content of the last block of a name among the blocks found. *)
Definition last_block (prompt_name : string) (blocks : list (string * string))
  : option string :=
  fold_left (fun found m => if String.eqb prompt_name (fst m) then Some (snd m) else found)
            blocks None.

(** * Properties *)

(** ** Order of binary64 values *)

Section FloatOrder.
Local Open Scope float_scope.

Lemma SFcompare_swap (a b : spec_float) :
  SFcompare b a = option_map CompOpp (SFcompare a b).
Proof.
  destruct a as [sa | sa | | sa ma ea], b as [sb | sb | | sb mb eb]; simpl;
    try destruct sa; try destruct sb; simpl; try reflexivity;
    rewrite (Z.compare_antisym ea eb);
    destruct (ea ?= eb)%Z; simpl; try reflexivity;
    change (PosDef.Pos.compare_cont Eq) with Pos.compare;
    now rewrite (Pos.compare_antisym ma mb).
Qed.

Lemma SFcompare_defined (a b : spec_float) :
  SFeqb a a = true -> SFeqb b b = true -> exists c, SFcompare a b = Some c.
Proof.
  unfold SFeqb.
  destruct a, b; simpl; intros Ha Hb; try discriminate; eauto.
Qed.

Lemma SFleb_total (a b : spec_float) :
  SFeqb a a = true -> SFeqb b b = true -> SFltb a b = false -> SFleb b a = true.
Proof.
  intros Ha Hb. destruct (SFcompare_defined a b Ha Hb) as [c Hc].
  unfold SFltb, SFleb. rewrite (SFcompare_swap a b), Hc.
  destruct c; simpl; congruence.
Qed.

Ltac compare_cases :=
  change (PosDef.Pos.compare_cont Eq) with Pos.compare;
  repeat match goal with
         | |- context [(?x ?= ?y)%Z] => destruct (Z.compare_spec x y)
         | |- context [(?x ?= ?y)%positive] => destruct (Pos.compare_spec x y)
         end; simpl; try congruence; try lia.

Lemma SFleb_trans (a b c : spec_float) :
  SFleb a b = true -> SFleb b c = true -> SFleb a c = true.
Proof.
  unfold SFleb.
  destruct a as [sa | sa | | sa ma ea], b as [sb | sb | | sb mb eb],
           c as [sc | sc | | sc mc ec]; simpl;
    try destruct sa; try destruct sb; try destruct sc; simpl;
    try congruence; compare_cases.
Qed.


Lemma not_nan_spec (x : float) :
  is_nan x = false -> SFeqb (Prim2SF x) (Prim2SF x) = true.
Proof. unfold is_nan. rewrite eqb_spec. now destruct (SFeqb _ _). Qed.

Lemma ltb_false_leb (x y : float) :
  is_nan x = false -> is_nan y = false -> (x <? y) = false -> (y <=? x) = true.
Proof.
  intros Hx Hy. rewrite ltb_spec, leb_spec.
  apply SFleb_total; now apply not_nan_spec.
Qed.

Lemma ltb_leb (x y : float) : (x <? y) = true -> (x <=? y) = true.
Proof.
  rewrite ltb_spec, leb_spec. unfold SFltb, SFleb.
  now destruct (SFcompare _ _) as [[ | | ] | ].
Qed.

Lemma ltb_not_leb (x y : float) : (x <? y) = true -> (y <=? x) = false.
Proof.
  rewrite ltb_spec, leb_spec. unfold SFltb, SFleb.
  rewrite (SFcompare_swap (Prim2SF x) (Prim2SF y)).
  now destruct (SFcompare _ _) as [[ | | ] | ].
Qed.

Lemma leb_trans (x y z : float) :
  (x <=? y) = true -> (y <=? z) = true -> (x <=? z) = true.
Proof. rewrite !leb_spec. apply SFleb_trans. Qed.

End FloatOrder.

(** ** The sort of [search] *)

Section SortFacts.
Import VectorMatching.
Local Open Scope float_scope.
Context {A : Type} (key : A -> float).

Lemma insert_perm (x : A) (l : list A) : Permutation (x :: l) (insert key x l).
Proof.
  induction l as [ | y l IH]; simpl.
  - reflexivity.
  - destruct (key x <? key y).
    + reflexivity.
    + rewrite perm_swap. now apply perm_skip.
Qed.

Lemma fold_insert_perm (l acc : list A) :
  Permutation (rev l ++ acc) (fold_left (fun acc x => insert key x acc) l acc).
Proof.
  revert acc. induction l as [ | x l IH]; intros acc; simpl.
  - reflexivity.
  - rewrite <- IH, <- app_assoc. simpl.
    apply Permutation_app_head, insert_perm.
Qed.

Lemma sorted_reverse_perm (l : list A) : Permutation l (sorted_reverse key l).
Proof.
  unfold sorted_reverse, sort_ascending.
  rewrite <- Permutation_rev, <- fold_insert_perm, app_nil_r, rev_involutive.
  reflexivity.
Qed.

Lemma keys_ordered_perm (l l' : list A) :
  Permutation l l' -> keys_ordered key l -> keys_ordered key l'.
Proof. intros HP. unfold keys_ordered. now rewrite HP. Qed.

Lemma insert_sorted (x : A) (l : list A) :
  is_nan (key x) = false -> keys_ordered key l ->
  Sorted (ascending key) l -> Sorted (ascending key) (insert key x l).
Proof.
  intros Hx Hl HS. induction HS as [ | y l HS IH Hd]; simpl.
  - repeat constructor.
  - inversion Hl as [ | ? ? Hy Hl']; subst.
    destruct (key x <? key y) eqn:E.
    + constructor; [now constructor | ].
      constructor. now apply ltb_leb.
    + constructor; [now apply IH | ].
      assert (Hyx : (ascending key) y x) by now apply ltb_false_leb.
      destruct Hd as [ | z l Hz]; simpl; [now constructor | ].
      destruct (key x <? key z); now constructor.
Qed.

Lemma fold_insert_sorted (l acc : list A) :
  keys_ordered key l -> keys_ordered key acc -> Sorted (ascending key) acc ->
  Sorted (ascending key) (fold_left (fun acc x => insert key x acc) l acc).
Proof.
  revert acc. induction l as [ | x l IH]; intros acc Hl Hacc HS; simpl.
  - exact HS.
  - inversion Hl; subst. apply IH; trivial.
    + apply (keys_ordered_perm (x :: acc)); [apply insert_perm | now constructor].
    + now apply insert_sorted.
Qed.

Lemma ascending_trans : Relations_1.Transitive (ascending key).
Proof. intros a b c. unfold ascending. apply leb_trans. Qed.

Lemma StronglySorted_snoc (R : A -> A -> Prop) (l : list A) (x : A) :
  StronglySorted R l -> Forall (fun y => R y x) l -> StronglySorted R (l ++ [x]).
Proof.
  induction 1 as [ | y l HS IH Hy]; intros HF; simpl.
  - repeat constructor.
  - inversion HF; subst. constructor; [now apply IH | ].
    apply Forall_app. split; [exact Hy | now repeat constructor].
Qed.

Lemma StronglySorted_rev (l : list A) :
  StronglySorted (ascending key) l -> StronglySorted (descending key) (rev l).
Proof.
  induction 1 as [ | x l HS IH Hx]; simpl.
  - constructor.
  - apply StronglySorted_snoc; [exact IH | ].
    apply Forall_rev. exact Hx.
Qed.

(** Without [NaN] keys the sort puts the keys in non-increasing order. *)
Lemma sorted_reverse_sorted (l : list A) :
  keys_ordered key l -> StronglySorted (descending key) (sorted_reverse key l).
Proof.
  intros Hl. unfold sorted_reverse, sort_ascending.
  apply StronglySorted_rev, Sorted_StronglySorted; [exact ascending_trans | ].
  apply fold_insert_sorted; [ | constructor | constructor].
  apply (keys_ordered_perm l); [apply Permutation_rev | exact Hl].
Qed.

Lemma StronglySorted_filter (R : A -> A -> Prop) (p : A -> bool) (l : list A) :
  StronglySorted R l -> StronglySorted R (filter p l).
Proof.
  induction 1 as [ | x l HS IH Hx]; simpl.
  - constructor.
  - destruct (p x); [ | exact IH].
    constructor; [exact IH | ].
    rewrite Forall_forall in *. intros y Hy. apply Hx.
    now apply filter_In in Hy.
Qed.


(** *** Stability *)

Lemma filter_none (p : A -> bool) (l : list A) :
  (forall z, In z l -> p z = false) -> filter p l = [].
Proof.
  induction l as [ | y l IH]; intros H; simpl; [reflexivity | ].
  rewrite (H y) by now left. apply IH. intros z Hz. apply H. now right.
Qed.




End SortFacts.

(** ** The index: [VectorSearcher.search] *)

Section SearchFacts.
Import VectorMatching.
Local Open Scope float_scope.

Lemma ltb_leb_trans (x y z : float) :
  (x <? y) = true -> (y <=? z) = true -> (x <? z) = true.
Proof.
  rewrite !ltb_spec, leb_spec. unfold SFltb, SFleb.
  destruct (Prim2SF x) as [sa | sa | | sa ma ea], (Prim2SF y) as [sb | sb | | sb mb eb],
           (Prim2SF z) as [sc | sc | | sc mc ec]; simpl;
    try destruct sa; try destruct sb; try destruct sc; simpl;
    try congruence;
    change (PosDef.Pos.compare_cont Eq) with Pos.compare;
    repeat match goal with
           | |- context [(?x ?= ?y)%Z] => destruct (Z.compare_spec x y)
           | |- context [(?x ?= ?y)%positive] => destruct (Pos.compare_spec x y)
           end; simpl; try congruence; try lia.
Qed.



Lemma In_slice_to {A : Type} (k : Z) (l : list A) (x : A) :
  In x (slice_to k l) -> In x l.
Proof.
  unfold slice_to. intros H.
  destruct (0 <=? k)%Z;
    match type of H with
    | In _ (firstn ?n _) => rewrite <- (firstn_skipn n l); apply in_or_app; now left
    end.
Qed.


(** What [search] returns, when it returns. *)
Lemma search_returns (self : VectorSearcher) (q : string) (k : Z) (t : float)
    (res : list result) :
  search self q k t = Ok res ->
  exists ms, candidates self q = Ok ms /\
    res = slice_to k (filter (fun m => t <=? similarity m) (sorted_reverse similarity ms)).
Proof.
  unfold search, candidates, bind.
  destruct (get_embedding self q) as [qv | e]; [ | discriminate].
  destruct (all_matches qv (knowledge_base self)) as [ms | e]; [ | discriminate].
  intros H. injection H as <-. now exists ms.
Qed.

(** Every returned entry is a candidate that passes the threshold. *)
Lemma search_In (self : VectorSearcher) (q : string) (k : Z) (t : float)
    (res ms : list result) (m : result) :
  search self q k t = Ok res -> candidates self q = Ok ms -> In m res ->
  In m ms /\ (t <=? similarity m) = true.
Proof.
  intros Hs Hc Hm. destruct (search_returns _ _ _ _ _ Hs) as (ms' & Hc' & ->).
  rewrite Hc in Hc'. injection Hc' as <-.
  apply In_slice_to, filter_In in Hm. destruct Hm as [Hm Ht]. split; [ | exact Ht].
  now apply (Permutation_in _ (Permutation_sym (sorted_reverse_perm similarity ms))).
Qed.

(** An item with a non-empty vector is scored when the loop succeeds. *)
Lemma all_matches_scores (qv : list float) (kb : list item) (ms : list result)
    (it : item) (x : float) (v : list float) :
  all_matches qv kb = Ok ms -> In it kb -> item_vector it = Some (x :: v) ->
  exists sim, _cosine_similarity qv (x :: v) = Ok sim /\ In (candidate_of it sim) ms.
Proof.
  revert ms. induction kb as [ | it' kb IH]; intros ms Hms Hin Hv; [contradiction | ].
  simpl in Hms. destruct Hin as [-> | Hin].
  - rewrite Hv in Hms. unfold bind in Hms.
    destruct (_cosine_similarity qv (x :: v)) as [sim | e]; [ | discriminate].
    destruct (all_matches qv kb) as [ms' | e]; [ | discriminate].
    injection Hms as <-. exists sim. split; [reflexivity | now left].
  - destruct (item_vector it') as [[ | y w] | ].
    + now apply IH.
    + unfold bind in Hms.
      destruct (_cosine_similarity qv (y :: w)) as [sim' | e]; [ | discriminate].
      destruct (all_matches qv kb) as [ms' | e]; [ | discriminate].
      injection Hms as <-. destruct (IH ms' eq_refl Hin Hv) as (sim & Hsim & Hm).
      exists sim. split; [exact Hsim | now right].
    + now apply IH.
Qed.

End SearchFacts.



(** C4, as the code has it.  An item whose stored vector has zero norm is
    scored 0.0 and stays a candidate; when the threshold is positive no
    returned entry has a similarity of 0.0 or less, so the candidate of that
    item is not returned. *)
Theorem zero_norm_entry_excluded_above_zero
    (self : VectorMatching.VectorSearcher) (q : string) (qv : list float)
    (k : Z) (t : float) (res : list VectorMatching.result)
    (it : VectorMatching.item) (v : list float) :
  VectorMatching.get_embedding self q = Ok qv ->
  In it (VectorMatching.knowledge_base self) ->
  VectorMatching.item_vector it = Some v ->
  (VectorMatching.norm v =? 0)%float = true ->
  (0 <? t)%float = true ->
  VectorMatching.search self q k t = Ok res ->
  (v <> [] -> VectorMatching._cosine_similarity qv v = Ok 0%float) /\
  Forall (fun m => (0 <? VectorMatching.similarity m)%float = true) res /\
  ~ In (candidate_of it 0%float) res.
Proof.
  intros Hq Hin Hv Hnorm Ht Hs.
  destruct (search_returns _ _ _ _ _ Hs) as (ms & Hc & Hres).
  assert (Hpos : Forall (fun m => (0 <? VectorMatching.similarity m)%float = true) res).
  { apply Forall_forall. intros m Hm.
    destruct (search_In _ _ _ _ _ _ _ Hs Hc Hm) as [_ Hge].
    exact (ltb_leb_trans _ _ _ Ht Hge). }
  split; [ | split; [exact Hpos | ]].
  - intros Hne. destruct v as [ | x v]; [congruence | ].
    unfold candidates, bind in Hc. rewrite Hq in Hc.
    destruct (all_matches_scores _ _ _ _ _ _ Hc Hin Hv) as (sim & Hsim & _).
    unfold VectorMatching._cosine_similarity in *.
    destruct (Nat.eqb (length qv) (length (x :: v))); [ | discriminate].
    rewrite Hnorm, orb_true_r. reflexivity.
  - intros Hm. rewrite Forall_forall in Hpos. apply Hpos in Hm.
    simpl in Hm. discriminate.
Qed.

(** A base whose only entry is the zero vector, query [1, 0], threshold 0.5:
    nothing is returned. *)
Lemma zero_norm_entry_excluded_above_zero_witness :
  VectorMatching.search (searcher_over base_zero [1; 0]%float) "q" 3 0.5%float = Ok [] /\
  ~ In (candidate_of (entry 1 (Some "A"%string) [0; 0]%float) 0%float) [].
Proof.
  split; [reflexivity | ].
  exact (proj2 (proj2 (zero_norm_entry_excluded_above_zero
           (searcher_over base_zero [1; 0]%float) "q" [1; 0]%float 3 0.5%float []
           (entry 1 (Some "A"%string) [0; 0]%float) [0; 0]%float
           eq_refl (or_introl eq_refl) eq_refl eq_refl eq_refl eq_refl))).
Defined.

(** C4, as the specification has it, fails: with a threshold of 0 (and so
    with any threshold [<= 0]) the entry whose vector is [0, 0] is returned,
    with similarity 0.0. *)
Lemma zero_norm_entry_returned_at_threshold_zero :
  (VectorMatching.norm [0; 0] =? 0)%float = true /\
  VectorMatching.search (searcher_over base_zero [1; 0]%float) "q" 3 0%float
    = Ok [candidate_of (entry 1 (Some "A"%string) [0; 0]%float) 0%float] /\
  VectorMatching.search (searcher_over base_zero [1; 0]%float) "q" 3 (-1)%float
    = Ok [candidate_of (entry 1 (Some "A"%string) [0; 0]%float) 0%float].
Proof. repeat split. Qed.



(** ** The execution monad *)

Section RunFacts.
Context {S : Type}.

Lemma add_calls_nil (w : world S) : add_calls w [] = w.
Proof. destruct w. unfold add_calls. simpl. now rewrite app_nil_r. Qed.

Lemma add_calls_app (w : world S) (cs cs' : list event) :
  add_calls (add_calls w cs) cs' = add_calls w (cs ++ cs').
Proof. unfold add_calls. simpl. now rewrite app_assoc. Qed.

Lemma only_calls_ret {A : Type} (a : A) : only_calls (@ret S A a).
Proof. intros w. exists [], (Ok a). now rewrite add_calls_nil. Qed.

Lemma only_calls_raise {A : Type} (e : string) : only_calls (@raise S A e).
Proof. intros w. exists [], (Raise e). now rewrite add_calls_nil. Qed.

Lemma only_calls_lift {A : Type} (o : outcome A) : only_calls (@lift S A o).
Proof. intros w. exists [], o. now rewrite add_calls_nil. Qed.

Lemma only_calls_call {A : Type} (ev : event) (o : outcome A) : only_calls (@call S A ev o).
Proof. intros w. now exists [ev], o. Qed.

Lemma only_calls_bind {A B : Type} (c : M S A) (k : A -> M S B) :
  only_calls c -> (forall a, only_calls (k a)) -> only_calls (mbind c k).
Proof.
  intros Hc Hk w. unfold mbind. destruct (Hc w) as (cs & o & ->).
  destruct o as [a | e].
  - destruct (Hk a (add_calls w cs)) as (cs' & o' & ->).
    exists (cs ++ cs'), o'. now rewrite add_calls_app.
  - now exists cs, (Raise e).
Qed.

Lemma only_calls_collect {A B : Type} (l : list A) (f : A -> M S B) :
  (forall x, only_calls (f x)) -> only_calls (collect l f).
Proof.
  intros Hf. induction l as [ | x l IH]; simpl.
  - apply only_calls_ret.
  - apply only_calls_bind; [apply Hf | ]. intros b.
    apply only_calls_bind; [exact IH | ]. intros bs. apply only_calls_ret.
Qed.

(** *** Computations that differ by the text of an exception *)






End RunFacts.

(** ** The data-store statements *)

Section DataStoreFacts.
Import VectorMatching DataStore.
Context {S : Type}.

Lemma get_context_for_item_run (db : connection) (i : option Z) (r : result) (w : world S) :
  exists cs ctx, get_context_for_item db i r w = (add_calls w cs, Ok ctx).
Proof.
  unfold get_context_for_item, try_except, mbind, call, ret. simpl.
  destruct (pymysql_connect db) as [[] | e]; simpl.
  - destruct (query_item_details db i) as [[ | row rows] | e]; simpl;
      exists [CallDbConnect; CallItemDetails i]; eexists;
      unfold add_calls; simpl; rewrite <- app_assoc; reflexivity.
  - exists [CallDbConnect]. eexists. reflexivity.
Qed.

Lemma get_structured_options_run (db : connection) (rs : list result) (w : world S) :
  exists cs opts, get_structured_options db rs w = (add_calls w cs, Ok opts).
Proof.
  unfold get_structured_options.
  match goal with
  | |- context [try_except ?body _] =>
      assert (Hbody : only_calls body)
  end.
  { apply only_calls_bind; [apply only_calls_call | ]. intros _.
    apply only_calls_collect. intros r.
    apply only_calls_bind; [apply only_calls_call | ]. intros [row | ].
    - destruct (truthy (row_get row "business_name")).
      + apply only_calls_bind; [apply only_calls_lift | ]. intros i. apply only_calls_ret.
      + apply only_calls_ret.
    - apply only_calls_ret. }
  unfold try_except. destruct (Hbody w) as (cs & o & ->).
  destruct o as [opts | e].
  - now exists cs, opts.
  - exists cs. eexists. reflexivity.
Qed.


End DataStoreFacts.

(** ** [QAEngine.handle_query] *)

Section QaEngineFacts.
Import VectorMatching DataStore QaEngine QaEngineTurns.
Local Open Scope string_scope.
Local Open Scope list_scope.

Lemma recognise_intent_run (self : QAEngine) (q : string) (w : world QASessionState) :
  recognise_intent self q w =
  ({| state := set_int_id (state w) (next_counter (label self q (state w)) (int_id (state w)));
      calls := calls w ++ [CallIntent q];
      output := output w |},
   Ok (label self q (state w))).
Proof.
  unfold recognise_intent, label, next_counter, mbind, try_except, call, read, write, ret.
  simpl.
  destruct (intent_recognizer self q (intent_history (state w))) as [l | e]; simpl.
  - now destruct (String.eqb l "t1").
  - reflexivity.
Qed.

Lemma retrieve_run (self : QAEngine) (q : string) (w : world QASessionState) :
  retrieve self q w = (add_calls w [CallSearch q], Ok (retrieved self q)).
Proof.
  unfold retrieve, retrieved, try_except, call, ret.
  now destruct (search (searcher self) q 3 (similarity_threshold self)).
Qed.

(** Step 3 returns; it touches neither the session nor the output, and with
    no result or a counter of 3 or more it calls nobody and gives the
    not-found message. *)
Lemma branch_run (self : QAEngine) (q : string) (rs : list result)
    (w : world QASessionState) :
  exists cs d,
    branch self q rs w = (add_calls w cs, Ok d) /\
    (rs = [] \/ (3 <= int_id (state w))%Z -> cs = [] /\ d = AnswerData not_found_message).
Proof.
  unfold branch, mbind at 1, read.
  destruct ((0 <? Z.of_nat (length rs))%Z && (int_id (state w) <? 3)%Z) eqn:Egate.
  - apply andb_true_iff in Egate. destruct Egate as [Hpos Hlt].
    apply Z.ltb_lt in Hpos, Hlt.
    assert (Hno : ~ (rs = [] \/ (3 <= int_id (state w))%Z)).
    { intros [-> | H]; [simpl in Hpos | ]; lia. }
    destruct (Z.of_nat (length rs) =? 1)%Z eqn:Eone.
    + destruct rs as [ | r rs']; [simpl in Hpos; lia | ].
      unfold mbind.
      destruct (get_context_for_item_run (db self) (m_id r) r w) as (cs & ctx & ->).
      unfold try_except, call, ret.
      destruct (ModelAnswer.chat (answer_generator self) q (ModelAnswer.InfoText ctx))
        as [answer | e]; simpl;
        exists (cs ++ [CallChat q ctx]); eexists; rewrite <- add_calls_app;
        (split; [reflexivity | tauto]).
    + unfold mbind.
      destruct (get_structured_options_run (db self) rs w) as (cs & opts & ->).
      exists cs. eexists. split; [reflexivity | tauto].
  - exists [], (AnswerData not_found_message). rewrite add_calls_nil.
    split; [reflexivity | tauto].
Qed.

Lemma update_history_run (q : string) (a : text) (w : world QASessionState) :
  update_history q a w =
  ({| state := append_history (append_history (state w) (user_message q))
                              (assistant_message a);
      calls := calls w; output := output w |}, Ok tt).
Proof. reflexivity. Qed.

(** A turn of [handle_query], step by step. *)
Lemma handle_query_run (self : QAEngine) (q u : string) (w : world QASessionState) :
  let counter := next_counter (label self q (state w)) (int_id (state w)) in
  exists cs d n,
    handle_query self q u w =
    ({| state := append_history
                   (append_history (set_int_id (state w) counter) (user_message q))
                   (assistant_message (answer_for_history d));
        calls := calls w ++ [CallIntent q; CallSearch q] ++ cs
                   ++ [CallLog u n (answer_for_history d)];
        output := output w |},
     Ok {| r_type := match d with
                     | AnswerData _ => "answer"
                     | OptionsList _ _ => "options"
                     end;
           r_data := d;
           r_meta := {| intent := label self q (state w);
                        meta_int_id := counter;
                        num_results := Z.of_nat (length (retrieved self q)) |} |}) /\
    (retrieved self q = [] \/ (3 <= counter)%Z ->
     cs = [] /\ d = AnswerData not_found_message).
Proof.
  intros counter. unfold handle_query.
  unfold mbind at 1. rewrite recognise_intent_run.
  unfold mbind at 1. rewrite retrieve_run.
  unfold mbind at 1.
  match goal with
  | |- context [branch self q (retrieved self q) ?w1] =>
      destruct (branch_run self q (retrieved self q) w1) as (cs & d & -> & Hdefer)
  end.
  exists cs, d. eexists. split; [ | exact Hdefer].
  unfold mbind at 1. rewrite update_history_run.
  unfold mbind, _log_user_interaction, mbind, read, call, ret, add_calls. simpl.
  rewrite <- !app_assoc. reflexivity.
Qed.
End QaEngineFacts.

(** ** The interactive loop of [main.py] *)

Section MainLoopFacts.
Import VectorMatching DataStore MainLoop MainLoopTurns.
Local Open Scope string_scope.
Local Open Scope list_scope.

Lemma for_each_yield {S : Type} (l : list string) (w : world S) :
  for_each l (fun chunk => yield (Str chunk)) w =
  ({| state := state w; calls := calls w; output := output w ++ map Str l |}, Ok tt).
Proof.
  revert w. induction l as [ | x l IH]; intros w; simpl.
  - unfold ret. destruct w; simpl. now rewrite app_nil_r.
  - unfold mbind, yield at 1. rewrite IH. simpl. now rewrite <- app_assoc.
Qed.

(** Consuming a stream yields its fragments, then raises its failure. *)
Lemma consume_yield {S : Type} (s : stream) (w : world S) :
  consume s (fun chunk => yield (Str chunk)) w =
  ({| state := state w; calls := calls w; output := output w ++ map Str (fragments s) |},
   match failure s with
   | Some e => Raise e
   | None => Ok tt
   end).
Proof.
  unfold consume, mbind. rewrite for_each_yield.
  now destruct (failure s).
Qed.

Lemma main_recognise_intent_run (c : components) (q : string) (w : world locals) :
  recognise_intent c q w =
  ({| state := {| intent_history := intent_history (state w);
                  int_id := next_counter (label c q (state w)) (int_id (state w));
                  session_count := session_count (state w) |};
      calls := calls w ++ [CallIntent q];
      output := output w |},
   Ok (label c q (state w))).
Proof.
  unfold recognise_intent, label, next_counter, set_int_id, mbind, try_except,
    call, read, write, ret.
  simpl.
  destruct (intent_recognizer c q (intent_history (state w))) as [l | e]; simpl.
  - now destruct (String.eqb l "t1").
  - reflexivity.
Qed.

Lemma main_retrieve_run (c : components) (q : string) (w : world locals) :
  retrieve c q w = (add_calls w [CallSearch q], Ok (retrieved c q)).
Proof.
  unfold retrieve, retrieved, try_except, call, ret.
  now destruct (search (searcher c) q 3 0.5%float).
Qed.

(** Step 3 returns and leaves the local variables alone; without a result,
    and with a counter of 3 or more, it calls nobody and prints one of its
    two fixed messages. *)
Lemma decide_run (c : components) (q : string) (rs : list result) (w : world locals) :
  exists cs ys a,
    decide c q rs w =
    ({| state := state w; calls := calls w ++ cs; output := output w ++ ys |}, Ok a) /\
    (rs = [] -> cs = [] /\ ys = [Str not_found_message] /\ a = Str not_found_message) /\
    (rs <> [] -> (3 <= int_id (state w))%Z ->
     cs = [] /\ ys = [Str too_many_followups_message]
     /\ a = Str too_many_followups_message).
Proof.
  unfold decide, mbind at 1, read.
  destruct ((0 <? Z.of_nat (length rs))%Z && (int_id (state w) <? 3)%Z) eqn:Egate.
  - apply andb_true_iff in Egate. destruct Egate as [Hpos Hlt].
    apply Z.ltb_lt in Hpos, Hlt.
    assert (Hne : rs <> []) by (intros ->; simpl in Hpos; lia).
    destruct (Z.of_nat (length rs) =? 1)%Z eqn:Eone.
    + destruct rs as [ | r rs']; [congruence | ].
      unfold mbind at 1.
      destruct (get_context_for_item_run (db c) (m_id r) r w) as (cs & ctx & ->).
      unfold try_except, mbind at 1, call at 1. unfold mbind at 1.
      rewrite consume_yield. simpl.
      destruct (failure (ModelAnswer.chat_stream (answer_generator c) q
                           (ModelAnswer.InfoText ctx))) as [e | ].
      * exists (cs ++ [CallChatStream q]). eexists. eexists.
        unfold mbind, yield, ret. simpl. rewrite <- !app_assoc.
        split; [reflexivity | split; [congruence | intros; lia]].
      * exists (cs ++ [CallChatStream q]). eexists. eexists.
        unfold mbind, ret. simpl. rewrite <- !app_assoc.
        split; [reflexivity | split; [congruence | intros; lia]].
    + unfold mbind at 1.
      destruct (get_structured_options_run (db c) rs w) as (cs & opts & ->).
      exists cs. eexists. eexists. unfold mbind, yield, ret, add_calls. simpl.
      split; [reflexivity | split; [congruence | intros; lia]].
  - exists []. eexists. eexists. unfold mbind, yield, ret. simpl.
    rewrite app_nil_r. split; [reflexivity | ].
    split.
    + intros ->. simpl. auto.
    + intros Hne _. destruct rs as [ | r rs']; [congruence | ].
      replace (Z.of_nat (length (r :: rs')) =? 0)%Z with false; [auto | ].
      symmetry. apply Z.eqb_neq. simpl length. lia.
Qed.

Lemma main_update_history_run (q : string) (a : text) (w : world locals) :
  update_history q a w =
  ({| state := {| intent_history := updated_history (intent_history (state w)) q a;
                  int_id := int_id (state w);
                  session_count := session_count (state w) |};
      calls := calls w; output := output w |}, Ok tt).
Proof.
  unfold update_history, updated_history, set_history, mbind, read, write, ret. simpl.
  rewrite <- !app_assoc. simpl.
  destruct (10 <? Z.of_nat (length (intent_history (state w) ++ [Bare (Str q); Bare a])))%Z;
    simpl; rewrite <- !app_assoc; reflexivity.
Qed.

Lemma updated_history_length (h : list history_entry) (q : string) (a : text) :
  length (updated_history h q a) = Nat.min (length h + 2) 10 + 2.
Proof.
  unfold updated_history, last_n. rewrite length_app. simpl.
  destruct (Z.ltb_spec 10 (Z.of_nat (length (h ++ [Bare (Str q); Bare a])))) as [H | H];
    rewrite ?length_skipn; rewrite length_app in *; simpl in *; lia.
Qed.

(** An iteration, step by step. *)
Lemma turn_run (c : components) (u q : string) (w : world locals) :
  let counter := next_counter (label c q (state w)) (int_id (state w)) in
  exists cs ys a,
    turn c u q w =
    ({| state := {| intent_history := updated_history (intent_history (state w)) q a;
                    int_id := counter;
                    session_count := session_count (state w) + 1 |};
        calls := calls w ++ [CallIntent q; CallSearch q] ++ cs
                   ++ [CallLog u (session_count (state w) + 1) a];
        output := output w ++ ys |},
     Ok a) /\
    (retrieved c q = [] ->
     cs = [] /\ ys = [Str not_found_message] /\ a = Str not_found_message) /\
    (retrieved c q <> [] -> (3 <= counter)%Z ->
     cs = [] /\ ys = [Str too_many_followups_message]
     /\ a = Str too_many_followups_message).
Proof.
  intros counter. unfold turn.
  unfold mbind at 1, read. unfold mbind at 1, write.
  unfold mbind at 1. rewrite main_recognise_intent_run.
  unfold mbind at 1. rewrite main_retrieve_run.
  unfold mbind at 1.
  match goal with
  | |- context [decide c q (retrieved c q) ?w1] =>
      destruct (decide_run c q (retrieved c q) w1) as (cs & ys & a & -> & Hnone & Hmany)
  end.
  exists cs, ys, a. split; [ | split; [exact Hnone | exact Hmany]].
  unfold mbind at 1, read. unfold mbind at 1, call.
  unfold mbind at 1. rewrite main_update_history_run.
  unfold ret, add_calls. simpl. rewrite <- !app_assoc. reflexivity.
Qed.
End MainLoopFacts.

Section CounterClaims.
Import VectorMatching DataStore.
Local Open Scope string_scope.
Local Open Scope list_scope.

Lemma next_counter_positive (l : string) (c : Z) :
  (0 <= c)%Z -> (1 <= next_counter l c)%Z.
Proof. unfold next_counter. destruct (String.eqb l "t1"); lia. Qed.

Lemma qa_after_int_id (self : QaEngine.QAEngine) (q : string) (s : QaEngine.QASessionState) :
  QaEngine.int_id (QaEngineTurns.after self q s) =
  next_counter (QaEngineTurns.label self q s) (QaEngine.int_id s).
Proof.
  unfold QaEngineTurns.after.
  destruct (handle_query_run self q "default_user" (start s)) as (cs & d & n & -> & _).
  reflexivity.
Qed.

Lemma main_after_int_id (c : MainLoop.components) (q : string) (st : MainLoop.locals) :
  MainLoop.int_id (MainLoopTurns.after c q st) =
  next_counter (MainLoopTurns.label c q st) (MainLoop.int_id st).
Proof.
  unfold MainLoopTurns.after.
  destruct (turn_run c "anonymous" q (start st)) as (cs & ys & a & -> & _).
  reflexivity.
Qed.

Lemma qa_trajectory_counters (self : QaEngine.QAEngine) (q : string)
    (labels : list string) (s : QaEngine.QASessionState) :
  QaEngineTurns.trajectory (map (fun l => (QaEngineTurns.with_label self l, q)) labels) s
  = counters labels (QaEngine.int_id s).
Proof.
  revert s. induction labels as [ | l labels IH]; intros s; simpl; [reflexivity | ].
  rewrite IH, qa_after_int_id. reflexivity.
Qed.

Lemma main_trajectory_counters (c : MainLoop.components) (q : string)
    (labels : list string) (st : MainLoop.locals) :
  MainLoopTurns.trajectory (map (fun l => (MainLoopTurns.with_label c l, q)) labels) st
  = counters labels (MainLoop.int_id st).
Proof.
  revert st. induction labels as [ | l labels IH]; intros st; simpl; [reflexivity | ].
  rewrite IH, main_after_int_id. reflexivity.
Qed.

(** C3.  Every turn of [handle_query], and every iteration of the loop of
    [main.py], leaves the follow-up counter at the old value plus 1 when the
    label of the turn is ["t1"] (same topic) and at 1 for any other label;
    so a sequence of turns with given labels takes the counter through
    [counters], and from 0 the labels new, same, same, new, same give
    1, 2, 3, 1, 2. *)
Theorem followup_counter_update :
  (forall (self : QaEngine.QAEngine) (q u : string) (w : world QaEngine.QASessionState),
     QaEngine.int_id (state (fst (QaEngine.handle_query self q u w))) =
     next_counter (QaEngineTurns.label self q (state w)) (QaEngine.int_id (state w))) /\
  (forall (c : MainLoop.components) (u q : string) (w : world MainLoop.locals),
     MainLoop.int_id (state (fst (MainLoop.turn c u q w))) =
     next_counter (MainLoopTurns.label c q (state w)) (MainLoop.int_id (state w))) /\
  (forall (self : QaEngine.QAEngine) (q : string) (labels : list string)
          (s : QaEngine.QASessionState),
     QaEngineTurns.trajectory (map (fun l => (QaEngineTurns.with_label self l, q)) labels) s
     = counters labels (QaEngine.int_id s)) /\
  (forall (c : MainLoop.components) (q : string) (labels : list string)
          (st : MainLoop.locals),
     MainLoopTurns.trajectory (map (fun l => (MainLoopTurns.with_label c l, q)) labels) st
     = counters labels (MainLoop.int_id st)) /\
  counters ["t2"; "t1"; "t1"; "t2"; "t1"] 0 = [1; 2; 3; 1; 2]%Z.
Proof.
  repeat split.
  - intros self q u w.
    destruct (handle_query_run self q u w) as (cs & d & n & -> & _). reflexivity.
  - intros c u q w.
    destruct (turn_run c u q w) as (cs & ys & a & -> & _). reflexivity.
  - apply qa_trajectory_counters.
  - apply main_trajectory_counters.
Qed.

(** C10.  A fresh session, and the loop at its start, have a counter of 0;
    after each turn of any sequence of turns, whatever the collaborators do,
    the counter is at least 1. *)
Theorem followup_counter_at_least_one :
  (forall sid, QaEngine.int_id (QaEngine.new_session sid) = 0%Z) /\
  MainLoop.int_id MainLoop.initial = 0%Z /\
  (forall turns sid,
     Forall (fun c => (1 <= c)%Z)
            (QaEngineTurns.trajectory turns (QaEngine.new_session sid))) /\
  (forall turns,
     Forall (fun c => (1 <= c)%Z) (MainLoopTurns.trajectory turns MainLoop.initial)).
Proof.
  split; [reflexivity | split; [reflexivity | split]].
  - intros turns sid.
    assert (H : forall s, (0 <= QaEngine.int_id s)%Z ->
                Forall (fun c => (1 <= c)%Z) (QaEngineTurns.trajectory turns s)).
    { induction turns as [ | [self q] turns IH]; intros s Hs; simpl; constructor.
      - rewrite qa_after_int_id. now apply next_counter_positive.
      - apply IH. rewrite qa_after_int_id.
        pose proof (next_counter_positive (QaEngineTurns.label self q s) _ Hs). lia. }
    apply H. simpl. lia.
  - intros turns.
    assert (H : forall st, (0 <= MainLoop.int_id st)%Z ->
                Forall (fun c => (1 <= c)%Z) (MainLoopTurns.trajectory turns st)).
    { induction turns as [ | [c q] turns IH]; intros st Hst; simpl; constructor.
      - rewrite main_after_int_id. now apply next_counter_positive.
      - apply IH. rewrite main_after_int_id.
        pose proof (next_counter_positive (MainLoopTurns.label c q st) _ Hst). lia. }
    apply H. simpl. lia.
Qed.

(** C5, evaluated on the code.  A turn of [handle_query] appends exactly the
    user entry and the assistant entry and never cuts the history: six turns
    on a fresh session leave 12 entries.  An iteration of the loop of
    [main.py] appends the query and the response twice, and cuts to 10
    entries between the two: the first iteration leaves 4 entries, and the
    third leaves 12. *)
Theorem history_growth_per_turn :
  (forall (self : QaEngine.QAEngine) (q u : string) (w : world QaEngine.QASessionState),
     exists a,
       QaEngine.intent_history (state (fst (QaEngine.handle_query self q u w))) =
       QaEngine.intent_history (state w)
         ++ [QaEngineTurns.user_message q; QaEngineTurns.assistant_message a]) /\
  (forall (self : QaEngine.QAEngine) (q sid : string),
     length (QaEngine.intent_history
               (Nat.iter 6 (QaEngineTurns.after self q) (QaEngine.new_session sid))) = 12) /\
  (forall (c : MainLoop.components) (u q : string) (w : world MainLoop.locals),
     length (MainLoop.intent_history (state (fst (MainLoop.turn c u q w)))) =
     Nat.min (length (MainLoop.intent_history (state w)) + 2) 10 + 2) /\
  (forall (c : MainLoop.components) (q : string),
     length (MainLoop.intent_history (MainLoopTurns.after c q MainLoop.initial)) = 4 /\
     length (MainLoop.intent_history
               (Nat.iter 3 (MainLoopTurns.after c q) MainLoop.initial)) = 12).
Proof.
  assert (Hqa : forall self q u w, exists a,
            QaEngine.intent_history (state (fst (QaEngine.handle_query self q u w))) =
            QaEngine.intent_history (state w) ++ [QaEngineTurns.user_message q; QaEngineTurns.assistant_message a]).
  { intros self q u w.
    destruct (handle_query_run self q u w) as (cs & d & n & -> & _).
    eexists. simpl. rewrite <- app_assoc. reflexivity. }
  assert (Hqa_len : forall self q s,
            length (QaEngine.intent_history (QaEngineTurns.after self q s)) =
            length (QaEngine.intent_history s) + 2).
  { intros self q s. unfold QaEngineTurns.after.
    destruct (Hqa self q "default_user" (start s)) as [a ->].
    rewrite length_app. reflexivity. }
  assert (Hmain : forall c u q w,
            length (MainLoop.intent_history (state (fst (MainLoop.turn c u q w)))) =
            Nat.min (length (MainLoop.intent_history (state w)) + 2) 10 + 2).
  { intros c u q w.
    destruct (turn_run c u q w) as (cs & ys & a & -> & _).
    simpl. apply updated_history_length. }
  assert (Hmain_len : forall c q st,
            length (MainLoop.intent_history (MainLoopTurns.after c q st)) =
            Nat.min (length (MainLoop.intent_history st) + 2) 10 + 2).
  { intros c q st. unfold MainLoopTurns.after. now rewrite Hmain. }
  split; [exact Hqa | split; [ | split; [exact Hmain | ]]].
  - intros self q sid. unfold Nat.iter; cbn [nat_rect]. rewrite !Hqa_len. reflexivity.
  - intros c q. unfold Nat.iter; cbn [nat_rect]. rewrite !Hmain_len. split; reflexivity.
Qed.
End CounterClaims.

Section RoutingClaims.
Import VectorMatching DataStore.
Local Open Scope string_scope.
Local Open Scope list_scope.



(** C2, evaluated on the code.  With at least one result and a counter of 3
    or more (after the update of the turn), [handle_query] calls neither the
    data store nor the generator, and answers with its not-found message,
    the very message it gives when nothing is retrieved.  The loop of
    [main.py] makes no such call either and answers with its own
    too-many-follow-ups message, which differs from its not-found message. *)
Theorem followups_exhausted_reply :
  (forall (self : QaEngine.QAEngine) (q u : string) (w : world QaEngine.QASessionState),
     QaEngineTurns.retrieved self q <> [] ->
     (3 <= next_counter (QaEngineTurns.label self q (state w))
                        (QaEngine.int_id (state w)))%Z ->
     exists resp n,
       snd (QaEngine.handle_query self q u w) = Ok resp /\
       QaEngine.r_data resp = QaEngine.AnswerData QaEngine.not_found_message /\
       calls (fst (QaEngine.handle_query self q u w)) =
       calls w ++ [CallIntent q; CallSearch q;
                   CallLog u n (Str QaEngine.not_found_message)]) /\
  (forall (self : QaEngine.QAEngine) (q u : string) (w : world QaEngine.QASessionState),
     QaEngineTurns.retrieved self q = [] ->
     exists resp,
       snd (QaEngine.handle_query self q u w) = Ok resp /\
       QaEngine.r_data resp = QaEngine.AnswerData QaEngine.not_found_message) /\
  (forall (c : MainLoop.components) (u q : string) (w : world MainLoop.locals),
     MainLoopTurns.retrieved c q <> [] ->
     (3 <= next_counter (MainLoopTurns.label c q (state w))
                        (MainLoop.int_id (state w)))%Z ->
     exists n,
       snd (MainLoop.turn c u q w) = Ok (Str MainLoop.too_many_followups_message) /\
       output (fst (MainLoop.turn c u q w)) =
       output w ++ [Str MainLoop.too_many_followups_message] /\
       calls (fst (MainLoop.turn c u q w)) =
       calls w ++ [CallIntent q; CallSearch q;
                   CallLog u n (Str MainLoop.too_many_followups_message)]) /\
  MainLoop.too_many_followups_message <> MainLoop.not_found_message.
Proof.
  repeat split.
  - intros self q u w Hne Hc.
    destruct (handle_query_run self q u w) as (cs & d & n & Hrun & Hdefer).
    destruct (Hdefer (or_intror Hc)) as [-> ->].
    rewrite Hrun. simpl. eexists. exists n. repeat split.
  - intros self q u w Hnone.
    destruct (handle_query_run self q u w) as (cs & d & n & Hrun & Hdefer).
    destruct (Hdefer (or_introl Hnone)) as [-> ->].
    rewrite Hrun. simpl. eexists. repeat split.
  - intros c u q w Hne Hc.
    destruct (turn_run c u q w) as (cs & ys & a & Hrun & _ & Hmany).
    destruct (Hmany Hne Hc) as (-> & -> & ->).
    rewrite Hrun. simpl. eexists. repeat split.
  - discriminate.
Qed.

Lemma followups_exhausted_reply_witness :
  QaEngineTurns.retrieved
    (example_engine (Ok "t1") [1; 0]%float quiet_db steady_bot) "q" <> [] /\
  (3 <= next_counter
          (QaEngineTurns.label (example_engine (Ok "t1") [1; 0]%float quiet_db steady_bot)
             "q" (session_at 2))
          2)%Z /\
  exists resp n,
    snd (QaEngine.handle_query
           (example_engine (Ok "t1") [1; 0]%float quiet_db steady_bot)
           "q" "u" (start (session_at 2))) = Ok resp /\
    QaEngine.r_data resp = QaEngine.AnswerData QaEngine.not_found_message /\
    calls (fst (QaEngine.handle_query
           (example_engine (Ok "t1") [1; 0]%float quiet_db steady_bot)
           "q" "u" (start (session_at 2)))) =
    [] ++ [CallIntent "q"; CallSearch "q"; CallLog "u" n (Str QaEngine.not_found_message)].
Proof.
  assert (Hne : QaEngineTurns.retrieved
                  (example_engine (Ok "t1") [1; 0]%float quiet_db steady_bot) "q" <> [])
    by (vm_compute; discriminate).
  assert (Hc : (3 <= next_counter
                  (QaEngineTurns.label
                     (example_engine (Ok "t1") [1; 0]%float quiet_db steady_bot)
                     "q" (session_at 2)) 2)%Z)
    by (vm_compute; discriminate).
  split; [exact Hne | split; [exact Hc | ]].
  exact (proj1 followups_exhausted_reply
           (example_engine (Ok "t1") [1; 0]%float quiet_db steady_bot)
           "q" "u" (start (session_at 2)) Hne Hc).
Defined.
End RoutingClaims.

(** ** [QAEngine.handle_query_stream] *)

Section StreamFacts.
Import VectorMatching DataStore ModelAnswer.
Local Open Scope string_scope.
Local Open Scope list_scope.

Lemma get_context_for_item_value {S : Type} (db : connection) (r : result) (w : world S) :
  exists cs, get_context_for_item db (m_id r) r w = (add_calls w cs, Ok (context_of db r)).
Proof.
  unfold get_context_for_item, context_of, try_except, mbind, call, ret. simpl.
  destruct (pymysql_connect db) as [[] | e]; simpl.
  - destruct (query_item_details db (m_id r)) as [[ | row rows] | e]; simpl;
      exists [CallDbConnect; CallItemDetails (m_id r)];
      unfold add_calls; simpl; rewrite <- app_assoc; reflexivity.
  - exists [CallDbConnect]. reflexivity.
Qed.




(** The generator raises only before its first fragment. *)
Lemma chat_stream_raises_at_once (self : DashScopeChatBot) (q e : string) (i : db_info) :
  failure (chat_stream self q i) = Some e -> fragments (chat_stream self q i) = [].
Proof.
  unfold chat_stream.
  destruct (system_prompt self i) as [p | e']; [ | reflexivity].
  destruct (completions_create self p q) as [c | e']; discriminate.
Qed.




(** [handle_query_stream] when its body raises.  In a streaming answer turn
    (one result, counter below 3) with a data store that refuses the
    connection, the context falls back to the stored text, but the second
    fetch of the rows is not guarded: its exception reaches the handler of
    the generator, whose first statement reads [self.logger] and raises
    [AttributeError].  The generator has yielded the id block only, it
    yields no error fragment, and the history is left as it was. *)
Theorem stream_handler_raises_attribute_error (self : QaEngine.QAEngine) (q u e : string)
    (w : world QaEngine.QASessionState) (r : result) :
  QaEngineTurns.retrieved self q = [r] ->
  (next_counter (QaEngineTurns.label self q (state w)) (QaEngine.int_id (state w)) < 3)%Z ->
  pymysql_connect (QaEngine.db self) = Raise e ->
  exists cs,
    QaEngine.handle_query_stream self q u w =
    ({| state := QaEngine.set_int_id (state w)
                   (next_counter (QaEngineTurns.label self q (state w))
                                 (QaEngine.int_id (state w)));
        calls := calls w ++ cs;
        output := output w ++ [IdBlock (m_id r)] |},
     Raise "'QAEngine' object has no attribute 'logger'").
Proof.
  intros Hr Hc Hconn.
  unfold QaEngine.handle_query_stream, try_except.
  unfold mbind at 1. rewrite recognise_intent_run.
  unfold mbind at 1. rewrite retrieve_run. rewrite Hr.
  unfold mbind at 1. unfold QaEngine.stream_branch.
  unfold mbind at 1, read. cbn [state add_calls QaEngine.set_int_id QaEngine.int_id length].
  apply Z.ltb_lt in Hc. rewrite Hc.
  cbn [Z.of_nat Z.ltb Z.eqb Pos.of_succ_nat Z.compare andb Pos.eqb].
  unfold mbind at 1, yield at 1.
  unfold mbind at 1.
  match goal with
  | |- context [get_context_for_item _ _ _ ?w1] =>
      destruct (get_context_for_item_value (QaEngine.db self) r w1) as (cs & ->)
  end.
  unfold mbind at 1, call at 1. rewrite Hconn.
  unfold QaEngine.self_logger_error, mbind, raise. cbn [state calls output add_calls].
  eexists. rewrite <- !app_assoc. reflexivity.
Qed.

Lemma stream_handler_raises_attribute_error_witness :
  exists cs,
    QaEngine.handle_query_stream
      (example_engine (Ok "t2") [1; 0]%float (failing_db "access denied") steady_bot)
      "q" "u" (start (session_at 0)) =
    ({| state := QaEngine.set_int_id (session_at 0) 1;
        calls := [] ++ cs;
        output := [] ++ [IdBlock (Some 1%Z)] |},
     Raise "'QAEngine' object has no attribute 'logger'").
Proof.
  exact (stream_handler_raises_attribute_error
           (example_engine (Ok "t2") [1; 0]%float (failing_db "access denied") steady_bot)
           "q" "u" "access denied" (start (session_at 0))
           (candidate_of (entry 1 (Some "A") [1; 0]%float) 1%float)
           eq_refl eq_refl eq_refl).
Defined.
End StreamFacts.

(** ** Failures of the collaborators *)

Section FailureFacts.
Import VectorMatching DataStore ModelAnswer.
Local Open Scope string_scope.
Local Open Scope list_scope.









(** *** [Branch1Engine.handle_query_stream] *)

Lemma for_each_nonempty_yield (l : list string) (w : world unit) :
  for_each l (fun chunk => if String.eqb chunk "" then ret tt else yield (Str chunk)) w =
  ({| state := state w; calls := calls w;
      output := output w ++ map Str (filter (fun chunk => negb (String.eqb chunk "")) l) |},
   Ok tt).
Proof.
  revert w. induction l as [ | x l IH]; intros w; simpl.
  - unfold ret. destruct w; simpl. now rewrite app_nil_r.
  - unfold mbind. destruct (String.eqb x ""); simpl.
    + unfold ret at 1. apply IH.
    + unfold yield at 1. rewrite IH. simpl. now rewrite <- app_assoc.
Qed.


Lemma branch_stream_returns (self : BranchEngine.Branch1Engine) (i : Z) (q : string)
    (w : world unit) :
  snd (BranchEngine.handle_query_stream self i q w) = Ok tt.
Proof.
  unfold BranchEngine.handle_query_stream, try_except.
  match goal with
  | |- context [match ?body w with _ => _ end] => destruct (body w) as [w' [[] | e]]
  end; reflexivity.
Qed.


End FailureFacts.

Section FailureClaims.
Import VectorMatching DataStore ModelAnswer.
Local Open Scope string_scope.
Local Open Scope list_scope.



End FailureClaims.

(** ** The index: what [search] returns and when *)

Section SearchRanking.
Import VectorMatching.
Local Open Scope float_scope.

Lemma Permutation_filter {A : Type} (p : A -> bool) (l l' : list A) :
  Permutation l l' -> Permutation (filter p l) (filter p l').
Proof.
  induction 1 as [ | x l l' HP IH | x y l | l l' l'' HP1 IH1 HP2 IH2]; simpl.
  - constructor.
  - destruct (p x); [now constructor | exact IH].
  - destruct (p x), (p y); try reflexivity. apply perm_swap.
  - now transitivity (filter p l').
Qed.

Lemma StronglySorted_app_inv {A : Type} (R : A -> A -> Prop) (l1 l2 : list A) :
  StronglySorted R (l1 ++ l2) -> forall a b, In a l1 -> In b l2 -> R a b.
Proof.
  induction l1 as [ | x l1 IH]; simpl; intros HS a b Ha Hb; [contradiction | ].
  inversion HS as [ | ? ? HS' Hx]; subst.
  destruct Ha as [-> | Ha].
  - rewrite Forall_forall in Hx. apply Hx. apply in_or_app. now right.
  - now apply IH.
Qed.

(** The number of returned entries is exact: the candidates that reach the
    threshold, cut to [top_k] (a negative [top_k] drops that many from the
    end instead). *)
Theorem search_count (self : VectorSearcher) (q : string) (k : Z) (t : float)
    (res : list result) :
  search self q k t = Ok res ->
  exists ms,
    candidates self q = Ok ms /\
    length res =
      if (0 <=? k)%Z
      then Nat.min (Z.to_nat k) (length (filter (reaches t) ms))
      else (length (filter (reaches t) ms) - Z.to_nat (- k))%nat.
Proof.
  intros Hs. destruct (search_returns _ _ _ _ _ Hs) as (ms & Hc & ->).
  exists ms. split; [exact Hc | ].
  assert (Hlen : length (filter (fun m => t <=? similarity m) (sorted_reverse similarity ms))
                 = length (filter (reaches t) ms)).
  { apply Permutation_length, Permutation_filter, Permutation_sym, sorted_reverse_perm. }
  unfold slice_to. destruct (0 <=? k)%Z; rewrite length_firstn, Hlen; lia.
Qed.

Lemma search_count_witness :
  exists ms,
    candidates (searcher_over base_AB [1; 0]) "q" = Ok ms /\
    length [candidate_of (entry 1 (Some "A"%string) [1; 0]) 1] =
      if (0 <=? 3)%Z
      then Nat.min (Z.to_nat 3) (length (filter (reaches 0.5) ms))
      else (length (filter (reaches 0.5) ms) - Z.to_nat (- 3))%nat.
Proof.
  exact (search_count (searcher_over base_AB [1; 0]) "q" 3 0.5
           [candidate_of (entry 1 (Some "A"%string) [1; 0]) 1] eq_refl).
Defined.

(** The result is the head of the ranking: it and the candidates left out
    make up exactly the candidates that reach the threshold, nothing is left
    out unless [top_k] entries are returned, and (for similarities that are
    numbers) no entry left out has a greater similarity than a returned
    one. *)
Theorem search_returns_best (self : VectorSearcher) (q : string) (k : Z) (t : float)
    (res : list result) :
  (0 <= k)%Z ->
  search self q k t = Ok res ->
  exists ms rest,
    candidates self q = Ok ms /\
    Permutation (filter (reaches t) ms) (res ++ rest) /\
    (rest <> [] -> length res = Z.to_nat k) /\
    (keys_ordered similarity ms ->
     forall m m', In m res -> In m' rest -> (similarity m' <=? similarity m) = true).
Proof.
  intros Hk Hs. destruct (search_returns _ _ _ _ _ Hs) as (ms & Hc & ->).
  set (ranked := filter (fun m => t <=? similarity m) (sorted_reverse similarity ms)).
  unfold slice_to. destruct (Z.leb_spec 0 k) as [_ | Hneg]; [ | lia].
  exists ms, (skipn (Z.to_nat k) ranked). split; [exact Hc | ].
  rewrite firstn_skipn. split; [ | split].
  - apply Permutation_filter, sorted_reverse_perm.
  - intros Hrest. rewrite length_firstn.
    destruct (Nat.le_gt_cases (length ranked) (Z.to_nat k)) as [Hle | Hgt]; [ | lia].
    exfalso. apply Hrest. now apply skipn_all2.
  - intros Hms m m' Hm Hm'.
    assert (HS : StronglySorted (descending similarity) ranked)
      by now apply StronglySorted_filter, sorted_reverse_sorted.
    rewrite <- (firstn_skipn (Z.to_nat k) ranked) in HS.
    exact (StronglySorted_app_inv _ _ _ HS m m' Hm Hm').
Qed.

Lemma search_returns_best_witness :
  exists ms rest,
    candidates (searcher_over base_12 [0.7; 0.7]) "q" = Ok ms /\
    Permutation (filter (reaches 0.1) ms)
      ([candidate_of (entry 1 None [1; 0]) tie_similarity] ++ rest) /\
    (rest <> [] -> length [candidate_of (entry 1 None [1; 0]) tie_similarity] = Z.to_nat 1) /\
    (keys_ordered similarity ms ->
     forall m m', In m [candidate_of (entry 1 None [1; 0]) tie_similarity] ->
                  In m' rest -> (similarity m' <=? similarity m) = true).
Proof.
  assert (Hk : (0 <= 1)%Z) by lia.
  exact (search_returns_best (searcher_over base_12 [0.7; 0.7]) "q" 1 0.1
           [candidate_of (entry 1 None [1; 0]) tie_similarity] Hk eq_refl).
Defined.

(** The loop of [search] scores every item with a vector, or raises. *)
Lemma all_matches_returns_iff (qv : list float) (kb : list item) :
  (exists ms, all_matches qv kb = Ok ms) <-> dimensions_agree qv kb = true.
Proof.
  induction kb as [ | it kb IH]; simpl.
  - split; [reflexivity | intros _; now exists []].
  - destruct (item_vector it) as [[ | x v] | ]; simpl; try exact IH.
    unfold _cosine_similarity, bind. simpl length.
    destruct (Nat.eqb (length qv) (S (length v))); simpl.
    + rewrite <- IH.
      destruct ((norm qv =? 0) || (norm (x :: v) =? 0))%bool;
        (split; [intros [ms H]; destruct (all_matches qv kb); [eauto | discriminate]
                | intros [ms ->]; eauto]).
    + split; [intros [ms H]; discriminate | intros H; discriminate].
Qed.

(** [search] returns exactly when the embedding of the query is obtained and
    every stored vector that is not empty has the dimension of the query
    vector; otherwise it raises, whatever the threshold and [top_k]. *)
Theorem search_returns_iff (self : VectorSearcher) (q : string) (k : Z) (t : float) :
  (exists res, search self q k t = Ok res) <->
  (exists qv, get_embedding self q = Ok qv /\
              dimensions_agree qv (knowledge_base self) = true).
Proof.
  unfold search, bind. destruct (get_embedding self q) as [qv | e].
  - split.
    + intros [res H]. exists qv. split; [reflexivity | ].
      apply all_matches_returns_iff.
      destruct (all_matches qv (knowledge_base self)); [eauto | discriminate].
    + intros (qv' & Hq & Hd). injection Hq as <-.
      apply all_matches_returns_iff in Hd. destruct Hd as [ms ->]. eauto.
  - split; [intros [res H]; discriminate | intros (qv & H & _); discriminate].
Qed.

Lemma all_matches_filter (qv : list float) (kb : list item) :
  all_matches qv (filter has_vector kb) = all_matches qv kb.
Proof.
  induction kb as [ | it kb IH]; simpl; [reflexivity | ].
  unfold has_vector at 1.
  destruct (item_vector it) as [[ | x v] | ] eqn:Ev; simpl; try exact IH.
  rewrite Ev, IH. reflexivity.
Qed.

(** Items without a vector, or with an empty one, do not count: the search
    is the search over the knowledge base without them.  Over a knowledge
    base in which no item has a vector (the empty one among them) it returns
    no entry for every query that can be embedded. *)
Theorem search_ignores_items_without_vector (self : VectorSearcher) (q : string)
    (k : Z) (t : float) :
  search self q k t = search (with_base self (filter has_vector (knowledge_base self))) q k t /\
  (forall qv, get_embedding self q = Ok qv ->
              filter has_vector (knowledge_base self) = [] ->
              search self q k t = Ok []).
Proof.
  assert (H : search self q k t =
              search (with_base self (filter has_vector (knowledge_base self))) q k t).
  { unfold search, with_base. simpl. destruct (get_embedding self q) as [qv | e]; simpl;
      [now rewrite all_matches_filter | reflexivity]. }
  split; [exact H | ].
  intros qv Hq Hnone. rewrite H. unfold search, with_base. simpl. rewrite Hq, Hnone. simpl.
  unfold slice_to. f_equal. destruct (0 <=? k)%Z; apply firstn_nil.
Qed.

Lemma all_matches_zero_query (qv : list float) (kb : list item) (ms : list result) :
  (norm qv =? 0) = true -> all_matches qv kb = Ok ms ->
  Forall (fun m => similarity m = 0) ms.
Proof.
  intros Hz. revert ms. induction kb as [ | it kb IH]; simpl; intros ms H.
  - injection H as <-. constructor.
  - destruct (item_vector it) as [[ | x v] | ]; try now apply IH.
    unfold _cosine_similarity, bind in H. rewrite Hz in H.
    destruct (Nat.eqb (length qv) (length (x :: v))); [ | discriminate].
    simpl in H. destruct (all_matches qv kb) as [ms' | e]; [ | discriminate].
    injection H as <-. constructor; [reflexivity | now apply IH].
Qed.

(** A query whose vector has norm zero retrieves nothing at a threshold
    above zero: every candidate gets the similarity 0.0. *)
Theorem zero_query_retrieves_nothing (self : VectorSearcher) (q : string) (k : Z)
    (t : float) (qv : list float) (res : list result) :
  get_embedding self q = Ok qv ->
  (norm qv =? 0) = true ->
  (0 <? t) = true ->
  search self q k t = Ok res ->
  res = [].
Proof.
  intros Hq Hz Ht Hs. destruct (search_returns _ _ _ _ _ Hs) as (ms & Hc & ->).
  unfold candidates in Hc. rewrite Hq in Hc. simpl in Hc.
  pose proof (all_matches_zero_query _ _ _ Hz Hc) as Hall.
  rewrite filter_none.
  - unfold slice_to. destruct (0 <=? k)%Z; apply firstn_nil.
  - intros m Hm.
    apply (Permutation_in _ (Permutation_sym (sorted_reverse_perm similarity ms))) in Hm.
    rewrite Forall_forall in Hall. rewrite (Hall m Hm). now apply ltb_not_leb.
Qed.

Lemma zero_query_retrieves_nothing_witness :
  @nil result = [].
Proof.
  exact (zero_query_retrieves_nothing (searcher_over base_AB [0; 0]) "q" 3 0.5 [0; 0] []
           eq_refl eq_refl eq_refl eq_refl).
Defined.
End SearchRanking.

(** ** Computations that make calls of one kind *)

Section CallFacts.
Context {S : Type}.

Lemma runs_ret {A : Type} (allowed : event -> bool) (post : A -> Prop) (a : A) :
  post a -> runs allowed post (@ret S A a).
Proof. intros H w. exists [], (Ok a). now rewrite add_calls_nil. Qed.

Lemma runs_call {A : Type} (allowed : event -> bool) (post : A -> Prop) (ev : event)
    (o : outcome A) :
  allowed ev = true -> (forall a, o = Ok a -> post a) -> runs allowed post (@call S A ev o).
Proof.
  intros Hev Ho w. exists [ev], o. repeat split.
  - simpl. now rewrite Hev.
  - destruct o; [now apply Ho | exact I].
Qed.

Lemma runs_lift {A : Type} (allowed : event -> bool) (post : A -> Prop) (o : outcome A) :
  (forall a, o = Ok a -> post a) -> runs allowed post (@lift S A o).
Proof.
  intros Ho w. exists [], o. rewrite add_calls_nil. repeat split.
  destruct o; [now apply Ho | exact I].
Qed.

Lemma runs_bind {A B : Type} (allowed : event -> bool) (mid : A -> Prop) (post : B -> Prop)
    (c : M S A) (k : A -> M S B) :
  runs allowed mid c -> (forall a, mid a -> runs allowed post (k a)) ->
  runs allowed post (mbind c k).
Proof.
  intros Hc Hk w. unfold mbind. destruct (Hc w) as (cs & o & -> & Hcs & Ho).
  destruct o as [a | e].
  - destruct (Hk a Ho (add_calls w cs)) as (cs' & o' & -> & Hcs' & Ho').
    exists (cs ++ cs'), o'. rewrite add_calls_app, forallb_app, Hcs, Hcs'. now repeat split.
  - now exists cs, (Raise e).
Qed.

Lemma runs_collect {A B : Type} (allowed : event -> bool) (post : A -> B -> Prop)
    (l : list A) (f : A -> M S B) :
  (forall x, runs allowed (post x) (f x)) ->
  runs allowed (Forall2 post l) (collect l f).
Proof.
  intros Hf. induction l as [ | x l IH]; simpl.
  - apply runs_ret. constructor.
  - apply (runs_bind _ (post x)); [apply Hf | ]. intros b Hb.
    apply (runs_bind _ (Forall2 post l)); [exact IH | ]. intros bs Hbs.
    apply runs_ret. now constructor.
Qed.
End CallFacts.

(** ** [QAEngine.handle_query], by the kind of turn *)

Section EngineTurns.
Import VectorMatching DataStore ModelAnswer QaEngine QaEngineTurns.
Local Open Scope string_scope.
Local Open Scope list_scope.

(** The options: one for each result, in their order, each from the data
    store or all of them from the stored texts; only the data store is
    called. *)
Lemma get_structured_options_value {S : Type} (db : connection) (rs : list result)
    (w : world S) :
  exists cs opts,
    get_structured_options db rs w = (add_calls w cs, Ok opts) /\
    forallb is_data_store cs = true /\
    (Forall2 (option_of db) rs opts \/ opts = map fallback_option rs) /\
    (forall e, pymysql_connect db = Raise e ->
               cs = [CallDbConnect] /\ opts = map fallback_option rs).
Proof.
  unfold get_structured_options.
  match goal with
  | |- context [try_except ?body _] =>
      assert (Hbody : runs is_data_store (Forall2 (option_of db) rs) body)
  end.
  { apply (runs_bind _ (fun _ => True)); [now apply runs_call | ]. intros _ _.
    apply runs_collect. intros r. unfold option_of.
    destruct (query_business_name db (m_id r)) as [[row | ] | e].
    - apply (runs_bind _ (fun x => x = Some row)); [apply runs_call; [reflexivity | congruence] | ].
      intros ? ->. destruct (truthy (row_get row "business_name")).
      + apply (runs_bind _ (fun id => row_index row "id" = Ok id));
          [apply runs_lift; congruence | ].
        intros id Hid. apply runs_ret. now exists id.
      + now apply runs_ret.
    - apply (runs_bind _ (fun x => x = None)); [apply runs_call; [reflexivity | congruence] | ].
      intros ? ->. now apply runs_ret.
    - apply (runs_bind _ (fun _ => False)); [apply runs_call; [reflexivity | discriminate] | ].
      intros ? []. }
  unfold try_except. destruct (Hbody w) as (cs & o & Hrun & Hcs & Ho).
  assert (Hconn : forall e, pymysql_connect db = Raise e -> cs = [CallDbConnect] /\ o = Raise e).
  { intros e He. revert Hrun. unfold mbind, call. rewrite He. unfold add_calls. simpl.
    intros Hrun. injection Hrun as Hcalls ->. apply app_inv_head in Hcalls. now subst. }
  rewrite Hrun. destruct o as [opts | e].
  - exists cs, opts. split; [reflexivity | ]. split; [exact Hcs | ]. split; [now left | ].
    intros e He. destruct (Hconn e He) as [_ Ho']. discriminate.
  - exists cs, (map fallback_option rs). unfold ret.
    split; [reflexivity | ]. split; [exact Hcs | ]. split; [now right | ].
    intros e' He'. now destruct (Hconn e' He').
Qed.

(** A turn of [handle_query] from what its step 3 does. *)
Lemma handle_query_of_branch (self : QAEngine) (q u : string) (w : world QASessionState)
    (cs : list event) (d : data) :
  let counter := next_counter (label self q (state w)) (int_id (state w)) in
  let w1 := add_calls {| state := set_int_id (state w) counter;
                         calls := calls w ++ [CallIntent q];
                         output := output w |} [CallSearch q] in
  branch self q (retrieved self q) w1 = (add_calls w1 cs, Ok d) ->
  handle_query self q u w =
  ({| state := append_history
                 (append_history (set_int_id (state w) counter) (user_message q))
                 (assistant_message (answer_for_history d));
      calls := calls w ++ [CallIntent q; CallSearch q] ++ cs
                 ++ [CallLog u (turn_number (state w)) (answer_for_history d)];
      output := output w |},
   Ok {| r_type := match d with
                   | AnswerData _ => "answer"
                   | OptionsList _ _ => "options"
                   end;
         r_data := d;
         r_meta := {| intent := label self q (state w);
                      meta_int_id := counter;
                      num_results := Z.of_nat (length (retrieved self q)) |} |}).
Proof.
  intros counter w1 Hb. unfold handle_query.
  unfold mbind at 1. rewrite recognise_intent_run.
  unfold mbind at 1. rewrite retrieve_run.
  unfold mbind at 1. fold counter. fold w1. rewrite Hb.
  unfold mbind at 1. rewrite update_history_run.
  unfold mbind, _log_user_interaction, mbind, read, call, ret, turn_number.
  subst w1. unfold add_calls.
  cbn [state calls output append_history set_int_id intent_history int_id session_id].
  rewrite !length_app, <- Nat.add_assoc, <- !app_assoc. reflexivity.
Qed.


Lemma branch_options (self : QAEngine) (q : string) (rs : list result)
    (w : world QASessionState) :
  (2 <= length rs)%nat -> (int_id (state w) < 3)%Z ->
  branch self q rs w =
  (let (w', o) := get_structured_options (db self) rs w in
   (w', match o with Ok opts => Ok (OptionsList q opts) | Raise e => Raise e end)).
Proof.
  intros Hn Hc. unfold branch, mbind at 1, read. apply Z.ltb_lt in Hc. rewrite Hc.
  assert (H0 : (0 <? Z.of_nat (length rs))%Z = true) by (apply Z.ltb_lt; lia).
  assert (H1 : (Z.of_nat (length rs) =? 1)%Z = false) by (apply Z.eqb_neq; lia).
  rewrite H0, H1. simpl. unfold mbind.
  destruct (get_structured_options (db self) rs w) as [w' [opts | e]]; reflexivity.
Qed.



(** An options turn of [handle_query] (two or three results, a counter
    below 3).  The turn offers one option for each result, in the order of
    the results: each is built from the row the data store has for that
    result, or all of them are the stored texts; they all are when the
    connection fails.  Only the data store is called, never the generator,
    and the JSON text of the options is committed to the history. *)
Theorem several_results_offered_as_options (self : QAEngine) (q u : string)
    (w : world QASessionState) :
  let counter := next_counter (label self q (state w)) (int_id (state w)) in
  (2 <= length (retrieved self q))%nat ->
  (counter < 3)%Z ->
  exists cs opts,
    handle_query self q u w =
    ({| state := append_history
                   (append_history (set_int_id (state w) counter) (user_message q))
                   (assistant_message (JsonDumps (OptionsData q opts)));
        calls := calls w ++ [CallIntent q; CallSearch q] ++ cs
                   ++ [CallLog u (turn_number (state w)) (JsonDumps (OptionsData q opts))];
        output := output w |},
     Ok {| r_type := "options";
           r_data := OptionsList q opts;
           r_meta := {| intent := label self q (state w);
                        meta_int_id := counter;
                        num_results := Z.of_nat (length (retrieved self q)) |} |}) /\
    forallb is_data_store cs = true /\
    length opts = length (retrieved self q) /\
    (Forall2 (option_of (db self)) (retrieved self q) opts \/
     opts = map fallback_option (retrieved self q)) /\
    (forall e, pymysql_connect (db self) = Raise e ->
               cs = [CallDbConnect] /\ opts = map fallback_option (retrieved self q)).
Proof.
  intros counter Hn Hc.
  set (w1 := add_calls {| state := set_int_id (state w) counter;
                          calls := calls w ++ [CallIntent q];
                          output := output w |} [CallSearch q]).
  destruct (get_structured_options_value (db self) (retrieved self q) w1)
    as (cs & opts & Hrun & Hcs & Hopts & Hconn).
  assert (Hq := handle_query_of_branch self q u w cs (OptionsList q opts)).
  exists cs, opts. split.
  { apply Hq. fold counter. fold w1.
    rewrite branch_options; [now rewrite Hrun | exact Hn | exact Hc]. }
  split; [exact Hcs | ].
  split; [ | now split].
  destruct Hopts as [H | ->]; [symmetry; exact (Forall2_length H) | apply length_map].
Qed.

Lemma several_results_offered_as_options_witness :
  let self := example_engine (Ok "t2") [0.7; 0.7]%float (failing_db "down") steady_bot in
  exists cs opts,
    handle_query self "q" "u" (start (session_at 0)) =
    ({| state := append_history
                   (append_history (set_int_id (session_at 0) 1) (user_message "q"))
                   (assistant_message (JsonDumps (OptionsData "q" opts)));
        calls := [] ++ [CallIntent "q"; CallSearch "q"] ++ cs
                   ++ [CallLog "u" 1 (JsonDumps (OptionsData "q" opts))];
        output := [] |},
     Ok {| r_type := "options";
           r_data := OptionsList "q" opts;
           r_meta := {| intent := "t2"; meta_int_id := 1; num_results := 2 |} |}) /\
    forallb is_data_store cs = true /\
    length opts = 2%nat /\
    (Forall2 (option_of (db self)) (retrieved self "q") opts \/
     opts = map fallback_option (retrieved self "q")) /\
    (forall e, pymysql_connect (db self) = Raise e ->
               cs = [CallDbConnect] /\ opts = map fallback_option (retrieved self "q")).
Proof.
  exact (several_results_offered_as_options
           (example_engine (Ok "t2") [0.7; 0.7]%float (failing_db "down") steady_bot)
           "q" "u" (start (session_at 0)) (le_n 2) eq_refl).
Defined.


End EngineTurns.

(** ** [DashScopeChatBot.chat] and [DashScopeChatBot.chat_stream] *)

Section GeneratorFacts.
Import ModelAnswer.
Local Open Scope string_scope.
Local Open Scope list_scope.

Lemma content_pieces_not_empty (c : completion) :
  Forall (fun piece => piece <> "") (content_pieces c).
Proof.
  unfold content_pieces. apply Forall_forall. intros piece Hin.
  apply filter_In in Hin. destruct Hin as [_ H]. intros ->. discriminate.
Qed.

(** [chat] and [chat_stream] on the same question and context.  The
    generator never yields an empty fragment.  [chat] raises exactly when
    the generator does, with the same exception (the prompt does not
    format).  When the completion ends well or the service refuses the
    request, the text of [chat] is the concatenation of the fragments of
    the generator.  When the completion breaks, [chat] returns the text of
    the exception alone and drops the pieces received, which the generator
    has yielded before that text. *)
Theorem chat_and_chat_stream (self : DashScopeChatBot) (q : string) (i : db_info) :
  Forall (fun fragment => fragment <> "") (fragments (chat_stream self q i)) /\
  (forall e, chat self q i = Raise e <-> failure (chat_stream self q i) = Some e) /\
  (forall p, system_prompt self i = Ok p ->
     (forall e, completions_create self p q = Raise e ->
                chat self q i = Ok (error_text e) /\
                fragments (chat_stream self q i) = [error_text e]) /\
     (forall c, completions_create self p q = Ok c -> broken c = None ->
                chat self q i = Ok (join "" (fragments (chat_stream self q i))) /\
                fragments (chat_stream self q i) = content_pieces c) /\
     (forall c e, completions_create self p q = Ok c -> broken c = Some e ->
                  chat self q i = Ok (error_text e) /\
                  fragments (chat_stream self q i) = content_pieces c ++ [error_text e])).
Proof.
  unfold chat, chat_stream, bind. split; [ | split].
  - destruct (system_prompt self i) as [p | e]; [ | constructor].
    destruct (completions_create self p q) as [c | e]; simpl.
    + apply Forall_app. split; [apply content_pieces_not_empty | ].
      destruct (broken c); repeat constructor. discriminate.
    + repeat constructor. discriminate.
  - intros e. destruct (system_prompt self i) as [p | e'].
    + destruct (completions_create self p q) as [c | e'']; [destruct (broken c) | ];
        simpl; split; discriminate.
    + simpl. split; intros H; injection H as ->; reflexivity.
  - intros p ->. split; [ | split].
    + intros e ->. now split.
    + intros c -> ->. simpl. now rewrite app_nil_r.
    + intros c e -> ->. now split.
Qed.

End GeneratorFacts.

(** ** [QAEngine.handle_query_stream] beside [QAEngine.handle_query] *)

Section StreamTurns.
Import VectorMatching DataStore ModelAnswer QaEngine QaEngineTurns.
Local Open Scope string_scope.
Local Open Scope list_scope.

(** A turn of [handle_query_stream] from what its step 3 does, when that
    step returns. *)
Lemma handle_query_stream_of_branch (self : QAEngine) (q u : string)
    (w : world QASessionState) (w2 : world QASessionState) (a : text) :
  let counter := next_counter (label self q (state w)) (int_id (state w)) in
  let w1 := add_calls {| state := set_int_id (state w) counter;
                         calls := calls w ++ [CallIntent q];
                         output := output w |} [CallSearch q] in
  stream_branch self q (retrieved self q) w1 = (w2, Ok a) ->
  handle_query_stream self q u w =
  ({| state := append_history (append_history (state w2) (user_message q))
                              (assistant_message a);
      calls := calls w2 ++ [CallLog u (turn_number (state w2)) a];
      output := output w2 |}, Ok tt).
Proof.
  intros counter w1 Hb. unfold handle_query_stream, try_except.
  unfold mbind at 1. rewrite recognise_intent_run.
  unfold mbind at 1. rewrite retrieve_run.
  unfold mbind at 1. fold counter. fold w1. rewrite Hb.
  unfold mbind at 1. rewrite update_history_run.
  unfold _log_user_interaction, mbind, read, call, turn_number.
  cbn [state calls output append_history set_int_id intent_history int_id session_id].
  rewrite !length_app, <- Nat.add_assoc. reflexivity.
Qed.

(** A deferring turn (no result, or a counter of 3 or more) of the two
    handlers: both call the classifier, the index and the log and nobody
    else, and both leave the same session, with the not-found message as
    the assistant entry; the generator of [handle_query_stream] yields this
    message as its only fragment and ends without raising. *)
Theorem stream_defers_like_buffered (self : QAEngine) (q u : string)
    (w : world QASessionState) :
  let counter := next_counter (label self q (state w)) (int_id (state w)) in
  retrieved self q = [] \/ (3 <= counter)%Z ->
  handle_query_stream self q u w =
  ({| state := append_history
                 (append_history (set_int_id (state w) counter) (user_message q))
                 (assistant_message (Str not_found_message));
      calls := calls w ++ [CallIntent q; CallSearch q;
                           CallLog u (turn_number (state w)) (Str not_found_message)];
      output := output w ++ [Str not_found_message] |},
   Ok tt) /\
  fst (handle_query self q u w) =
  {| state := append_history
                (append_history (set_int_id (state w) counter) (user_message q))
                (assistant_message (Str not_found_message));
     calls := calls w ++ [CallIntent q; CallSearch q;
                          CallLog u (turn_number (state w)) (Str not_found_message)];
     output := output w |}.
Proof.
  intros counter Hdefer.
  set (w1 := add_calls {| state := set_int_id (state w) counter;
                          calls := calls w ++ [CallIntent q];
                          output := output w |} [CallSearch q]).
  assert (Hgate : (0 <? Z.of_nat (length (retrieved self q)))%Z && (counter <? 3)%Z = false).
  { apply andb_false_iff. destruct Hdefer as [-> | Hc]; [now left | right].
    now apply Z.ltb_ge. }
  assert (Hs : stream_branch self q (retrieved self q) w1 =
               ({| state := state w1; calls := calls w1;
                   output := output w1 ++ [Str not_found_message] |},
                Ok (Str not_found_message))).
  { unfold stream_branch, mbind at 1, read. cbn [state w1 add_calls set_int_id int_id].
    rewrite Hgate. reflexivity. }
  assert (Hb : branch self q (retrieved self q) w1 =
               (add_calls w1 [], Ok (AnswerData not_found_message))).
  { unfold branch, mbind at 1, read. cbn [state w1 add_calls set_int_id int_id].
    rewrite Hgate. unfold ret, add_calls. cbn [state calls output]. now rewrite app_nil_r. }
  rewrite (handle_query_stream_of_branch self q u w _ _ Hs).
  rewrite (handle_query_of_branch self q u w [] _ Hb).
  split; [ | reflexivity].
  subst w1. unfold add_calls, turn_number.
  cbn [state calls output set_int_id intent_history]. rewrite <- !app_assoc. reflexivity.
Qed.

(** The query vector [0, 0] has the similarity 0.0 to every entry, so
    nothing is retrieved. *)
Lemma stream_defers_like_buffered_witness :
  let self := example_engine (Ok "t1") [0; 0]%float quiet_db steady_bot in
  handle_query_stream self "q" "u" (start (session_at 1)) =
  ({| state := append_history
                 (append_history (set_int_id (session_at 1) 2) (user_message "q"))
                 (assistant_message (Str not_found_message));
      calls := [] ++ [CallIntent "q"; CallSearch "q";
                      CallLog "u" 1 (Str not_found_message)];
      output := [] ++ [Str not_found_message] |},
   Ok tt) /\
  fst (handle_query self "q" "u" (start (session_at 1))) =
  {| state := append_history
                (append_history (set_int_id (session_at 1) 2) (user_message "q"))
                (assistant_message (Str not_found_message));
     calls := [] ++ [CallIntent "q"; CallSearch "q";
                     CallLog "u" 1 (Str not_found_message)];
     output := [] |}.
Proof.
  exact (stream_defers_like_buffered
           (example_engine (Ok "t1") [0; 0]%float quiet_db steady_bot)
           "q" "u" (start (session_at 1)) (or_introl eq_refl)).
Defined.

Lemma stream_branch_options (self : QAEngine) (q : string) (rs : list result)
    (w : world QASessionState) (cs : list event) (opts : list option_entry) :
  (2 <= length rs)%nat -> (int_id (state w) < 3)%Z ->
  get_structured_options (db self) rs w = (add_calls w cs, Ok opts) ->
  stream_branch self q rs w =
  ({| state := state w; calls := calls w ++ cs;
      output := output w ++ [JsonDumps (OptionsEnvelope q opts)] |},
   Ok (JsonDumps (OptionsEnvelope q opts))).
Proof.
  intros Hn Hc Hrun. unfold stream_branch, mbind at 1, read. apply Z.ltb_lt in Hc. rewrite Hc.
  assert (H0 : (0 <? Z.of_nat (length rs))%Z = true) by (apply Z.ltb_lt; lia).
  assert (H1 : (Z.of_nat (length rs) =? 1)%Z = false) by (apply Z.eqb_neq; lia).
  rewrite H0, H1. simpl. unfold mbind at 1. rewrite Hrun. reflexivity.
Qed.

(** An options turn of the two handlers (two or three results, a counter
    below 3): both make the same calls and build the same options.  The
    generator of [handle_query_stream] yields one fragment, the JSON text of
    the envelope [{"type": "options", "data": ...}], and commits this text
    to the history, where [handle_query] commits the JSON text of the data
    alone; apart from this assistant entry the two sessions are the same. *)
Theorem stream_offers_the_same_options (self : QAEngine) (q u : string)
    (w : world QASessionState) :
  let counter := next_counter (label self q (state w)) (int_id (state w)) in
  (2 <= length (retrieved self q))%nat ->
  (counter < 3)%Z ->
  exists cs opts,
    handle_query_stream self q u w =
    ({| state := append_history
                   (append_history (set_int_id (state w) counter) (user_message q))
                   (assistant_message (JsonDumps (OptionsEnvelope q opts)));
        calls := calls w ++ [CallIntent q; CallSearch q] ++ cs
                   ++ [CallLog u (turn_number (state w)) (JsonDumps (OptionsEnvelope q opts))];
        output := output w ++ [JsonDumps (OptionsEnvelope q opts)] |},
     Ok tt) /\
    fst (handle_query self q u w) =
    {| state := append_history
                  (append_history (set_int_id (state w) counter) (user_message q))
                  (assistant_message (JsonDumps (OptionsData q opts)));
       calls := calls w ++ [CallIntent q; CallSearch q] ++ cs
                  ++ [CallLog u (turn_number (state w)) (JsonDumps (OptionsData q opts))];
       output := output w |} /\
    (exists resp, snd (handle_query self q u w) = Ok resp /\
                  r_data resp = OptionsList q opts).
Proof.
  intros counter Hn Hc.
  set (w1 := add_calls {| state := set_int_id (state w) counter;
                          calls := calls w ++ [CallIntent q];
                          output := output w |} [CallSearch q]).
  destruct (get_structured_options_value (db self) (retrieved self q) w1)
    as (cs & opts & Hrun & _).
  exists cs, opts.
  rewrite (handle_query_stream_of_branch self q u w _ _
             (stream_branch_options self q _ w1 cs opts Hn Hc Hrun)).
  rewrite (handle_query_of_branch self q u w cs (OptionsList q opts)).
  - split; [ | split; [reflexivity | eexists; split; reflexivity]].
    subst w1. unfold add_calls, turn_number.
    cbn [state calls output set_int_id intent_history]. rewrite <- !app_assoc. reflexivity.
  - fold counter. fold w1. rewrite branch_options; [now rewrite Hrun | exact Hn | exact Hc].
Qed.

Lemma stream_offers_the_same_options_witness :
  let self := example_engine (Ok "t2") [0.7; 0.7]%float quiet_db steady_bot in
  exists cs opts,
    handle_query_stream self "q" "u" (start (session_at 0)) =
    ({| state := append_history
                   (append_history (set_int_id (session_at 0) 1) (user_message "q"))
                   (assistant_message (JsonDumps (OptionsEnvelope "q" opts)));
        calls := [] ++ [CallIntent "q"; CallSearch "q"] ++ cs
                   ++ [CallLog "u" 1 (JsonDumps (OptionsEnvelope "q" opts))];
        output := [] ++ [JsonDumps (OptionsEnvelope "q" opts)] |},
     Ok tt) /\
    fst (handle_query self "q" "u" (start (session_at 0))) =
    {| state := append_history
                  (append_history (set_int_id (session_at 0) 1) (user_message "q"))
                  (assistant_message (JsonDumps (OptionsData "q" opts)));
       calls := [] ++ [CallIntent "q"; CallSearch "q"] ++ cs
                  ++ [CallLog "u" 1 (JsonDumps (OptionsData "q" opts))];
       output := [] |} /\
    (exists resp, snd (handle_query self "q" "u" (start (session_at 0))) = Ok resp /\
                  r_data resp = OptionsList "q" opts).
Proof.
  exact (stream_offers_the_same_options
           (example_engine (Ok "t2") [0.7; 0.7]%float quiet_db steady_bot)
           "q" "u" (start (session_at 0)) (le_n 2) eq_refl).
Defined.




End StreamTurns.

(** ** The answer iteration of [main.py] *)

Section LoopTurns.
Import VectorMatching DataStore ModelAnswer MainLoop MainLoopTurns.
Local Open Scope string_scope.
Local Open Scope list_scope.


End LoopTurns.

(** ** The knowledge-base file *)

Section KnowledgeBaseFacts.
Import VectorMatching DataStore QaEngine QaEngineTurns KnowledgeBase.
Local Open Scope string_scope.
Local Open Scope list_scope.

(** A knowledge-base file that is missing or is not JSON gives an engine
    that starts and defers every question: the searcher is built over the
    empty base, and each turn of [handle_query] answers with the not-found
    message, after calling the classifier, the index and the log and nobody
    else.  Any other exception of the reading stops the construction. *)
Theorem missing_knowledge_base_defers (self : QAEngine) (db_file : file_read) (q u : string)
    (w : world QASessionState) :
  let counter := next_counter (label self q (state w)) (int_id (state w)) in
  db_file = FileNotFoundError \/ db_file = JSONDecodeError ->
  new_searcher db_file (get_embedding (searcher self)) = Ok (searcher self) ->
  handle_query self q u w =
  ({| state := append_history
                 (append_history (set_int_id (state w) counter) (user_message q))
                 (assistant_message (Str not_found_message));
      calls := calls w ++ [CallIntent q; CallSearch q;
                           CallLog u (turn_number (state w)) (Str not_found_message)];
      output := output w |},
   Ok {| r_type := "answer";
         r_data := AnswerData not_found_message;
         r_meta := {| intent := label self q (state w);
                      meta_int_id := counter;
                      num_results := 0 |} |}) /\
  (forall e embedding, new_searcher (OtherError e) embedding = Raise e).
Proof.
  intros counter Hfile Hnew. split; [ | reflexivity].
  assert (Hkb : knowledge_base (searcher self) = []).
  { destruct Hfile as [-> | ->]; simpl in Hnew; injection Hnew as Hs; now rewrite <- Hs. }
  assert (Hr : retrieved self q = []).
  { unfold retrieved, search. rewrite Hkb.
    destruct (get_embedding (searcher self) q); reflexivity. }
  rewrite (handle_query_of_branch self q u w [] (AnswerData not_found_message)).
  - rewrite Hr. reflexivity.
  - rewrite Hr. unfold branch, mbind, read, ret, add_calls. simpl. now rewrite app_nil_r.
Qed.

Lemma missing_knowledge_base_defers_witness :
  let self := {| intent_recognizer := fun _ _ => Ok "t1";
                 answer_generator := steady_bot;
                 searcher := searcher_over [] [1; 0]%float;
                 similarity_threshold := 0.5%float;
                 db := quiet_db |} in
  handle_query self "q" "u" (start (session_at 1)) =
  ({| state := append_history
                 (append_history (set_int_id (session_at 1) 2) (user_message "q"))
                 (assistant_message (Str not_found_message));
      calls := [] ++ [CallIntent "q"; CallSearch "q"; CallLog "u" 1 (Str not_found_message)];
      output := [] |},
   Ok {| r_type := "answer";
         r_data := AnswerData not_found_message;
         r_meta := {| intent := "t1"; meta_int_id := 2; num_results := 0 |} |}) /\
  (forall e embedding, new_searcher (OtherError e) embedding = Raise e).
Proof.
  exact (missing_knowledge_base_defers
           {| intent_recognizer := fun _ _ => Ok "t1";
              answer_generator := steady_bot;
              searcher := searcher_over [] [1; 0]%float;
              similarity_threshold := 0.5%float;
              db := quiet_db |}
           FileNotFoundError "q" "u" (start (session_at 1))
           (or_introl eq_refl) eq_refl).
Defined.
End KnowledgeBaseFacts.

(** ** [QwenChat.chat] *)

Section IntentFacts.
Import QaEngine QaEngineTurns IntentRecognition.
Local Open Scope string_scope.
Local Open Scope list_scope.


End IntentFacts.

(** ** The two handlers of [Branch1Engine] *)

Section BranchFacts.
Import ModelAnswer BranchEngine BranchQuery.
Local Open Scope string_scope.
Local Open Scope list_scope.

Lemma for_each_skip {S : Type} (l : list string) (w : world S) :
  for_each l (fun _ => ret tt) w = (w, Ok tt).
Proof. induction l as [ | x l IH]; simpl; [reflexivity | ]. unfold mbind, ret at 1. exact IH. Qed.

(** The two handlers of [Branch1Engine] on the same request.  Neither
    raises, and they make the same calls.  When [handle_query] returns an
    answer, it is the concatenation of the fragments that the generator of
    [handle_query_stream] yields after the id line, and [context_info]
    tells what the data store gave.  When it returns a failure, its answer
    is the text of the exception after ["处理失败: "], and this answer is
    the last fragment of the streamed response, alone or after the id
    line. *)
Theorem branch_handlers_agree (self : Branch1Engine) (i : Z) (q : string) (w : world unit) :
  exists cs,
    calls (fst (handle_query_stream self i q w)) = calls w ++ cs /\
    calls (fst (handle_query self i q w)) = calls w ++ cs /\
    snd (handle_query_stream self i q w) = Ok tt /\
    match snd (handle_query self i q w) with
    | Ok (Answered i' answer found n) =>
        i' = i /\
        (exists parts,
           output (fst (handle_query_stream self i q w)) =
             output w ++ IdLine i :: map Str parts /\
           answer = join "" parts) /\
        (exists row docs,
           query_tables self i = Ok (row, docs) /\
           found = match row with Some _ => true | None => false end /\
           n = length docs)
    | Ok (Failed i' answer e) =>
        i' = i /\
        answer = ("处理失败: " ++ e)%string /\
        (output (fst (handle_query_stream self i q w)) = output w ++ [Str answer] \/
         output (fst (handle_query_stream self i q w)) = output w ++ [IdLine i; Str answer])
    | Raise _ => False
    end.
Proof.
  destruct (negb (truthy (table_items_info self)) || negb (truthy (table_items_doc self)))
    eqn:Hcfg.
  { assert (Hs : handle_query_stream self i q w =
                 ({| state := state w; calls := calls w;
                     output := output w ++ [Str ("处理失败: " ++ tables_not_configured)] |},
                  Ok tt)).
    { unfold handle_query_stream, fetch_data_by_id. rewrite Hcfg. reflexivity. }
    assert (Hb : handle_query self i q w =
                 (w, Ok (Failed i ("处理失败: " ++ tables_not_configured)
                           tables_not_configured))).
    { unfold handle_query, fetch_data_by_id. rewrite Hcfg. reflexivity. }
    rewrite Hs, Hb. exists []. cbn [fst snd calls output]. rewrite app_nil_r.
    repeat split. now left. }
  destruct (query_tables self i) as [[row docs] | e] eqn:Hrows.
  - set (generation := chat_stream (bot self) q (InfoPayload (get row []) docs)).
    assert (Hs : handle_query_stream self i q w =
                 match failure generation with
                 | None =>
                     ({| state := state w;
                         calls := calls w ++ [CallFetchById i; CallChatStream q];
                         output := output w ++ IdLine i ::
                                     map Str (filter (fun chunk => negb (String.eqb chunk ""))
                                                     (fragments generation)) |},
                      Ok tt)
                 | Some e =>
                     ({| state := state w;
                         calls := calls w ++ [CallFetchById i; CallChatStream q];
                         output := output w ++ [IdLine i; Str ("处理失败: " ++ e)] |},
                      Ok tt)
                 end).
    { unfold handle_query_stream, fetch_data_by_id. rewrite Hcfg.
      unfold try_except at 1. unfold mbind at 1. unfold try_except at 1, call at 1.
      rewrite Hrows. unfold mbind at 1, yield at 1. unfold mbind at 1, call at 1.
      unfold consume, mbind at 1. rewrite for_each_nonempty_yield.
      unfold build_context_payload. cbn [fst snd state calls output]. fold generation.
      destruct (failure generation) as [e | ] eqn:Ef.
      - subst generation. rewrite (chat_stream_raises_at_once _ _ _ _ Ef).
        unfold raise, yield. cbn [state calls output filter map].
        rewrite app_nil_r, <- !app_assoc. reflexivity.
      - unfold ret. rewrite <- !app_assoc. reflexivity. }
    assert (Hb : handle_query self i q w =
                 ({| state := state w;
                     calls := calls w ++ [CallFetchById i; CallChatStream q];
                     output := output w |},
                  match failure generation with
                  | None =>
                      Ok (Answered i
                            (join "" (filter (fun chunk => negb (String.eqb chunk ""))
                                             (fragments generation)))
                            (match row with Some _ => true | None => false end)
                            (length docs))
                  | Some e => Ok (Failed i ("处理失败: " ++ e) e)
                  end)).
    { unfold handle_query, fetch_data_by_id. rewrite Hcfg.
      unfold try_except at 1. unfold mbind at 1. unfold try_except at 1, call at 1.
      rewrite Hrows. unfold mbind at 1, call at 1.
      unfold consume, mbind at 1. unfold mbind at 1. rewrite for_each_skip.
      unfold build_context_payload. cbn [fst snd state calls output]. fold generation.
      destruct (failure generation) as [e | ];
        unfold raise, ret; cbn [state calls output]; rewrite <- !app_assoc; reflexivity. }
    rewrite Hs, Hb. exists [CallFetchById i; CallChatStream q].
    destruct (failure generation) as [e | ]; cbn [fst snd calls output].
    + repeat split. now right.
    + repeat split; [eexists; split; reflexivity | now exists row, docs].
  - assert (Hs : handle_query_stream self i q w =
                 ({| state := state w; calls := calls w ++ [CallFetchById i];
                     output := output w ++ [Str ("处理失败: " ++ "数据库查询失败: " ++ e)] |},
                  Ok tt)).
    { unfold handle_query_stream, fetch_data_by_id. rewrite Hcfg.
      unfold try_except, mbind, call, raise, yield. now rewrite Hrows. }
    assert (Hb : handle_query self i q w =
                 ({| state := state w; calls := calls w ++ [CallFetchById i];
                     output := output w |},
                  Ok (Failed i ("处理失败: " ++ "数据库查询失败: " ++ e)
                        ("数据库查询失败: " ++ e)))).
    { unfold handle_query, fetch_data_by_id. rewrite Hcfg.
      unfold try_except, mbind, call, raise, ret. now rewrite Hrows. }
    rewrite Hs, Hb. exists [CallFetchById i]. cbn [fst snd calls output].
    repeat split. now left.
Qed.

Lemma branch_query_returns (self : Branch1Engine) (i : Z) (q : string) (w : world unit) :
  exists result, snd (handle_query self i q w) = Ok result.
Proof.
  unfold handle_query, try_except.
  match goal with
  | |- context [match ?body w with _ => _ end] => destruct (body w) as [w' [a | e]]
  end; eexists; reflexivity.
Qed.
End BranchFacts.

(** ** The API server *)

Section ApiFacts.
Import VectorMatching DataStore QaEngine QaEngineTurns ApiServer.
Local Open Scope string_scope.
Local Open Scope list_scope.

Lemma lookup_store_same (k : string) (s : QASessionState) (pool : sessions) :
  lookup k (store k s pool) = Some s.
Proof.
  induction pool as [ | [k' s'] pool IH]; simpl.
  - now rewrite String.eqb_refl.
  - destruct (String.eqb k k') eqn:E; simpl; [now rewrite String.eqb_refl | now rewrite E].
Qed.

Lemma lookup_store_other (k k' : string) (s : QASessionState) (pool : sessions) :
  k' <> k -> lookup k' (store k s pool) = lookup k' pool.
Proof.
  intros Hne. induction pool as [ | [k0 s0] pool IH]; simpl.
  - destruct (String.eqb_spec k' k); [contradiction | reflexivity].
  - destruct (String.eqb_spec k k0) as [<- | Hk]; simpl.
    + destruct (String.eqb_spec k' k); [contradiction | reflexivity].
    + destruct (String.eqb k' k0); [reflexivity | exact IH].
Qed.

(** The pool after a request, and the session the request worked on. *)
Lemma chat_pool (engine : QAEngine) (names : fresh_names) (req : ChatRequest)
    (pool : sessions) :
  let key := request_key names req in
  let before := session_before names req pool in
  (forall k, k <> key -> lookup k (fst (chat engine names req pool)) = lookup k pool) /\
  lookup key (fst (chat engine names req pool)) =
    Some (state (fst (if is_true (stream req)
                      then let (w, _) := handle_query_stream engine (query req) (user_id req)
                                           (start before) in (w, tt)
                      else let (w, _) := handle_query engine (query req) (user_id req)
                                           (start before) in (w, tt)))).
Proof.
  intros key before. unfold chat. fold (request_key names req). fold key.
  set (pool1 := match lookup key pool with
                | Some _ => pool
                | None => store key (new_session (state_name names)) pool
                end).
  assert (Hother : forall k, k <> key -> lookup k pool1 = lookup k pool).
  { intros k Hk. subst pool1. destruct (lookup key pool); [reflexivity | ].
    now apply lookup_store_other. }
  assert (Hsame : get (lookup key pool1) (new_session (state_name names)) = before).
  { subst pool1 before. unfold session_before. fold key.
    destruct (lookup key pool) as [s | ] eqn:El; [now rewrite El | ].
    now rewrite lookup_store_same. }
  rewrite Hsame.
  destruct (is_true (stream req)).
  - destruct (handle_query_stream engine (query req) (user_id req) (start before)) as [w o].
    cbn [fst]. split; [ | apply lookup_store_same].
    intros k Hk. rewrite lookup_store_other by exact Hk. now apply Hother.
  - destruct (handle_query engine (query req) (user_id req) (start before)) as [w o].
    cbn [fst]. split; [ | apply lookup_store_same].
    intros k Hk. rewrite lookup_store_other by exact Hk. now apply Hother.
Qed.

(** The session pool of the API.  A request of [chat] works on one session,
    the one of its session id (a new one when the id is unseen, a generated
    id when the request carries none), and leaves every other session of
    the pool as it is.  After a buffered request, [get_session_info]
    reports for this session the updated follow-up counter and two more
    history entries; it answers for the other ids what it answered
    before. *)
Theorem chat_works_on_one_session (engine : QAEngine) (names : fresh_names)
    (req : ChatRequest) (pool : sessions) :
  let key := request_key names req in
  let before := session_before names req pool in
  let pool' := fst (chat engine names req pool) in
  (forall k, k <> key ->
     lookup k pool' = lookup k pool /\
     get_session_info k pool' = get_session_info k pool) /\
  (lookup key pool = None -> before = new_session (state_name names)) /\
  (forall s, lookup key pool = Some s -> before = s) /\
  (is_true (stream req) = false ->
   lookup key pool' =
     Some (state (fst (handle_query engine (query req) (user_id req) (start before)))) /\
   get_session_info key pool' =
     Http200 {| info_session_id := key;
                info_int_id := next_counter (label engine (query req) before) (int_id before);
                history_len := length (intent_history before) + 2 |}) /\
  (is_true (stream req) = true ->
   lookup key pool' =
     Some (state (fst (handle_query_stream engine (query req) (user_id req) (start before))))).
Proof.
  intros key before pool'.
  destruct (chat_pool engine names req pool) as [Hother Hkey].
  fold key in Hother, Hkey. fold before in Hkey. fold pool' in Hother, Hkey.
  split; [ | split; [ | split; [ | split]]].
  - intros k Hk. unfold get_session_info. now rewrite (Hother k Hk).
  - intros Hnone. subst before. unfold session_before. fold key. now rewrite Hnone.
  - intros s Hs. subst before. unfold session_before. fold key. now rewrite Hs.
  - intros Hflag. rewrite Hflag in Hkey.
    destruct (handle_query engine (query req) (user_id req) (start before)) as [w o] eqn:Hq.
    cbn [fst] in Hkey |- *. split; [exact Hkey | ].
    unfold get_session_info. rewrite Hkey.
    destruct (handle_query_run engine (query req) (user_id req) (start before))
      as (cs & d & n & Hrun & _).
    rewrite Hq in Hrun. injection Hrun as -> _.
    cbn [state append_history set_int_id int_id intent_history start].
    now rewrite !length_app, <- Nat.add_assoc.
  - intros Hflag. rewrite Hflag in Hkey.
    destruct (handle_query_stream engine (query req) (user_id req) (start before)) as [w o].
    exact Hkey.
Qed.

(** The reply of [chat], by the handler it runs. *)
Lemma chat_reply_run (engine : QAEngine) (names : fresh_names)
    (req : ChatRequest) (pool : sessions) :
  let key := request_key names req in
  let before := session_before names req pool in
  snd (chat engine names req pool) =
  if is_true (stream req)
  then let (w, ending) := handle_query_stream engine (query req) (user_id req)
                            (start before) in
       Streaming (stream_events (Metadata key) (output w) ending)
  else let (w, result) := handle_query engine (query req) (user_id req) (start before) in
       match result with
       | Ok result => StatusOk key result
       | Raise e => StatusError key e
       end.
Proof.
  intros key before. unfold chat. fold (request_key names req). fold key.
  set (pool1 := match lookup key pool with
                | Some _ => pool
                | None => store key (new_session (state_name names)) pool
                end).
  assert (Hsame : get (lookup key pool1) (new_session (state_name names)) = before).
  { subst pool1 before. unfold session_before. fold key.
    destruct (lookup key pool) as [s | ] eqn:El; [now rewrite El | ].
    now rewrite lookup_store_same. }
  rewrite Hsame.
  destruct (is_true (stream req)).
  - now destruct (handle_query_stream engine (query req) (user_id req) (start before)).
  - now destruct (handle_query engine (query req) (user_id req) (start before)).
Qed.


Lemma handle_query_stream_refused (self : QAEngine) (q u e : string)
    (w : world QASessionState) (r : result) :
  retrieved self q = [r] ->
  (next_counter (label self q (state w)) (int_id (state w)) < 3)%Z ->
  pymysql_connect (db self) = Raise e ->
  exists cs,
    handle_query_stream self q u w =
    ({| state := set_int_id (state w) (next_counter (label self q (state w)) (int_id (state w)));
        calls := calls w ++ cs;
        output := output w ++ [IdBlock (m_id r)] |},
     Raise "'QAEngine' object has no attribute 'logger'").
Proof.
  intros Hr Hc Hconn.
  unfold handle_query_stream, try_except.
  unfold mbind at 1. rewrite recognise_intent_run.
  unfold mbind at 1. rewrite retrieve_run. rewrite Hr.
  unfold mbind at 1. unfold stream_branch.
  unfold mbind at 1, read. cbn [state add_calls set_int_id int_id length].
  apply Z.ltb_lt in Hc. rewrite Hc.
  cbn [Z.of_nat Z.ltb Z.eqb Pos.of_succ_nat Z.compare andb Pos.eqb].
  unfold mbind at 1, yield at 1.
  unfold mbind at 1.
  match goal with
  | |- context [get_context_for_item _ _ _ ?w1] =>
      destruct (get_context_for_item_value (db self) r w1) as (cs & ->)
  end.
  unfold mbind at 1, call at 1. rewrite Hconn.
  unfold self_logger_error, mbind, raise. cbn [state calls output add_calls].
  eexists. rewrite <- !app_assoc. reflexivity.
Qed.

(** A streamed request whose answer turn (one result, a counter below 3)
    meets a data store that refuses the connection.  The client receives
    the metadata event, the id block, and then an error event whose message
    is not the exception of the data store but the [AttributeError] of the
    handler of [handle_query_stream]; no answer is streamed, and the session
    keeps its updated counter and its old history. *)
Theorem streamed_request_reports_attribute_error (engine : QAEngine) (names : fresh_names)
    (req : ChatRequest) (pool : sessions) (r : result) (e : string) :
  let key := request_key names req in
  let before := session_before names req pool in
  let counter := next_counter (label engine (query req) before) (int_id before) in
  is_true (stream req) = true ->
  retrieved engine (query req) = [r] ->
  (counter < 3)%Z ->
  pymysql_connect (db engine) = Raise e ->
  snd (chat engine names req pool) =
    Streaming [Metadata key; Content (IdBlock (m_id r));
               Error "'QAEngine' object has no attribute 'logger'"] /\
  lookup key (fst (chat engine names req pool)) = Some (set_int_id before counter).
Proof.
  intros key before counter Hflag Hr Hc Hconn. subst key before counter.
  destruct (handle_query_stream_refused engine (query req) (user_id req) e
              (start (session_before names req pool)) r Hr Hc Hconn) as (cs & Hrun).
  split.
  - pose proof (chat_reply_run engine names req pool) as Hreply. cbv zeta in Hreply.
    rewrite Hflag, Hrun in Hreply. exact Hreply.
  - destruct (chat_pool engine names req pool) as [_ Hkey].
    rewrite Hflag, Hrun in Hkey. exact Hkey.
Qed.

Lemma streamed_request_reports_attribute_error_witness :
  let engine := example_engine (Ok "t2") [1; 0]%float (failing_db "access denied")
                  steady_bot in
  snd (chat engine example_names (example_request None true) []) =
    Streaming [Metadata "uuid"; Content (IdBlock (Some 1%Z));
               Error "'QAEngine' object has no attribute 'logger'"] /\
  lookup "uuid" (fst (chat engine example_names (example_request None true) [])) =
    Some (set_int_id (new_session "session_1") 1).
Proof.
  exact (streamed_request_reports_attribute_error
           (example_engine (Ok "t2") [1; 0]%float (failing_db "access denied") steady_bot)
           example_names (example_request None true) []
           (candidate_of (entry 1 (Some "A") [1; 0]%float) 1%float) "access denied"
           eq_refl eq_refl eq_refl eq_refl).
Defined.

(** What [branch1_chat] answers.  The status ["error"] is never returned,
    and a streamed response always closes with the event [done], never with
    an error event: a failure of the data store or of the generator reaches
    the client as the text of a content event.  With table names that are
    not configured, the only content is the failure text. *)
Theorem branch1_chat_never_reports_failure (engine : BranchEngine.Branch1Engine)
    (req : Branch1Request) :
  match branch1_chat engine req with
  | BranchStreaming events =>
      is_true (b_stream req) = true /\
      exists fragments, events = ItemMetadata (b_item_id req) :: map Content fragments ++ [Done]
  | BranchStatusOk result =>
      is_true (b_stream req) = false /\
      snd (BranchQuery.handle_query engine (b_item_id req) (b_query req) (start tt)) = Ok result
  | BranchStatusError _ => False
  end /\
  (is_true (b_stream req) = true ->
   negb (truthy (BranchEngine.table_items_info engine))
   || negb (truthy (BranchEngine.table_items_doc engine)) = true ->
   branch1_chat engine req =
   BranchStreaming [ItemMetadata (b_item_id req);
                    Content (Str ("处理失败: " ++ BranchEngine.tables_not_configured));
                    Done]).
Proof.
  unfold branch1_chat. split.
  - destruct (is_true (b_stream req)).
    + pose proof (branch_stream_returns engine (b_item_id req) (b_query req) (start tt)) as Hr.
      destruct (BranchEngine.handle_query_stream engine (b_item_id req) (b_query req)
                  (start tt)) as [w o].
      cbn [snd] in Hr. subst o. split; [reflexivity | ]. eexists. reflexivity.
    + destruct (branch_query_returns engine (b_item_id req) (b_query req) (start tt))
        as [result ->].
      now split.
  - intros -> Hcfg.
    unfold BranchEngine.handle_query_stream, BranchEngine.fetch_data_by_id. rewrite Hcfg.
    reflexivity.
Qed.
End ApiFacts.

(** ** The ids of [generate_embeddings] *)

Section EmbeddingFacts.
Import VectorMatching Embedding.
Local Open Scope string_scope.
Local Open Scope list_scope.

Lemma length_count_from (n : Z) (len : nat) : length (count_from n len) = len.
Proof. revert n. induction len as [ | len IH]; intros n; simpl; [ | rewrite IH]; reflexivity. Qed.

Lemma In_count_from (n : Z) (len : nat) (x : Z) :
  In x (count_from n len) <-> (n <= x < n + Z.of_nat len)%Z.
Proof.
  revert n. induction len as [ | len IH]; intros n; simpl; [lia | ].
  rewrite IH. lia.
Qed.

Lemma NoDup_count_from (n : Z) (len : nat) : NoDup (count_from n len).
Proof.
  revert n. induction len as [ | len IH]; intros n; simpl; constructor; [ | apply IH].
  rewrite In_count_from. lia.
Qed.

(** The loop: the counter only grows, and the records of a loop that ends
    carry the next ids, the texts at the indices of the loop and the
    vectors. *)
Lemma results_from_run (texts : list string) (vectors : list (list float)) (i : nat)
    (w : world Z) :
  (i <= length texts)%nat ->
  exists k o,
    results_from texts i vectors w =
    ({| state := (state w + Z.of_nat k)%Z; calls := calls w; output := output w |}, o) /\
    match o with
    | Ok records =>
        k = length vectors /\
        map item_id records = map Some (count_from (state w) (length vectors)) /\
        map item_text records = map Some (firstn (length vectors) (skipn i texts)) /\
        map item_vector records = map Some vectors /\
        (i + length vectors <= length texts)%nat
    | Raise _ => (length texts < i + length vectors)%nat
    end.
Proof.
  revert i w. induction vectors as [ | v vectors IH]; intros i w Hi0; simpl.
  - exists 0%nat, (Ok []). unfold ret. simpl. rewrite Z.add_0_r. destruct w; simpl.
    repeat split. lia.
  - unfold mbind at 1, _get_next_id, mbind, read, write, ret. cbn [state calls output].
    unfold lift at 1.
    destruct (nth_error texts i) as [t | ] eqn:Ht.
    + assert (Hi : (i < length texts)%nat) by (apply nth_error_Some; congruence).
      destruct (IH (S i) {| state := (state w + 1)%Z; calls := calls w; output := output w |} Hi)
        as (k & o & -> & Ho).
      cbn [state calls output] in *.
      exists (S k), (match o with
                     | Ok records =>
                         Ok ({| item_id := Some (state w); item_text := Some t;
                                item_vector := Some v |} :: records)
                     | Raise e => Raise e
                     end).
      split.
      * replace (state w + Z.of_nat (S k))%Z with (state w + 1 + Z.of_nat k)%Z by lia.
        now destruct o.
      * destruct o as [records | e]; [ | lia].
        destruct Ho as (-> & Hids & Htexts & Hvecs & Hlen).
        cbn [map item_id item_text item_vector]. rewrite Hids, Htexts, Hvecs.
        repeat split; try lia.
        destruct (skipn i texts) as [ | t' rest] eqn:Hs.
        -- apply (f_equal (@length string)) in Hs. rewrite length_skipn in Hs. simpl in Hs. lia.
        -- assert (Ht' : nth_error (skipn i texts) 0 = Some t).
           { rewrite nth_error_skipn. now rewrite Nat.add_0_r. }
           rewrite Hs in Ht'. simpl in Ht'. injection Ht' as ->.
           assert (Hrest : skipn (S i) texts = rest).
           { change (S i) with (1 + i)%nat. rewrite <- skipn_skipn, Hs. reflexivity. }
           rewrite Hrest. reflexivity.
    + exists 1%nat, (Raise "list index out of range"). split; [reflexivity | ].
      apply nth_error_None in Ht. lia.
Qed.

(** The ids of [generate_embeddings].  When the service answers no more
    vectors than it was given texts, the call returns one record for each
    vector, numbered from the counter on without a gap, with the text at the
    same index and the vector, and the counter advances by their number.
    When the service fails, the call raises with the text of the exception
    after ["向量生成失败: "] and the counter stays. *)
Theorem generate_embeddings_numbers_records (self : DashScopeEmbeddingGenerator)
    (given : inputs) (w : world Z) :
  let texts := match given with
               | Text s => [s]
               | Texts l => l
               end in
  (forall vectors,
     embeddings_create self texts = Ok vectors ->
     (length vectors <= length texts)%nat ->
     exists records,
       generate_embeddings self given w =
       ({| state := (state w + Z.of_nat (length vectors))%Z;
           calls := calls w; output := output w |}, Ok records) /\
       map item_id records = map Some (count_from (state w) (length vectors)) /\
       map item_text records = map Some (firstn (length vectors) texts) /\
       map item_vector records = map Some vectors) /\
  (forall e,
     embeddings_create self texts = Raise e ->
     generate_embeddings self given w = (w, Raise ("向量生成失败: " ++ e)%string)).
Proof.
  intros texts. split.
  - intros vectors Hv Hlen. unfold generate_embeddings. fold texts.
    unfold mbind, try_except, lift. rewrite Hv.
    destruct (results_from_run texts vectors 0 w (Nat.le_0_l _)) as (k & o & -> & Ho).
    destruct o as [records | e]; [ | simpl in Ho; lia].
    destruct Ho as (-> & Hids & Htexts & Hvecs & _).
    exists records. now repeat split.
  - intros e He. unfold generate_embeddings. fold texts.
    unfold mbind, try_except, lift, raise. now rewrite He.
Qed.

Lemma generate_embeddings_run (self : DashScopeEmbeddingGenerator) (given : inputs)
    (w : world Z) :
  exists k o,
    generate_embeddings self given w =
    ({| state := (state w + Z.of_nat k)%Z; calls := calls w; output := output w |}, o) /\
    match o with
    | Ok records => map item_id records = map Some (count_from (state w) k)
    | Raise _ => True
    end.
Proof.
  unfold generate_embeddings, mbind, try_except, lift, raise.
  destruct (embeddings_create self _) as [vectors | e].
  - match goal with
    | |- context [results_from ?t 0 vectors w] =>
        destruct (results_from_run t vectors 0 w (Nat.le_0_l _)) as (k & o & -> & Ho)
    end.
    exists k, o. split; [reflexivity | ].
    destruct o as [records | e]; [ | exact I]. now destruct Ho as (-> & Hids & _).
  - exists 0%nat, (Raise ("向量生成失败: " ++ e)%string). split; [ | exact I].
    rewrite Z.add_0_r. now destruct w.
Qed.

Lemma NoDup_map_Some {A : Type} (l : list A) : NoDup l -> NoDup (map Some l).
Proof.
  induction 1 as [ | x l Hx Hl IH]; simpl; constructor; [ | exact IH].
  intros Hin. apply in_map_iff in Hin. destruct Hin as (y & Hy & Hin).
  injection Hy as ->. contradiction.
Qed.

Lemma NoDup_append {A : Type} (l l' : list A) :
  NoDup l -> NoDup l' -> (forall x, In x l -> In x l' -> False) -> NoDup (l ++ l').
Proof.
  induction 1 as [ | x l Hx Hl IH]; intros Hl' Hdis; simpl; [exact Hl' | ].
  constructor.
  - intros Hin. apply in_app_or in Hin. destruct Hin as [Hin | Hin]; [contradiction | ].
    apply (Hdis x); [now left | exact Hin].
  - apply IH; [exact Hl' | ]. intros y Hy. apply Hdis. now right.
Qed.

Lemma issued_ids_bounds (batches : list (DashScopeEmbeddingGenerator * inputs)) (n : Z) :
  NoDup (issued_ids batches n) /\
  forall x, In x (issued_ids batches n) -> exists id, x = Some id /\ (n <= id)%Z.
Proof.
  revert n. induction batches as [ | [self given] batches IH]; intros n; simpl.
  - split; [constructor | contradiction].
  - destruct (generate_embeddings_run self given (start n)) as (k & o & -> & Ho).
    cbn [state start] in *.
    destruct (IH (n + Z.of_nat k)%Z) as [Hnd Hge].
    destruct o as [records | e]; simpl.
    + rewrite Ho. split.
      * apply NoDup_append.
        -- apply NoDup_map_Some, NoDup_count_from.
        -- exact Hnd.
        -- intros x Hx Hx'. apply in_map_iff in Hx. destruct Hx as (id & <- & Hid).
           apply In_count_from in Hid. destruct (Hge _ Hx') as (id' & Heq & Hid').
           injection Heq as ->. lia.
      * intros x Hx. apply in_app_or in Hx. destruct Hx as [Hx | Hx].
        -- apply in_map_iff in Hx. destruct Hx as (id & <- & Hid).
           apply In_count_from in Hid. exists id. split; [reflexivity | lia].
        -- destruct (Hge _ Hx) as (id & -> & Hid). exists id. split; [reflexivity | lia].
    + split; [exact Hnd | ].
      intros x Hx. destruct (Hge _ Hx) as (id & -> & Hid). exists id. split; [reflexivity | lia].
Qed.

(** No id is issued twice.  Along any sequence of calls of
    [generate_embeddings] on one generator, whatever the service answers at
    each call and whether or not the call raises, the records returned carry
    pairwise different ids, none below the counter at the start. *)
Theorem generated_ids_are_never_reused
    (batches : list (DashScopeEmbeddingGenerator * inputs)) (n : Z) :
  NoDup (issued_ids batches n) /\
  Forall (fun x => exists id, x = Some id /\ (n <= id)%Z) (issued_ids batches n).
Proof.
  destruct (issued_ids_bounds batches n) as [Hnd Hge]. split; [exact Hnd | ].
  apply Forall_forall. exact Hge.
Qed.
End EmbeddingFacts.

(** ** [get_item_data] and [get_item] *)

Section FetchDataFacts.
Import FetchData.
Local Open Scope string_scope.
Local Open Scope list_scope.
Variable isalnum : string -> bool.

Lemma doc_entries_missing_column (docs : list db_row) (doc : db_row) (k : string) :
  In doc docs ->
  row_index doc "doc_name" = Raise k \/
  (exists name, row_index doc "doc_name" = Ok name) /\ row_index doc "img_path" = Raise k ->
  exists e, doc_entries docs = Raise e.
Proof.
  induction docs as [ | d docs IH]; intros Hin Hk; [contradiction | ].
  simpl. destruct Hin as [-> | Hin].
  - destruct Hk as [-> | [[name ->] ->]]; simpl; eauto.
  - destruct (row_index d "doc_name") as [name | e]; simpl; [ | eauto].
    destruct (row_index d "img_path") as [path | e]; simpl; [ | eauto].
    destruct (IH Hin Hk) as [e ->]. simpl. eauto.
Qed.

(** A lookup that fails reads as an item that does not exist.
    [get_item_data] gives the empty list, and [get_item] answers 404, when
    the connection fails, when the query of the type fails or finds no row,
    when the type is neither of the two known ones, when the query of the
    documents or of the annexes fails, and when one document row lacks a
    column: the entries collected before the failure are dropped. *)
Theorem failed_lookup_reads_as_not_found (db : database) (i : Z) :
  (get_item isalnum db i = NotFound404 i <-> get_item_data isalnum db i = []) /\
  (forall e, pymysql_connect db = Raise e -> get_item isalnum db i = NotFound404 i) /\
  (forall e, select_items_type db i = Raise e -> get_item isalnum db i = NotFound404 i) /\
  (select_items_type db i = Ok None -> get_item isalnum db i = NotFound404 i) /\
  (forall row t,
     select_items_type db i = Ok (Some row) -> row_index row "items_type" = Ok t ->
     cell_is t "不填表" = false -> cell_is t "填表" = false ->
     get_item isalnum db i = NotFound404 i) /\
  (forall row e,
     select_items_type db i = Ok (Some row) ->
     row_index row "items_type" = Ok (Some "不填表") ->
     select_docs db i = Raise e ->
     get_item isalnum db i = NotFound404 i) /\
  (forall row e,
     select_items_type db i = Ok (Some row) ->
     row_index row "items_type" = Ok (Some "填表") ->
     select_annex db i = Raise e ->
     get_item isalnum db i = NotFound404 i) /\
  (forall row docs doc k,
     select_items_type db i = Ok (Some row) ->
     row_index row "items_type" = Ok (Some "不填表") ->
     select_docs db i = Ok docs -> In doc docs ->
     row_index doc "doc_name" = Raise k \/
     (exists name, row_index doc "doc_name" = Ok name) /\ row_index doc "img_path" = Raise k ->
     get_item isalnum db i = NotFound404 i).
Proof.
  assert (Hraise : forall e, item_entries isalnum db i = Raise e ->
                             get_item isalnum db i = NotFound404 i).
  { intros e He. unfold get_item, get_item_data. now rewrite He. }
  assert (Hnone : item_entries isalnum db i = Ok [] -> get_item isalnum db i = NotFound404 i).
  { intros He. unfold get_item, get_item_data. now rewrite He. }
  assert (Hconn : forall e, pymysql_connect db = Raise e ->
                            get_item isalnum db i = NotFound404 i).
  { intros e He. apply (Hraise e). unfold item_entries. now rewrite He. }
  assert (Hfound : forall row t,
             pymysql_connect db = Ok tt ->
             select_items_type db i = Ok (Some row) -> row_index row "items_type" = Ok t ->
             item_entries isalnum db i =
             if cell_is t "不填表" then bind (select_docs db i) doc_entries
             else if cell_is t "填表"
                  then bind (select_annex db i) (annex_entries isalnum db)
                  else Ok []).
  { intros row t Hc Hs Ht. unfold item_entries, bind. rewrite Hc, Hs.
    destruct row as [ | kv row]; [discriminate | ]. now rewrite Ht. }
  split; [ | repeat split].
  - unfold get_item. destruct (get_item_data isalnum db i); split; congruence.
  - exact Hconn.
  - intros e He. destruct (pymysql_connect db) as [[] | e'] eqn:Hc; [ | now apply (Hconn e')].
    apply (Hraise e). unfold item_entries, bind. now rewrite Hc, He.
  - intros He. destruct (pymysql_connect db) as [[] | e'] eqn:Hc; [ | now apply (Hconn e')].
    apply Hnone. unfold item_entries, bind. now rewrite Hc, He.
  - intros row t Hs Ht H1 H2.
    destruct (pymysql_connect db) as [[] | e'] eqn:Hc; [ | now apply (Hconn e')].
    apply Hnone. rewrite (Hfound row t eq_refl Hs Ht). now rewrite H1, H2.
  - intros row e Hs Ht Hd.
    destruct (pymysql_connect db) as [[] | e'] eqn:Hc; [ | now apply (Hconn e')].
    apply (Hraise e). rewrite (Hfound row _ eq_refl Hs Ht). cbn [cell_is].
    rewrite String.eqb_refl. unfold bind. now rewrite Hd.
  - intros row e Hs Ht Hd.
    destruct (pymysql_connect db) as [[] | e'] eqn:Hc; [ | now apply (Hconn e')].
    apply (Hraise e). rewrite (Hfound row _ eq_refl Hs Ht). cbn [cell_is].
    rewrite String.eqb_refl.
    replace ("填表" =? "不填表") with false by reflexivity. unfold bind. now rewrite Hd.
  - intros row docs doc k Hs Ht Hd Hin Hk.
    destruct (pymysql_connect db) as [[] | e'] eqn:Hc; [ | now apply (Hconn e')].
    destruct (doc_entries_missing_column docs doc k Hin Hk) as [e He].
    apply (Hraise e). rewrite (Hfound row _ eq_refl Hs Ht). cbn [cell_is].
    rewrite String.eqb_refl. unfold bind. now rewrite Hd.
Qed.

Lemma annex_entries_same (db db' : database) (annexes : list db_row) :
  (forall name, isalnum (remove_underscores name) = true ->
                select_all_from db name = select_all_from db' name) ->
  annex_entries isalnum db annexes = annex_entries isalnum db' annexes.
Proof.
  intros Hsame. induction annexes as [ | annex annexes IH]; simpl; [reflexivity | ].
  destruct (row_index annex "annex_name") as [name | e]; simpl; [ | reflexivity].
  destruct (row_index annex "annex_path") as [path | e]; simpl; [ | reflexivity].
  destruct (truthy name); [ | now rewrite IH].
  destruct (isalnum (remove_underscores (get name ""))) eqn:Hok; simpl; [ | exact IH].
  now rewrite (Hsame _ Hok), IH.
Qed.

Lemma annex_entries_named (db : database) (annexes : list db_row) (entries : list entry)
    (name path : option string) (table : list db_row) :
  annex_entries isalnum db annexes = Ok entries ->
  In (AnnexEntry name path (Some table)) entries ->
  truthy name = true /\ isalnum (remove_underscores (get name "")) = true.
Proof.
  revert entries. induction annexes as [ | annex annexes IH]; simpl; intros entries He Hin.
  - injection He as <-. contradiction.
  - destruct (row_index annex "annex_name") as [n | e]; simpl in He; [ | discriminate].
    destruct (row_index annex "annex_path") as [p | e]; simpl in He; [ | discriminate].
    destruct (truthy n) eqn:Hn.
    + destruct (isalnum (remove_underscores (get n ""))) eqn:Hok; simpl in He.
      * destruct (annex_entries isalnum db annexes) as [rest | e]; simpl in He; [ | discriminate].
        injection He as <-. destruct Hin as [Heq | Hin]; [ | now apply (IH rest)].
        injection Heq as -> -> _. now split.
      * now apply (IH entries).
    + destruct (annex_entries isalnum db annexes) as [rest | e]; simpl in He; [ | discriminate].
      injection He as <-. destruct Hin as [Heq | Hin]; [discriminate | now apply (IH rest)].
Qed.

Lemma doc_entries_are_docs (docs : list db_row) (entries : list entry)
    (name path : option string) (table : option (list db_row)) :
  doc_entries docs = Ok entries -> ~ In (AnnexEntry name path table) entries.
Proof.
  revert entries. induction docs as [ | doc docs IH]; simpl; intros entries He Hin.
  - injection He as <-. contradiction.
  - destruct (row_index doc "doc_name") as [n | e]; simpl in He; [ | discriminate].
    destruct (row_index doc "img_path") as [p | e]; simpl in He; [ | discriminate].
    destruct (doc_entries docs) as [rest | e]; simpl in He; [ | discriminate].
    injection He as <-. destruct Hin as [Heq | Hin]; [discriminate | now apply (IH rest)].
Qed.

(** The guard on table names.  The only tables [get_item_data] reads by
    name are those whose name, without its underscores, is alphanumeric:
    what the data store would answer for any other name has no influence on
    the result, and every annex listed with a table has such a name.  (An
    annex with another name is not listed at all.) *)
Theorem refused_table_names_are_never_read (db : database) (i : Z) :
  (forall db', same_but_refused_tables isalnum db db' ->
               get_item_data isalnum db i = get_item_data isalnum db' i) /\
  (forall name path table,
     In (AnnexEntry name path (Some table)) (get_item_data isalnum db i) ->
     truthy name = true /\ isalnum (remove_underscores (get name "")) = true).
Proof.
  split.
  - intros db' (Hc & Ht & Hd & Ha & Hn). unfold get_item_data, item_entries, bind.
    rewrite <- Hc, <- Ht, <- Hd, <- Ha.
    destruct (pymysql_connect db) as [[] | e]; [ | reflexivity].
    destruct (select_items_type db i) as [[[ | kv row] | ] | e]; try reflexivity.
    destruct (row_index (kv :: row) "items_type") as [t | e]; [ | reflexivity].
    destruct (cell_is t "不填表"); [reflexivity | ].
    destruct (cell_is t "填表"); [ | reflexivity].
    destruct (select_annex db i) as [annexes | e]; [ | reflexivity].
    now rewrite (annex_entries_same db db' annexes Hn).
  - intros name path table. unfold get_item_data, item_entries, bind.
    destruct (pymysql_connect db) as [[] | e]; [ | contradiction].
    destruct (select_items_type db i) as [[[ | kv row] | ] | e]; try contradiction.
    destruct (row_index (kv :: row) "items_type") as [t | e]; [ | contradiction].
    destruct (cell_is t "不填表").
    + destruct (select_docs db i) as [docs | e]; [ | contradiction].
      destruct (doc_entries docs) as [entries | e] eqn:He; [ | contradiction].
      intros Hin. now destruct (doc_entries_are_docs docs entries _ _ _ He Hin).
    + destruct (cell_is t "填表"); [ | contradiction].
      destruct (select_annex db i) as [annexes | e]; [ | contradiction].
      destruct (annex_entries isalnum db annexes) as [entries | e] eqn:He; [ | contradiction].
      intros Hin. exact (annex_entries_named db annexes entries name path table He Hin).
Qed.
End FetchDataFacts.

(** ** The script [branch.py] beside [Branch1Engine] *)

Section BranchScriptFacts.
Import ModelAnswer BranchEngine.
Local Open Scope string_scope.
Local Open Scope list_scope.

(** The script [branch.py] never stops with an exception, and it asks the
    model even without data.  When the table names are not configured or the
    data store fails, the script goes on with the empty payload: it prints
    the id line and ["AI: "], starts the generator on
    [{"items_info": {}, "items_doc": []}] and prints its fragments, where
    [Branch1Engine.handle_query_stream] on the same request yields the
    failure text and does not call the generator. *)
Theorem script_asks_the_model_without_data (self : Branch1Engine) (i : Z) (q : string)
    (w : world unit) :
  let unconfigured :=
    negb (truthy (table_items_info self)) || negb (truthy (table_items_doc self)) in
  let fetched := if unconfigured then [] else [CallFetchById i] in
  let generation := chat_stream (bot self) q (InfoPayload [] []) in
  (exists answer, snd (BranchScript.main self i q w) = Ok answer) /\
  (unconfigured = true \/ (exists e, query_tables self i = Raise e) ->
   failure generation = None ->
   BranchScript.main self i q w =
   ({| state := state w;
       calls := calls w ++ fetched ++ [CallChatStream q];
       output := output w ++ IdLine i :: Str "AI: " :: map Str (fragments generation)
                   ++ [Str nl] |},
    Ok (join "" (fragments generation))) /\
   calls (fst (handle_query_stream self i q w)) = calls w ++ fetched /\
   exists e, output (fst (handle_query_stream self i q w)) =
             output w ++ [Str ("处理失败: " ++ e)]).
Proof.
  intros unconfigured fetched generation. split.
  - unfold BranchScript.main.
    unfold mbind at 1.
    destruct (BranchScript.fetch_data_by_id self i w) as [w1 [rows | e]] eqn:Hf.
    + unfold mbind at 1, yield at 1. unfold try_except.
      match goal with
      | |- context [match ?body ?w2 with _ => _ end] => destruct (body w2) as [w3 [a | e]]
      end; eexists; reflexivity.
    + exfalso. revert Hf. unfold BranchScript.fetch_data_by_id, try_except, call, ret.
      destruct (negb (truthy (table_items_info self)) || negb (truthy (table_items_doc self)));
        [discriminate | ].
      destruct (query_tables self i); discriminate.
  - intros Hnodata Hfail.
    assert (Hfetch : BranchScript.fetch_data_by_id self i w =
                     ({| state := state w; calls := calls w ++ fetched; output := output w |},
                      Ok (None, []))).
    { unfold BranchScript.fetch_data_by_id, try_except, call, ret. subst fetched.
      fold unconfigured. destruct unconfigured.
      - destruct w; simpl. now rewrite app_nil_r.
      - destruct Hnodata as [H | [e ->]]; [discriminate | reflexivity]. }
    split; [ | split].
    + unfold BranchScript.main. unfold mbind at 1. rewrite Hfetch.
      unfold build_context_payload. cbn [fst snd get]. fold generation.
      unfold mbind at 1, yield at 1. unfold try_except.
      unfold mbind at 1, yield at 1. unfold mbind at 1, call at 1.
      unfold mbind at 1. rewrite consume_yield, Hfail.
      unfold mbind, yield, ret. cbn [state calls output].
      rewrite <- !app_assoc. reflexivity.
    + unfold handle_query_stream, fetch_data_by_id. fold unconfigured. subst fetched.
      destruct unconfigured.
      * unfold try_except, mbind, raise, yield. cbn [fst calls]. now rewrite app_nil_r.
      * destruct Hnodata as [H | [e He]]; [discriminate | ].
        unfold try_except, mbind, call, raise, yield. rewrite He. reflexivity.
    + unfold handle_query_stream, fetch_data_by_id. fold unconfigured.
      destruct unconfigured.
      * eexists. unfold try_except, mbind, raise, yield. reflexivity.
      * destruct Hnodata as [H | [e He]]; [discriminate | ].
        eexists. unfold try_except, mbind, call, raise, yield. rewrite He. reflexivity.
Qed.
End BranchScriptFacts.

(** ** The pipeline of [emb_db.py] *)

Section EmbDbFacts.
Import VectorMatching Embedding EmbDb.
Local Open Scope string_scope.
Local Open Scope list_scope.



Lemma dict_get_dict_append {V : Type} (k k' : Z) (x : V) (d : list (Z * list V)) :
  get (dict_get k (dict_append k' x d)) [] =
  if (k =? k')%Z then get (dict_get k d) [] ++ [x] else get (dict_get k d) [].
Proof.
  induction d as [ | [k0 l] d IH]; simpl.
  - destruct (k =? k')%Z eqn:E; [ | reflexivity]. reflexivity.
  - destruct (k' =? k0)%Z eqn:E0; simpl.
    + apply Z.eqb_eq in E0. subst k0. now destruct (k =? k')%Z.
    + destruct (k =? k0)%Z eqn:E1; [ | exact IH].
      destruct (k =? k')%Z eqn:E2; [ | reflexivity].
      apply Z.eqb_eq in E1, E2. apply Z.eqb_neq in E0. congruence.
Qed.

Lemma docs_by_uid_get (k : Z) (docs : list doc_row) (d : list (Z * list doc_row)) :
  get (dict_get k (fold_left (fun d doc => dict_append (doc_uid doc) doc d) docs d)) [] =
  get (dict_get k d) [] ++ documents_of k docs.
Proof.
  revert d. induction docs as [ | doc docs IH]; intros d; simpl.
  - now rewrite app_nil_r.
  - rewrite IH, dict_get_dict_append. rewrite (Z.eqb_sym (doc_uid doc) k).
    destruct (k =? doc_uid doc)%Z; [now rewrite <- app_assoc | reflexivity].
Qed.




Lemma collect_raises {S A B : Type} (f : A -> M S B) (l : list A) (x : A) :
  In x l -> (forall w, exists w' e, f x w = (w', Raise e)) ->
  forall w, exists w' e, collect l f w = (w', Raise e).
Proof.
  intros Hin Hx. induction l as [ | y l IH]; [contradiction | ]. intros w. simpl.
  unfold mbind. destruct (f y w) as [w1 [b | e]] eqn:Hy; [ | eauto].
  destruct Hin as [-> | Hin].
  - destruct (Hx w) as (w' & e & He). congruence.
  - destruct (IH Hin w1) as (w' & e & ->). eauto.
Qed.




(** The pipeline is all or nothing, and it never raises.  Every exception
    is caught, and the file is written in the last step only: when the
    summarizer fails for one business item, or the embedding service is
    down, the run ends with the exception caught and nothing is saved,
    whatever was computed for the other items.  A required setting that is
    missing ends the run at once, whatever the data store and the models
    would do. *)
Theorem pipeline_is_all_or_nothing (s : services) (w : world Z) :
  (exists ending, snd (process_data_pipeline_final s w) = Ok ending) /\
  (forall var, missing_setting s = Some var ->
     process_data_pipeline_final s w = (w, Ok (Caught ("请在 .env 文件中设置 " ++ var)))) /\
  (forall rows docs item e,
     select_businesses s = Ok rows -> select_docs s = Ok docs ->
     In item (test_table_map rows) ->
     completions_create s
       (fst (summary_request (snd item) (documents_of (fst item) docs)))
       (snd (summary_request (snd item) (documents_of (fst item) docs))) = Raise e \/
     (forall texts, embeddings_create (embedder s) texts = Raise e) ->
     exists e', snd (process_data_pipeline_final s w) = Ok (Caught e')).
Proof.
  split; [ | split].
  - unfold process_data_pipeline_final, try_except.
    match goal with
    | |- context [match ?body w with _ => _ end] => destruct (body w) as [w' [a | e]]
    end; eexists; reflexivity.
  - intros var Hvar. unfold process_data_pipeline_final, try_except, mbind, raise, ret.
    now rewrite Hvar.
  - intros rows docs item e Hrows Hdocs Hin Hfail.
    unfold process_data_pipeline_final, try_except.
    unfold mbind at 1.
    destruct (missing_setting s) as [var | ]; [unfold raise, ret; cbn [snd]; eauto | ].
    unfold ret at 1. unfold mbind at 1, lift at 1.
    destruct (pymysql_connect s) as [[] | e0]; [ | unfold ret; cbn [snd]; eauto].
    unfold mbind at 1, lift at 1. rewrite Hrows.
    unfold mbind at 1, lift at 1. rewrite Hdocs.
    unfold mbind at 1.
    assert (Hitem : forall w0, exists w' e',
               process_item s (docs_by_uid docs) item w0 = (w', Raise e')).
    { intros w0. destruct item as [item_id business_name].
      unfold process_item, docs_by_uid. rewrite docs_by_uid_get.
      cbn [dict_get get app fst snd] in *.
      destruct (summary_request business_name (documents_of item_id docs)) as [system user].
      unfold mbind, lift. cbn [fst snd] in *.
      destruct Hfail as [-> | Hemb]; [eauto | ].
      destruct (completions_create s system user) as [summary | e1]; [ | eauto].
      unfold generate_embeddings, mbind, try_except, lift, raise. rewrite Hemb. eauto. }
    destruct (collect_raises (process_item s (docs_by_uid docs)) (test_table_map rows) item
                Hin Hitem w) as (w' & e' & ->).
    unfold ret. cbn [snd]. eauto.
Qed.
End EmbDbFacts.

(** ** The prompts *)

Section PromptFacts.
Import QaEngine IntentRecognition PromptLoader.
Local Open Scope string_scope.
Local Open Scope list_scope.
Variable findall : string -> list (string * string).
Variable strip : string -> string.

Lemma dict_get_dict_set (k k' v : string) (d : list (string * string)) :
  dict_get k (dict_set k' v d) = if String.eqb k k' then Some v else dict_get k d.
Proof.
  induction d as [ | [k0 v0] d IH]; simpl.
  - reflexivity.
  - destruct (String.eqb_spec k' k0) as [<- | Hne]; simpl.
    + now destruct (String.eqb k k').
    + destruct (String.eqb_spec k k0) as [<- | Hne0]; [ | exact IH].
      destruct (String.eqb_spec k k'); [congruence | reflexivity].
Qed.

Lemma loaded_prompt (k : string) (blocks : list (string * string))
    (d : list (string * string)) (found : option string) :
  dict_get k d = option_map strip found ->
  dict_get k (fold_left (fun prompts m => dict_set (fst m) (strip (snd m)) prompts) blocks d) =
  option_map strip
    (fold_left (fun found m => if String.eqb k (fst m) then Some (snd m) else found)
               blocks found).
Proof.
  revert d found. induction blocks as [ | m blocks IH]; intros d found Hd; simpl; [exact Hd | ].
  apply IH. rewrite dict_get_dict_set. now destruct (String.eqb k (fst m)).
Qed.

(** The prompts of the loader.  A prompt file that is missing, or that
    cannot be read, leaves every prompt empty, without an exception: the
    classifier is still constructed, and it sends the model an empty system
    message before the history and the question.  From a file that is read,
    a prompt is the stripped content of the last block of its name, and the
    empty string when the file has no such block. *)
Theorem prompts_default_to_empty (prompt_file : file_read) (prompt_name : string) :
  (prompt_file = FileNotFoundError \/ (exists e, prompt_file = OtherError e) ->
   get_prompt (_load_prompts findall strip prompt_file) prompt_name = "" /\
   forall api_key service,
     truthy api_key = true ->
     exists classifier,
       new_classifier api_key None (_load_prompts findall strip prompt_file) service
         = Ok classifier /\
       forall q history,
         q <> "" ->
         chat classifier q history =
         service ([{| role := "system"; content := Str "" |}] ++ history
                    ++ [{| role := "user"; content := Str q |}])) /\
  (forall content,
     prompt_file = Content content ->
     get_prompt (_load_prompts findall strip prompt_file) prompt_name =
     match last_block prompt_name (findall content) with
     | Some block => strip block
     | None => ""
     end).
Proof.
  split.
  - intros Hmissing.
    assert (Hnone : _load_prompts findall strip prompt_file = []).
    { destruct Hmissing as [-> | [e ->]]; reflexivity. }
    rewrite Hnone. split; [reflexivity | ].
    intros api_key service Hkey. unfold new_classifier. rewrite Hkey.
    eexists. split; [reflexivity | ].
    intros q history Hq. unfold chat. cbn [system_prompt completions_create].
    destruct (String.eqb_spec q ""); [contradiction | reflexivity].
  - intros content ->. unfold get_prompt, _load_prompts, last_block.
    rewrite (loaded_prompt prompt_name (findall content) [] None eq_refl).
    now destruct (fold_left _ (findall content) None).
Qed.

End PromptFacts.

Section PromptExample.
Import QaEngine IntentRecognition PromptLoader.
Local Open Scope string_scope.
Local Open Scope list_scope.

Lemma prompts_default_to_empty_witness :
  get_prompt (_load_prompts (fun _ => []) (fun s => s) FileNotFoundError)
             "INTENT_RECOGNITION_PROMPT" = "" /\
  forall api_key service,
    truthy api_key = true ->
    exists classifier,
      new_classifier api_key None
        (_load_prompts (fun _ => []) (fun s => s) FileNotFoundError) service
        = Ok classifier /\
      forall q history,
        q <> "" ->
        chat classifier q history =
        service ([{| role := "system"; content := Str "" |}] ++ history
                   ++ [{| role := "user"; content := Str q |}]).
Proof.
  exact (proj1 (prompts_default_to_empty (fun _ => []) (fun s => s) FileNotFoundError
                  "INTENT_RECOGNITION_PROMPT")
               (or_introl eq_refl)).
Defined.
End PromptExample.

(** ** The properties on examples *)

Section RouterExamples.
Import VectorMatching DataStore ModelAnswer QaEngine QaEngineTurns ApiServer.
Local Open Scope string_scope.
Local Open Scope list_scope.

Lemma search_ignores_items_without_vector_witness :
  search (searcher_over base_without_vectors [1; 0]%float) "q" 3 0.5%float = Ok [].
Proof.
  exact (proj2 (search_ignores_items_without_vector
                  (searcher_over base_without_vectors [1; 0]%float) "q" 3 0.5%float)
               [1; 0]%float eq_refl eq_refl).
Defined.

Lemma chat_and_chat_stream_witness :
  ModelAnswer.chat breaking_bot "q" (InfoText "A") = Ok (error_text "connection reset") /\
  fragments (chat_stream breaking_bot "q" (InfoText "A")) =
    content_pieces broken_completion ++ [error_text "connection reset"].
Proof.
  exact (proj2 (proj2 (proj2 (proj2 (chat_and_chat_stream breaking_bot "q" (InfoText "A")))
                             "A" eq_refl))
               broken_completion "connection reset" eq_refl eq_refl).
Defined.

Lemma chat_works_on_one_session_witness :
  lookup "s1" (fst (ApiServer.chat (example_engine (Ok "t1") [0; 0]%float quiet_db steady_bot)
                         example_names (example_request (Some "s1") false)
                         [("s1", session_at 1)])) =
    Some (state (fst (handle_query (example_engine (Ok "t1") [0; 0]%float quiet_db steady_bot)
                        "q" "u" (start (session_at 1))))) /\
  get_session_info "s1"
    (fst (ApiServer.chat (example_engine (Ok "t1") [0; 0]%float quiet_db steady_bot)
               example_names (example_request (Some "s1") false) [("s1", session_at 1)])) =
    Http200 {| info_session_id := "s1"; info_int_id := 2; history_len := 0 + 2 |}.
Proof.
  exact (proj1 (proj2 (proj2 (proj2
           (chat_works_on_one_session
              (example_engine (Ok "t1") [0; 0]%float quiet_db steady_bot)
              example_names (example_request (Some "s1") false) [("s1", session_at 1)]))))
           eq_refl).
Defined.

Lemma branch1_chat_never_reports_failure_witness :
  branch1_chat unconfigured_branch
    {| b_item_id := 7; b_query := "q"; b_stream := Some true |} =
  BranchStreaming [ItemMetadata 7;
                   Content (Str ("处理失败: " ++ BranchEngine.tables_not_configured));
                   Done].
Proof.
  exact (proj2 (branch1_chat_never_reports_failure unconfigured_branch
                  {| b_item_id := 7; b_query := "q"; b_stream := Some true |})
               eq_refl eq_refl).
Defined.
End RouterExamples.

Section StoreExamples.
Import VectorMatching Embedding FetchData EmbDb.
Local Open Scope string_scope.
Local Open Scope list_scope.

Lemma generate_embeddings_numbers_records_witness :
  exists records,
    generate_embeddings unit_embedder (Texts ["a"; "b"]) (start 5%Z) =
    ({| state := (5 + Z.of_nat 2)%Z; calls := []; output := [] |}, Ok records) /\
    map item_id records = map Some (count_from 5 2) /\
    map item_text records = map Some (firstn 2 ["a"; "b"]) /\
    map item_vector records = map Some [[1%float]; [1%float]].
Proof.
  exact (proj1 (generate_embeddings_numbers_records unit_embedder (Texts ["a"; "b"])
                  (start 5%Z))
               [[1%float]; [1%float]] eq_refl (le_n 2)).
Defined.

Lemma failed_lookup_reads_as_not_found_witness :
  get_item plain_name (example_store (Raise "refused") (fun _ => Ok [])) 2 = NotFound404 2.
Proof.
  exact (proj1 (proj2 (failed_lookup_reads_as_not_found plain_name
                         (example_store (Raise "refused") (fun _ => Ok [])) 2))
               "refused" eq_refl).
Defined.

(** The second annex of the example has a name that is no table name; what
    the store would answer for it does not count. *)
Lemma refused_table_names_are_never_read_witness :
  get_item_data plain_name (example_store (Ok tt) (fun _ => Ok [])) 2 =
  get_item_data plain_name
    (example_store (Ok tt)
       (fun name => if plain_name (remove_underscores name) then Ok [] else Raise "refused"))
    2.
Proof.
  apply (proj1 (refused_table_names_are_never_read plain_name
                  (example_store (Ok tt) (fun _ => Ok [])) 2)).
  repeat split. intros name H. simpl. now rewrite H.
Defined.

Lemma pipeline_is_all_or_nothing_witness :
  exists e',
    snd (process_data_pipeline_final
           (example_services example_rows example_docs (Raise "quota")) (start 0%Z)) =
    Ok (Caught e').
Proof.
  exact (proj2 (proj2 (pipeline_is_all_or_nothing
                         (example_services example_rows example_docs (Raise "quota"))
                         (start 0%Z)))
               example_rows example_docs (2%Z, Some "B") "quota" eq_refl eq_refl
               (or_intror (or_introl eq_refl)) (or_introl eq_refl)).
Defined.
End StoreExamples.

Section ScriptExamples.
Import ModelAnswer BranchEngine.
Local Open Scope string_scope.
Local Open Scope list_scope.

Lemma script_asks_the_model_without_data_witness :
  let self := example_branch (Raise "refused") steady_bot in
  BranchScript.main self 7 "q" (start tt) =
  ({| state := tt;
      calls := [] ++ [CallFetchById 7] ++ [CallChatStream "q"];
      output := [] ++ IdLine 7 :: Str "AI: "
                   :: map Str (fragments (chat_stream steady_bot "q" (InfoPayload [] [])))
                   ++ [Str nl] |},
   Ok (join "" (fragments (chat_stream steady_bot "q" (InfoPayload [] []))))) /\
  calls (fst (handle_query_stream self 7 "q" (start tt))) = [] ++ [CallFetchById 7] /\
  exists e, output (fst (handle_query_stream self 7 "q" (start tt))) =
            [] ++ [Str ("处理失败: " ++ e)].
Proof.
  exact (proj2 (script_asks_the_model_without_data
                  (example_branch (Raise "refused") steady_bot) 7 "q" (start tt))
               (or_intror (ex_intro _ "refused" eq_refl)) eq_refl).
Defined.
End ScriptExamples.
